(** * receipt-tracker: the extraction pipeline and the transactions API

    A shallow embedding of the route handlers of the repository
    ([/api/process], [/api/transactions] and [/api/transactions/image])
    and of the list helpers of its pages, together with the part of the zod
    validation library and of the JavaScript runtime they rely on.

    - [Js]   : JavaScript values, numbers and strings.  The built-ins that
               depend on Unicode tables or on floating-point parsing
               ([trim], [trimStart], [toUpperCase], [Number], [JSON]) are
               the fields of the class [Runtime].
    - [Zod]  : the zod combinators used by the schemas, as parsers over
               [Js.val].  The major version of zod is not pinned by the
               sources, so the combinators take it as a parameter and the
               results below are proved for both majors.
    - [Process]      : [SourceTypeInputSchema], [BodySchema],
               [ReceiptSchema], [callOpenAiVision] and [POST].
    - [Transactions] : [GET], [DELETE], [PatchBodySchema] and [PATCH] over an
               in-memory model of the table and of the storage bucket.
    - [Image], [Client] : the signed URL of a receipt image; the name and
               the identifier of an upload, and the updaters of the list
               of rows.
    - [Sample], [Spec], [Props] : a concrete runtime and scenario, the
               statements of the specification, and further predicates.
    - the modules whose name ends in [Facts] hold the results. *)

From Stdlib Require Import ZArith QArith Qround Bool List String Ascii Lia.
From Stdlib Require Import DecimalString.
From Stdlib Require Import Permutation Sorted.
Import ListNotations.
Local Open Scope string_scope.
Local Open Scope Z_scope.

(* ================================================================== *)
(** ** JavaScript values *)
(* ================================================================== *)

Module Js.

(** A JavaScript number: a finite value (kept as an exact rational, every
    double is one), or one of the three non-finite values. *)
Inductive number : Type :=
| NaN : number
| Infinity (negative : bool) : number
| Fin (q : Q) : number.

(** Values as [JSON.parse] and zod produce them.  An object is the list of
    its own enumerable properties; property read takes the first binding. *)
Unset Elimination Schemes.
Inductive val : Type :=
| VUndefined : val
| VNull : val
| VBool (b : bool) : val
| VNum (n : number) : val
| VStr (s : string) : val
| VArr (items : list val) : val
| VObj (props : list (string * val)) : val.
Set Elimination Schemes.

Definition ofZ (z : Z) : val := VNum (Fin (inject_Z z)).

(** [Number.isFinite] and [Number.isInteger]. *)
Definition isFinite (n : number) : bool :=
  match n with Fin _ => true | _ => false end.

Definition isInteger (n : number) : bool :=
  match n with
  | Fin q => Qnum q mod Zpos (Qden q) =? 0
  | _ => false
  end.

(** [Number.isSafeInteger]. *)
Definition isSafeInteger (n : number) : bool :=
  match n with
  | Fin q => (Qnum q mod Zpos (Qden q) =? 0)
             && Qle_bool (inject_Z (- (2 ^ 53 - 1))) q
             && Qle_bool q (inject_Z (2 ^ 53 - 1))
  | _ => false
  end.

(** [a < b] and [a > b] on numbers; every comparison with [NaN] is false. *)
Definition lt (a b : number) : bool :=
  match a, b with
  | NaN, _ | _, NaN => false
  | Infinity true, Infinity true => false
  | Infinity true, _ => true
  | _, Infinity true => false
  | Infinity false, _ => false
  | _, Infinity false => true
  | Fin p, Fin q => negb (Qle_bool q p)
  end.

Definition gt (a b : number) : bool := lt b a.

(** [Math.round]: the nearest integer, ties towards plus infinity. *)
Definition round (n : number) : number :=
  match n with
  | Fin q => Fin (inject_Z (Qfloor (Qplus q (1 # 2))))
  | _ => n
  end.

(** Own-property lookup in a property list. *)
Fixpoint lookup {A : Type} (k : string) (kvs : list (string * A)) : option A :=
  match kvs with
  | [] => None
  | (k', v) :: rest => if String.eqb k k' then Some v else lookup k rest
  end.

(** [k in o] for a plain object. *)
Definition has {A : Type} (k : string) (kvs : list (string * A)) : bool :=
  match lookup k kvs with Some _ => true | None => false end.

(** [v?.k]: reading a property that none of [null], [undefined], a
    primitive or an array has gives [undefined]. *)
Definition get (v : val) (k : string) : val :=
  match v with
  | VObj kvs => match lookup k kvs with Some x => x | None => VUndefined end
  | _ => VUndefined
  end.

Definition isEmpty (s : string) : bool :=
  match s with EmptyString => true | _ => false end.

(** [typeof v === "string"], the string itself, [v === s] for a string
    literal [s], [v == null] and the truthiness of a value. *)
Definition isString (v : val) : bool :=
  match v with VStr _ => true | _ => false end.

Definition str (v : val) : string :=
  match v with VStr s => s | _ => EmptyString end.

Definition eqStr (v : val) (s : string) : bool :=
  match v with VStr t => String.eqb t s | _ => false end.

Definition isNullish (v : val) : bool :=
  match v with VUndefined | VNull => true | _ => false end.

Definition truthy (v : val) : bool :=
  match v with
  | VUndefined | VNull => false
  | VBool b => b
  | VNum NaN => false
  | VNum (Infinity _) => true
  | VNum (Fin q) => negb (Qnum q =? 0)
  | VStr s => negb (isEmpty s)
  | VArr _ | VObj _ => true
  end.

(** [a ?? b]. *)
Definition nullish (a b : val) : val :=
  match a with
  | VUndefined | VNull => b
  | _ => a
  end.

(** *** Strings

    A string is a sequence of characters.  The operations defined here
    ([removeQuotes], [startsWith], [slice] and the date pattern) look at
    ASCII characters only and are exact on every string.  [trim],
    [trimStart] and [toUpperCase] depend on the Unicode tables (white space
    such as U+00A0 or U+FEFF, letters such as U+00E9 or U+00DF): they are
    fields of [Runtime] below, known to agree on ASCII strings with
    [asciiTrim], [asciiTrimStart] and [asciiUpperCase]. *)

Definition isAsciiChar (c : ascii) : bool := (nat_of_ascii c <? 128)%nat.

Fixpoint isAscii (s : string) : bool :=
  match s with
  | EmptyString => true
  | String c s' => isAsciiChar c && isAscii s'
  end.

(** The white space and the line terminators below 128. *)
Definition isWhiteSpace (c : ascii) : bool :=
  let n := nat_of_ascii c in
  ((n =? 9) || (n =? 10) || (n =? 11) || (n =? 12) || (n =? 13) || (n =? 32))%nat.

Definition isDigit (c : ascii) : bool :=
  let n := nat_of_ascii c in
  ((48 <=? n) && (n <=? 57))%nat.

(** [s.trimStart()], [s.trimEnd()] and [s.trim()] on a string of ASCII
    characters. *)
Fixpoint asciiTrimStart (s : string) : string :=
  match s with
  | EmptyString => EmptyString
  | String c s' => if isWhiteSpace c then asciiTrimStart s' else s
  end.

Fixpoint asciiTrimEnd (s : string) : string :=
  match s with
  | EmptyString => EmptyString
  | String c s' =>
      let t := asciiTrimEnd s' in
      if isWhiteSpace c && isEmpty t then EmptyString else String c t
  end.

Definition asciiTrim (s : string) : string := asciiTrimEnd (asciiTrimStart s).

Definition upper (c : ascii) : ascii :=
  let n := nat_of_ascii c in
  if ((97 <=? n) && (n <=? 122))%nat then ascii_of_nat (n - 32) else c.

Definition lower (c : ascii) : ascii :=
  let n := nat_of_ascii c in
  if ((65 <=? n) && (n <=? 90))%nat then ascii_of_nat (n + 32) else c.

Fixpoint mapString (f : ascii -> ascii) (s : string) : string :=
  match s with
  | EmptyString => EmptyString
  | String c s' => String (f c) (mapString f s')
  end.

(** [s.toUpperCase()] on a string of ASCII characters. *)
Definition asciiUpperCase (s : string) : string := mapString upper s.

(** The string without its double-quote characters (code 34), as the
    global [replace] of the date preprocessor leaves it. *)
Definition quote : ascii := ascii_of_nat 34.

Fixpoint removeQuotes (s : string) : string :=
  match s with
  | EmptyString => EmptyString
  | String c s' =>
      if Ascii.eqb c quote then removeQuotes s' else String c (removeQuotes s')
  end.

(** [s.startsWith(p)] and [s.slice(n)]. *)
Definition startsWith (p s : string) : bool := String.prefix p s.

Fixpoint slice (n : nat) (s : string) : string :=
  match n, s with
  | O, _ => s
  | S n', String _ s' => slice n' s'
  | S _, EmptyString => EmptyString
  end.

(** [/^\d{4}-\d{2}-\d{2}$/.test(s)]. *)
Definition isIsoDate (s : string) : bool :=
  match list_ascii_of_string s with
  | [y1; y2; y3; y4; d1; m1; m2; d2; a1; a2] =>
      isDigit y1 && isDigit y2 && isDigit y3 && isDigit y4
      && Ascii.eqb d1 "-"%char
      && isDigit m1 && isDigit m2
      && Ascii.eqb d2 "-"%char
      && isDigit a1 && isDigit a2
  | _ => false
  end.

(** The built-ins of the runtime that are not defined here: [Number]
    applied to a string, [JSON.parse] ([None] when it throws a
    [SyntaxError]), [JSON.stringify], and the three string methods
    [trim], [trimStart] and [toUpperCase].  Nothing is assumed of the
    string methods beyond their values on ASCII strings, so every result
    below holds whatever they do to the other characters. *)
Class Runtime : Type := {
  Number : string -> number;
  JSON_parse : string -> option val;
  JSON_stringify : val -> string;
  trim : string -> string;
  trimStart : string -> string;
  toUpperCase : string -> string;
  trim_ascii : forall s, isAscii s = true -> trim s = asciiTrim s;
  trimStart_ascii :
    forall s, isAscii s = true -> trimStart s = asciiTrimStart s;
  toUpperCase_ascii :
    forall s, isAscii s = true -> toUpperCase s = asciiUpperCase s
}.

(** [/not\s*found/i.test(s)]: somewhere in [s], the letters of "not" in
    either case, any number of white-space characters, then the letters of
    "found" in either case.  Without the [u] flag the letters match ASCII
    letters only; the class [\s] is the white space and the line
    terminators, which is what [trimStart] strips. *)
Definition notFoundHere {rt : Runtime} (s : string) : bool :=
  String.prefix "not" s && String.prefix "found" (trimStart (slice 3 s)).

Fixpoint searchNotFound {rt : Runtime} (s : string) : bool :=
  notFoundHere s ||
  match s with
  | EmptyString => false
  | String _ s' => searchNotFound s'
  end.

Definition matchesNotFound {rt : Runtime} (s : string) : bool :=
  searchNotFound (mapString lower s).

End Js.

(* ================================================================== *)
(** ** The zod combinators used by the schemas *)
(* ================================================================== *)

Module Zod.
Import Js.

(** The two majors differ, for what the schemas below use, in four places:
    [optional] over a schema that already accepts [undefined], where
    [default] sends its value, whether [z.number()] admits an infinity, and
    whether [int()] also asks for a safe integer. *)
Inductive Major : Type := V3 | V4.

(** An issue is kept as its path; codes and messages differ between the
    majors and no handler reads them. *)
Definition ZodIssue : Type := list string.

(** A parse gives a value, or at least one issue. *)
Inductive ParseReturn : Type :=
| OK (value : val)
| INVALID (first : ZodIssue) (more : list ZodIssue).

(** A schema: its parser, and whether it accepts [undefined] on input. *)
Record ZodType : Type := mkType {
  optin : bool;
  _parse : val -> ParseReturn
}.

Definition issue : ParseReturn := INVALID [] [].

Definition isUndefined (v : val) : bool :=
  match v with VUndefined => true | _ => false end.

(** [z.string()] and [z.string().min(n)]. *)
Definition z_string : ZodType :=
  mkType false (fun v => match v with VStr _ => OK v | _ => issue end).

Definition z_string_min (n : nat) : ZodType :=
  mkType false (fun v =>
    match v with
    | VStr s => if (n <=? String.length s)%nat then OK v else issue
    | _ => issue
    end).

(** [z.null()]. *)
Definition z_null : ZodType :=
  mkType false (fun v => match v with VNull => OK v | _ => issue end).

(** [z.number()] followed by its checks; every failed check adds an issue. *)
Definition isNumberType (ver : Major) (n : number) : bool :=
  match n, ver with
  | NaN, _ => false
  | Infinity _, V3 => true
  | Infinity _, V4 => false
  | Fin _, _ => true
  end.

Definition z_number (ver : Major) (checks : list (number -> bool)) : ZodType :=
  mkType false (fun v =>
    match v with
    | VNum n =>
        if isNumberType ver n then
          match filter (fun check => negb (check n)) checks with
          | [] => OK v
          | _ :: failed => INVALID [] (map (fun _ => []) failed)
          end
        else issue
    | _ => issue
    end).

(** The checks [.int()], [.nonnegative()], [.min(0)] and [.max(1)]. *)
Definition int (ver : Major) (n : number) : bool :=
  match ver with
  | V3 => isInteger n
  | V4 => isSafeInteger n
  end.

Definition min (bound : Z) (n : number) : bool :=
  negb (lt n (Fin (inject_Z bound))).

Definition max (bound : Z) (n : number) : bool :=
  negb (gt n (Fin (inject_Z bound))).

Definition nonnegative : number -> bool := min 0.

(** [z.enum([...])]. *)
Definition z_enum (values : list string) : ZodType :=
  mkType false (fun v =>
    match v with
    | VStr s => if existsb (String.eqb s) values then OK v else issue
    | _ => issue
    end).

(** [z.union([...])]: the first member that accepts the input. *)
Fixpoint firstValid (members : list ZodType) (v : val) : ParseReturn :=
  match members with
  | [] => issue
  | s :: rest =>
      match _parse s v with
      | OK r => OK r
      | INVALID _ _ => firstValid rest v
      end
  end.

Definition z_union (members : list ZodType) : ZodType :=
  mkType (existsb optin members) (firstValid members).

(** [s.nullable()]. *)
Definition nullable (s : ZodType) : ZodType :=
  mkType (optin s) (fun v => match v with VNull => OK VNull | _ => _parse s v end).

(** [s.optional()].  In zod 3 [undefined] is answered at once; in zod 4 it
    is first offered to an inner schema that accepts it. *)
Definition optional (ver : Major) (s : ZodType) : ZodType :=
  mkType true (fun v =>
    match ver, optin s, v with
    | V4, true, _ => _parse s v
    | _, _, VUndefined => OK VUndefined
    | _, _, _ => _parse s v
    end).

(** [s.default(d)].  In zod 3 the default value is parsed by [s]; in zod 4
    it is the result, also when [s] itself answers [undefined]. *)
Definition default (ver : Major) (d : val) (s : ZodType) : ZodType :=
  mkType true (fun v =>
    match ver, v with
    | V3, VUndefined => _parse s d
    | V3, _ => _parse s v
    | V4, VUndefined => OK d
    | V4, _ =>
        match _parse s v with
        | OK VUndefined => OK d
        | r => r
        end
    end).

(** [z.preprocess(f, s)] and [s.transform(f)]. *)
Definition preprocess (f : val -> val) (s : ZodType) : ZodType :=
  mkType false (fun v => _parse s (f v)).

Definition transform (f : val -> val) (s : ZodType) : ZodType :=
  mkType (optin s) (fun v =>
    match _parse s v with
    | OK r => OK (f r)
    | INVALID first more => INVALID first more
    end).

(** [z.object(shape)]: each key of the shape is parsed from the property
    of that name ([undefined] when missing); a key whose result is
    [undefined] is set only if the input has it; issues get the key in
    front of their path.  Keys outside the shape are dropped ([strip], the
    default) or reported ([strict]). *)
Inductive UnknownKeys : Type := strip | strict.

Definition Shape : Type := list (string * ZodType).

Fixpoint parseShape (shape : Shape) (data : list (string * val))
  : list (string * val) * list ZodIssue :=
  match shape with
  | [] => ([], [])
  | (k, s) :: rest =>
      let (out, issues) := parseShape rest data in
      match _parse s (get (VObj data) k) with
      | OK v =>
          (if isUndefined v && negb (has k data) then out else (k, v) :: out,
           issues)
      | INVALID first more =>
          (out, ((k :: first) :: map (cons k) more ++ issues)%list)
      end
  end.

Definition unknownKeys (shape : Shape) (data : list (string * val)) : list string :=
  filter (fun k => negb (has k shape)) (map fst data).

Definition z_object (mode : UnknownKeys) (shape : Shape) : ZodType :=
  mkType false (fun v =>
    match v with
    | VObj data =>
        let (out, issues) := parseShape shape data in
        let extra :=
          match mode, unknownKeys shape data with
          | strict, _ :: _ => [[]]
          | _, _ => []
          end in
        match (issues ++ extra)%list with
        | [] => OK (VObj out)
        | first :: more => INVALID first more
        end
    | _ => issue
    end).

(** [shape] after [.partial()]: every member wrapped in [optional]. *)
Definition partial (ver : Major) (shape : Shape) : Shape :=
  map (fun ks => (fst ks, optional ver (snd ks))) shape.

(** [s.parse(v)] returns the value or throws a [ZodError]. *)
Definition parse (s : ZodType) (v : val) : list ZodIssue + val :=
  match _parse s v with
  | OK r => inr r
  | INVALID first more => inl (first :: more)
  end.

End Zod.

(* ================================================================== *)
(** ** Requests, responses, and the Supabase back end *)
(* ================================================================== *)

Module Http.
Import Js Zod.

(** What a handler reads of a request: the [authorization] header, the
    body as [req.json()] gives it ([None] when that throws) and the [id]
    search parameter. *)
Record Request : Type := mkRequest {
  authorization : option string;
  json : option val;
  search_id : option string
}.

(** Exceptions the handlers can see: a failed [parse], a failed
    [JSON.parse] or [req.json()], the [fetch] aborted by its controller,
    the error built from the status of a non-2xx answer, and [new Error]
    with a message. *)
Inductive Exn : Type :=
| ZodError (issues : list ZodIssue)
| SyntaxError
| AbortError
| RequestFailed (status : Z)
| Error (message : string).

(** The [error] member of a response: a literal of the source, or the
    message of what was caught. *)
Inductive ErrorText : Type :=
| Text (s : string)
| MessageOf (e : Exn).

End Http.

Module Store.
Import Js.

(** A row of the [transactions] table. *)
Record Row : Type := mkRow {
  id : string;
  user_id : string;
  created_at : Z;
  txn_date : val;
  merchant : val;
  total_cents : val;
  currency : val;
  category : val;
  source_type : val;
  image_path : val;
  ai_json : val;
  confidence : val
}.

(** The persistent state: the table and the paths of the stored images. *)
Record Db : Type := mkDb {
  transactions : list Row;
  objects : list string
}.

(** A back-end call, as it appears in the log of a run. *)
Inductive Call : Type :=
| AuthGetUser (token : string)
| CreateSignedUrl (path : string) (ttl : Z)
| OpenAiResponses (signedUrl : string) (sourceType : string)
| Insert (row : Row)
| Select
| Update
| Delete
| StorageRemove (path : string).

Record World : Type := mkWorld {
  db : Db;
  calls : list Call
}.

Definition isInsert (c : Call) : bool :=
  match c with Insert _ => true | _ => false end.

(** The number of insert requests sent to the table during a run. *)
Definition insertAttempts (w : World) : nat :=
  List.length (filter isInsert (calls w)).

(** What [createSignedUrl] answers: [data?.signedUrl] and [error?.message]. *)
Record SignedUrlResult : Type := mkSigned {
  signedUrl : option string;
  sign_error : option string
}.

(** An HTTP answer of the model API: the status, and what [res.text()]
    and [res.json()] give ([None] when they reject). *)
Record HttpResponse : Type := mkHttp {
  http_status : Z;
  http_text : option string;
  http_json : option val
}.

Definition ok (res : HttpResponse) : bool :=
  (200 <=? http_status res) && (http_status res <=? 299).

(** How the model API behaves on one request: the promise of [fetch]
    never settles, it rejects (the connection fails), or it resolves with
    a response, after so many milliseconds.  The abort timer is cleared as
    soon as [fetch] has resolved, so the body of the response is read
    without a time limit; it is taken as delivered, in [http_text] and
    [http_json]. *)
Inductive Upstream : Type :=
| Silent
| Fails (after_ms : Z) (message : string)
| Answers (after_ms : Z) (res : HttpResponse).

(** Everything outside the handlers: the auth service ([None] for an
    error or no user), the storage signer, the model API and its key, the
    error (if any) the table or the bucket answers to each kind of request,
    and the [id] and [created_at] the table gives to a new row. *)
Record Env : Type := mkEnv {
  getUser : string -> option string;
  createSignedUrl : string -> Z -> SignedUrlResult;
  OPENAI_API_KEY : option string;
  openai : string -> string -> Upstream;
  insert_error : option string;
  select_error : option string;
  update_error : option string;
  delete_error : option string;
  remove_error : option string;
  new_id : string;
  now : Z
}.

(** [.eq("id", id).eq("user_id", uid)] and [.eq("user_id", uid)]. *)
Definition owned (uid : string) (r : Row) : bool := String.eqb (user_id r) uid.

Definition ownedWithId (id0 uid : string) (r : Row) : bool :=
  String.eqb (id r) id0 && String.eqb (user_id r) uid.

(** [.maybeSingle()]: no row, the row, or an error for more than one. *)
Inductive Single : Type :=
| NoRow
| OneRow (r : Row)
| ManyRows.

Definition maybeSingle (rows : list Row) : Single :=
  match rows with
  | [] => NoRow
  | [r] => OneRow r
  | _ => ManyRows
  end.

Definition multipleRows : string :=
  "JSON object requested, multiple (or no) rows returned".

(** [.order("created_at", { ascending: false })]. *)
Fixpoint insertDesc (r : Row) (sorted : list Row) : list Row :=
  match sorted with
  | [] => [r]
  | r' :: rest =>
      if created_at r' <? created_at r then r :: sorted
      else r' :: insertDesc r rest
  end.

Definition orderDesc (rows : list Row) : list Row :=
  fold_right insertDesc [] rows.

End Store.

(* ================================================================== *)
(** ** Handlers as state-passing computations *)
(* ================================================================== *)

Module Handler.
Import Js Zod Http Store.

Inductive Body : Type :=
| ErrorBody (error : ErrorText)
| TransactionBody (transaction : Row)
| TransactionsBody (transactions : list Row)
| OkBody.

Record Response : Type := mkResponse {
  status : Z;
  body : Body
}.

Definition errorResponse (code : Z) (message : string) : Response :=
  mkResponse code (ErrorBody (Text message)).

(** A step of a handler goes on with a value, returns a response, or
    throws; it reads and writes the world. *)
Inductive Outcome (A : Type) : Type :=
| Next (a : A)
| Return (r : Response)
| Throw (e : Exn).

Arguments Next {A} a.
Arguments Return {A} r.
Arguments Throw {A} e.

Definition M (A : Type) : Type := World -> Outcome A * World.

Definition ret {A : Type} (a : A) : M A := fun w => (Next a, w).

Definition bind {A B : Type} (m : M A) (k : A -> M B) : M B :=
  fun w =>
    match m w with
    | (Next a, w') => k a w'
    | (Return r, w') => (Return r, w')
    | (Throw e, w') => (Throw e, w')
    end.

Definition respond {A : Type} (r : Response) : M A := fun w => (Return r, w).

Definition throw {A : Type} (e : Exn) : M A := fun w => (Throw e, w).

Definition lift {A : Type} (r : Exn + A) : M A :=
  match r with
  | inl e => throw e
  | inr a => ret a
  end.

(** A request sent to the back end is appended to the log. *)
Definition request (c : Call) : M unit :=
  fun w => (Next tt, mkWorld (db w) (calls w ++ [c])%list).

Definition getDb : M Db := fun w => (Next (db w), w).

Definition putDb (d : Db) : M unit := fun w => (Next tt, mkWorld d (calls w)).

(** Running a handler whose body sits in [try { ... } catch (e) { ... }]. *)
Definition tryCatch (m : M Response) (handler : Exn -> Response)
  : World -> Response * World :=
  fun w =>
    match m w with
    | (Next r, w') => (r, w')
    | (Return r, w') => (r, w')
    | (Throw e, w') => (handler e, w')
    end.

(** [s.parse(v)] inside a handler. *)
Definition zodParse (s : ZodType) (v : val) : Exn + val :=
  match parse s v with
  | inl issues => inl (ZodError issues)
  | inr r => inr r
  end.

(** The bearer token of a request, [null] ([None]) without the prefix. *)
Definition bearerToken (req : Request) : option string :=
  let authHeader :=
    match authorization req with Some h => h | None => EmptyString end in
  if startsWith "Bearer " authHeader
  then Some (slice (String.length "Bearer ") authHeader)
  else None.

End Handler.

Declare Scope handler_scope.
Delimit Scope handler_scope with handler.
Notation "x <- c ;; k" := (Handler.bind c (fun x => k))
  (at level 61, c at next level, right associativity) : handler_scope.
Notation "c ;;; k" := (Handler.bind c (fun _ => k))
  (at level 61, right associativity) : handler_scope.

(* ================================================================== *)
(** ** [/api/process]: schemas, model call and [POST] *)
(* ================================================================== *)

Module Process.
Import Js Zod Http Store Handler.

(** [SourceTypeInputSchema] and [BodySchema]. *)
Definition SourceTypeInputSchema : ZodType :=
  transform
    (fun v =>
       match v with
       | VStr s => if String.eqb s "screenshot" then VStr "screenshot" else VStr "receipt"
       | _ => VStr "receipt"
       end)
    (z_enum ["receipt"; "screenshot"; "camera"; "upload"]).

Definition BodySchema : ZodType :=
  z_object strip
    [("imagePath", z_string_min 1); ("sourceType", SourceTypeInputSchema)].

Section Schemas.
Context {rt : Runtime}.
Variable ver : Major.

(** The four [preprocess] functions of [ReceiptSchema]. *)
Definition txn_date_preprocess (v : val) : val :=
  match v with
  | VStr s =>
      let trimmed := trim s in
      if String.eqb trimmed "" || String.eqb trimmed "//" then VNull
      else if String.eqb (removeQuotes trimmed) "" then VNull
      else if isIsoDate trimmed then VStr trimmed else VNull
  | _ => VNull
  end.

Definition number_preprocess (v : val) : val :=
  match v with
  | VNum _ => v
  | VStr s => let n := Number s in if isFinite n then VNum n else VNull
  | _ => VNull
  end.

Definition currency_preprocess (v : val) : val :=
  match v with
  | VStr s =>
      let trimmed := trim s in
      if (0 <? String.length trimmed)%nat then VStr (toUpperCase trimmed)
      else VStr "CAD"
  | _ => VStr "CAD"
  end.

(** The seven members of [ReceiptSchema], in the order of the source. *)
Definition plain_string_field : ZodType :=
  default ver VNull (optional ver (nullable z_string)).

Definition merchant_field : ZodType := plain_string_field.

Definition txn_date_field : ZodType :=
  default ver VNull
    (optional ver (preprocess txn_date_preprocess (nullable z_string))).

Definition total_cents_field : ZodType :=
  default ver VNull
    (optional ver
       (preprocess number_preprocess
          (nullable (z_number ver [int ver; nonnegative])))).

Definition currency_field : ZodType :=
  default ver (VStr "CAD")
    (optional ver (preprocess currency_preprocess z_string)).

Definition category_field : ZodType := plain_string_field.

Definition confidence_field : ZodType :=
  default ver VNull
    (optional ver
       (preprocess number_preprocess
          (nullable (z_number ver [min 0; max 1])))).

Definition notes_field : ZodType := plain_string_field.

Definition ReceiptShape : Shape :=
  [("merchant", merchant_field);
   ("txn_date", txn_date_field);
   ("total_cents", total_cents_field);
   ("currency", currency_field);
   ("category", category_field);
   ("confidence", confidence_field);
   ("notes", notes_field)].

Definition ReceiptSchema : ZodType :=
  z_object strip (partial ver ReceiptShape).

(** The normalizer: [ReceiptSchema.parse(raw)]. *)
Definition normalize (raw : val) : list ZodIssue + val :=
  parse ReceiptSchema raw.

(** *** Reading the text out of the model's response

    The second half of [callOpenAiVision], from [res.json()] on. *)

(** [Array.isArray(v) ? v : []]. *)
Definition arrayOrEmpty (v : val) : list val :=
  match v with VArr items => items | _ => [] end.

Definition isBlank (s : string) : bool :=
  negb (0 <? String.length (trim s))%nat.

(** One turn of the inner loop: what the three tests return for a part,
    or [None] when the loop goes on. *)
Definition partText (part : val) : option string :=
  if eqStr (get part "type") "output_text" && isString (get part "text")
  then Some (str (get part "text"))
  else if eqStr (get part "type") "output_json" && negb (isNullish (get part "json"))
  then Some (JSON_stringify (get part "json"))
  else if isString (get part "text") && negb (isBlank (str (get part "text")))
  then Some (str (get part "text"))
  else None.

Fixpoint scanContent (content : list val) : option string :=
  match content with
  | [] => None
  | part :: rest =>
      match partText part with
      | Some text => Some text
      | None => scanContent rest
      end
  end.

Fixpoint scanOutput (output : list val) : option string :=
  match output with
  | [] => None
  | item :: rest =>
      match scanContent (arrayOrEmpty (get item "content")) with
      | Some text => Some text
      | None => scanOutput rest
      end
  end.

Definition responseText (payload : val) : Exn + string :=
  let directText := get payload "output_text" in
  if isString directText && negb (isBlank (str directText))
  then inr (str directText)
  else
    match scanOutput (arrayOrEmpty (get payload "output")) with
    | Some text => inr text
    | None => inl (Error "OpenAI response missing output text/json.")
    end.

End Schemas.

(** *** The model call and the pipeline *)

Section Pipeline.
Context {rt : Runtime}.
Variable ver : Major.
Variable env : Env.

Local Open Scope handler_scope.

(** The abort timer of [callOpenAiVision], in milliseconds. *)
Definition timeout_ms : Z := 60000.

(** [fetch] under the abort signal: whatever has not happened when the
    timer fires is replaced by the rejection with [AbortError]. *)
Definition fetch (upstream : Upstream) : Exn + HttpResponse :=
  match upstream with
  | Silent => inl AbortError
  | Fails after_ms message =>
      if timeout_ms <=? after_ms then inl AbortError else inl (Error message)
  | Answers after_ms res =>
      if timeout_ms <=? after_ms then inl AbortError else inr res
  end.

Definition callOpenAiVision (signedUrl sourceType : string) : M string :=
  match OPENAI_API_KEY env with
  | None => throw (Error "Missing OPENAI_API_KEY.")
  | Some apiKey =>
      if isEmpty apiKey then throw (Error "Missing OPENAI_API_KEY.")
      else
        request (OpenAiResponses signedUrl sourceType) ;;;
        res <- lift (fetch (openai env signedUrl sourceType)) ;;
        if negb (ok res) then
          match http_text res with
          | Some text =>
              if isEmpty text then throw (RequestFailed (http_status res))
              else throw (Error text)
          | None => throw (RequestFailed (http_status res))
          end
        else
          payload <- lift (match http_json res with
                           | Some payload => inr payload
                           | None => inl SyntaxError
                           end) ;;
          lift (responseText payload)
  end.

(** The row sent to [insert]; a member that is [undefined] is not sent and
    the column is stored as [null]. *)
Definition column (v : val) : val := nullish v VNull.

Definition newRow (uid imagePath sourceType : string) (parsed : val) : Row :=
  {| id := new_id env;
     user_id := uid;
     created_at := now env;
     txn_date := column (get parsed "txn_date");
     merchant := column (get parsed "merchant");
     total_cents := column (get parsed "total_cents");
     currency := nullish (get parsed "currency") (VStr "CAD");
     category := column (get parsed "category");
     source_type := VStr sourceType;
     image_path := VStr imagePath;
     ai_json := parsed;
     confidence := column (get parsed "confidence") |}.

Definition POST_try (req : Request) : M Response :=
  match bearerToken req with
  | None => respond (errorResponse 401 "Missing Authorization bearer token.")
  | Some token =>
      if isEmpty token
      then respond (errorResponse 401 "Missing Authorization bearer token.")
      else
        request (AuthGetUser token) ;;;
        match getUser env token with
        | None => respond (errorResponse 401 "Unauthorized.")
        | Some uid =>
            raw <- lift (match json req with
                         | Some raw => inr raw
                         | None => inl SyntaxError
                         end) ;;
            body <- lift (zodParse BodySchema raw) ;;
            let imagePath := str (get body "imagePath") in
            let sourceType := str (get body "sourceType") in
            request (CreateSignedUrl imagePath (60 * 10)) ;;;
            let signed := createSignedUrl env imagePath (60 * 10) in
            match sign_error signed, signedUrl signed with
            | Some message, _ => respond (errorResponse 500 message)
            | None, None => respond (errorResponse 500 "No signed URL")
            | None, Some url =>
                if isEmpty url then respond (errorResponse 500 "No signed URL")
                else
                  rawText <- callOpenAiVision url sourceType ;;
                  model <- lift (match JSON_parse rawText with
                                 | Some model => inr model
                                 | None => inl SyntaxError
                                 end) ;;
                  parsed <- lift (zodParse (ReceiptSchema ver) model) ;;
                  let row := newRow uid imagePath sourceType parsed in
                  request (Insert row) ;;;
                  match insert_error env with
                  | Some message => respond (errorResponse 500 message)
                  | None =>
                      d <- getDb ;;
                      putDb (mkDb (transactions d ++ [row])%list (objects d)) ;;;
                      ret (mkResponse 200 (TransactionBody row))
                  end
            end
        end
  end.

Definition POST (req : Request) : World -> Response * World :=
  tryCatch (POST_try req) (fun e => mkResponse 400 (ErrorBody (MessageOf e))).

End Pipeline.

End Process.

(* ================================================================== *)
(** ** [/api/transactions]: [GET], [DELETE] and [PATCH] *)
(* ================================================================== *)

Module Transactions.
Import Js Zod Http Store Handler.

Section Handlers.
Context {rt : Runtime}.
Variable ver : Major.
Variable env : Env.

Local Open Scope handler_scope.

(** [getUserFromRequest]: the user's id, or the text of the error. *)
Definition getUserFromRequest (req : Request) : M (string + string) :=
  match bearerToken req with
  | None => ret (inl "Missing Authorization bearer token.")
  | Some token =>
      if isEmpty token then ret (inl "Missing Authorization bearer token.")
      else
        request (AuthGetUser token) ;;;
        match getUser env token with
        | None => ret (inl "Unauthorized.")
        | Some uid => ret (inr uid)
        end
  end.

Definition GET_body (req : Request) : M Response :=
  auth <- getUserFromRequest req ;;
  match auth with
  | inl authError => respond (errorResponse 401 authError)
  | inr uid =>
      request Select ;;;
      d <- getDb ;;
      match select_error env with
      | Some message => respond (errorResponse 500 message)
      | None =>
          ret (mkResponse 200
                 (TransactionsBody (orderDesc (filter (owned uid) (transactions d)))))
      end
  end.

(** [req.json()] with its [catch]: a body that is not JSON reads as [null]. *)
Definition bodyOrNull (req : Request) : val :=
  match json req with Some b => b | None => VNull end.

Definition DELETE_body (req : Request) : M Response :=
  auth <- getUserFromRequest req ;;
  match auth with
  | inl authError => respond (errorResponse 401 authError)
  | inr uid =>
      let body := bodyOrNull req in
      let id0 := if isString (get body "id") then str (get body "id") else EmptyString in
      if isEmpty id0 then respond (errorResponse 400 "Missing transaction id.")
      else
        request Select ;;;
        d <- getDb ;;
        match select_error env, maybeSingle (filter (ownedWithId id0 uid) (transactions d)) with
        | Some message, _ => respond (errorResponse 500 message)
        | None, ManyRows => respond (errorResponse 500 multipleRows)
        | None, NoRow => respond (errorResponse 404 "Not found.")
        | None, OneRow txn =>
            (if truthy (image_path txn) then
               request (StorageRemove (str (image_path txn))) ;;;
               match remove_error env with
               | Some message =>
                   if negb (matchesNotFound message)
                   then respond (errorResponse 500 message)
                   else ret tt
               | None =>
                   putDb (mkDb (transactions d)
                            (filter (fun path => negb (String.eqb path (str (image_path txn))))
                               (objects d)))
               end
             else ret tt) ;;;
            request Delete ;;;
            d' <- getDb ;;
            match delete_error env, maybeSingle (filter (ownedWithId id0 uid) (transactions d')) with
            | Some message, _ => respond (errorResponse 500 message)
            | None, ManyRows => respond (errorResponse 500 multipleRows)
            | None, NoRow => respond (errorResponse 404 "Not found.")
            | None, OneRow _ =>
                putDb (mkDb (filter (fun r => negb (ownedWithId id0 uid r)) (transactions d'))
                         (objects d')) ;;;
                ret (mkResponse 200 OkBody)
            end
        end
  end.

(** The [transform] functions of [PatchBodySchema]. *)
Definition trimmedOrNull (v : val) : val :=
  match v with
  | VUndefined => VUndefined
  | VNull => VNull
  | _ =>
      let trimmed := trim (str v) in
      if (0 <? String.length trimmed)%nat then VStr trimmed else VNull
  end.

Definition patch_txn_date (v : val) : val :=
  match v with
  | VUndefined => VUndefined
  | VNull => VNull
  | _ =>
      let trimmed := trim (str v) in
      if negb (0 <? String.length trimmed)%nat then VNull
      else if isIsoDate trimmed then VStr trimmed else VNull
  end.

Definition patch_total_cents (v : val) : val :=
  match v with
  | VUndefined => VUndefined
  | VNull => VNull
  | _ =>
      let n := match v with VNum n => n | _ => Number (str v) end in
      if negb (isFinite n) then VNull
      else
        let asInt := round n in
        if lt asInt (Fin (inject_Z 0)) then VNull else VNum asInt
  end.

Definition patch_currency (v : val) : val :=
  match v with
  | VUndefined => VUndefined
  | VNull => VNull
  | _ =>
      let trimmed := trim (str v) in
      if negb (0 <? String.length trimmed)%nat then VNull
      else VStr (toUpperCase trimmed)
  end.

Definition stringOrNull : ZodType := z_union [z_string; z_null].

Definition PatchBodySchema : ZodType :=
  z_object strict
    [("id", z_string_min 1);
     ("merchant", transform trimmedOrNull (optional ver stringOrNull));
     ("txn_date", transform patch_txn_date (optional ver stringOrNull));
     ("total_cents",
        transform patch_total_cents
          (optional ver (z_union [z_number ver []; z_string; z_null])));
     ("currency", transform patch_currency (optional ver stringOrNull));
     ("category", transform trimmedOrNull (optional ver stringOrNull))].

(** The [update] object: the members of [parsed] that are not [undefined]. *)
Definition updateOf (parsed : val) : list (string * val) :=
  filter (fun kv => negb (isUndefined (snd kv)))
    (map (fun k => (k, get parsed k))
       ["merchant"; "txn_date"; "total_cents"; "currency"; "category"]).

Definition updated (current : val) (k : string) (update : list (string * val)) : val :=
  match lookup k update with Some v => v | None => current end.

Definition applyUpdate (update : list (string * val)) (r : Row) : Row :=
  {| id := id r;
     user_id := user_id r;
     created_at := created_at r;
     txn_date := updated (txn_date r) "txn_date" update;
     merchant := updated (merchant r) "merchant" update;
     total_cents := updated (total_cents r) "total_cents" update;
     currency := updated (currency r) "currency" update;
     category := updated (category r) "category" update;
     source_type := source_type r;
     image_path := image_path r;
     ai_json := ai_json r;
     confidence := confidence r |}.

Definition PATCH_body (req : Request) : M Response :=
  auth <- getUserFromRequest req ;;
  match auth with
  | inl authError => respond (errorResponse 401 authError)
  | inr uid =>
      match zodParse PatchBodySchema (bodyOrNull req) with
      | inl e => respond (mkResponse 400 (ErrorBody (MessageOf e)))
      | inr parsed =>
          let update := updateOf parsed in
          if (List.length update =? 0)%nat
          then respond (errorResponse 400 "No fields to update.")
          else
            let id0 := str (get parsed "id") in
            request Update ;;;
            d <- getDb ;;
            match update_error env, maybeSingle (filter (ownedWithId id0 uid) (transactions d)) with
            | Some message, _ => respond (errorResponse 500 message)
            | None, ManyRows => respond (errorResponse 500 multipleRows)
            | None, NoRow => respond (errorResponse 404 "Not found.")
            | None, OneRow txn =>
                putDb (mkDb (map (fun r => if ownedWithId id0 uid r
                                           then applyUpdate update r else r)
                               (transactions d))
                         (objects d)) ;;;
                ret (mkResponse 200 (TransactionBody (applyUpdate update txn)))
            end
      end
  end.

(** None of the three handlers has a [try] around its body and none of
    the steps above throws, so the handler passed to [tryCatch] is never
    called; it stands for the framework's answer to an exception. *)
Definition unhandled (e : Exn) : Response :=
  mkResponse 500 (ErrorBody (MessageOf e)).

Definition GET (req : Request) : World -> Response * World :=
  tryCatch (GET_body req) unhandled.

Definition DELETE (req : Request) : World -> Response * World :=
  tryCatch (DELETE_body req) unhandled.

Definition PATCH (req : Request) : World -> Response * World :=
  tryCatch (PATCH_body req) unhandled.

End Handlers.

End Transactions.

(* ================================================================== *)
(** ** A runtime for the worked examples *)
(* ================================================================== *)

Module Sample.
Import Js Http Store.

(** Decimal numerals: [digitsValue] reads a run of digits, giving its
    value, its length and what follows. *)
Definition digitOf (c : ascii) : Z := Z.of_nat (nat_of_ascii c) - 48.

Fixpoint digitsValue (s : string) (acc : Z) (count : nat) : Z * nat * string :=
  match s with
  | String c s' =>
      if isDigit c then digitsValue s' (10 * acc + digitOf c) (S count)
      else (acc, count, s)
  | EmptyString => (acc, count, s)
  end.

Definition signOf (s : string) : bool * string :=
  match s with
  | String c s' =>
      if Ascii.eqb c "-"%char then (true, s')
      else if Ascii.eqb c "+"%char then (false, s')
      else (false, s)
  | EmptyString => (false, s)
  end.

Definition scaled (negative : bool) (mantissa exponent : Z) : Q :=
  let m := if negative then - mantissa else mantissa in
  if 0 <=? exponent then inject_Z (m * 10 ^ exponent)
  else Qred (Qmake m (Z.to_pos (10 ^ (- exponent)))).

(** [Number(s)] on the decimal literals of the language (sign, digits,
    fraction, exponent, [Infinity]), with the exact value of the literal
    instead of the nearest double; the empty string is [0]; anything else,
    the hexadecimal, octal and binary forms included, reads as [NaN]. *)
Definition decimalNumber (s : string) : number :=
  let t := asciiTrim s in
  if isEmpty t then Fin (inject_Z 0)
  else
    let (negative, s1) := signOf t in
    if String.eqb s1 "Infinity" then Infinity negative
    else
      let '(whole, n1, s2) := digitsValue s1 0 0 in
      let '(mantissa, n2, s3) :=
        match s2 with
        | String c s' =>
            if Ascii.eqb c "."%char then digitsValue s' whole 0 else (whole, O, s2)
        | EmptyString => (whole, O, s2)
        end in
      if (n1 + n2 =? 0)%nat then NaN
      else
        match s3 with
        | EmptyString => Fin (scaled negative mantissa (- Z.of_nat n2))
        | String c s' =>
            if Ascii.eqb c "e"%char || Ascii.eqb c "E"%char then
              let (negativeExp, s4) := signOf s' in
              let '(e, n3, s5) := digitsValue s4 0 0 in
              if (n3 =? 0)%nat || negb (isEmpty s5) then NaN
              else Fin (scaled negative mantissa
                          ((if negativeExp then - e else e) - Z.of_nat n2))
            else NaN
        end.

(** [JSON.stringify] on values: the members of an object that are
    [undefined] are left out, [undefined] in an array and the non-finite
    numbers print as [null].  A number prints as its decimal expansion, cut
    after 17 fraction digits when it does not end. *)
Definition backslash : ascii := ascii_of_nat 92.

Definition escapeOf (c : ascii) : option ascii :=
  let n := nat_of_ascii c in
  if (n =? 34)%nat then Some quote
  else if (n =? 92)%nat then Some backslash
  else if (n =? 8)%nat then Some "b"%char
  else if (n =? 9)%nat then Some "t"%char
  else if (n =? 10)%nat then Some "n"%char
  else if (n =? 12)%nat then Some "f"%char
  else if (n =? 13)%nat then Some "r"%char
  else None.

Fixpoint escaped (s : string) : string :=
  match s with
  | EmptyString => EmptyString
  | String c s' =>
      match escapeOf c with
      | Some e => String backslash (String e (escaped s'))
      | None => String c (escaped s')
      end
  end.

Definition quoted (s : string) : string :=
  String quote (escaped s ++ String quote EmptyString).

Definition integerText (z : Z) : string :=
  if z <? 0 then "-" ++ NilZero.string_of_uint (N.to_uint (Z.to_N (- z)))
  else NilZero.string_of_uint (N.to_uint (Z.to_N z)).

Fixpoint fractionText (digits : nat) (remainder : Z) (den : Z) : string :=
  match digits with
  | O => EmptyString
  | S digits' =>
      if remainder =? 0 then EmptyString
      else
        String (ascii_of_nat (48 + Z.to_nat (10 * remainder / den)))
          (fractionText digits' ((10 * remainder) mod den) den)
  end.

Definition numberText (q : Q) : string :=
  let den := Zpos (Qden q) in
  let whole := Z.abs (Qnum q) / den in
  let remainder := Z.abs (Qnum q) mod den in
  let sign := if (Qnum q <? 0) && negb ((whole =? 0) && (remainder =? 0)) then "-" else "" in
  if remainder =? 0 then sign ++ integerText whole
  else sign ++ integerText whole ++ "." ++ fractionText 17 remainder den.

Fixpoint stringify (v : val) : string :=
  match v with
  | VUndefined | VNull => "null"
  | VBool true => "true"
  | VBool false => "false"
  | VNum (Fin q) => numberText q
  | VNum _ => "null"
  | VStr s => quoted s
  | VArr items =>
      "[" ++ String.concat "," (List.map stringify items) ++ "]"
  | VObj props =>
      "{" ++ String.concat ","
               ((fix members (l : list (string * val)) : list string :=
                   match l with
                   | [] => []
                   | (k, VUndefined) :: rest => members rest
                   | (k, x) :: rest => (quoted k ++ ":" ++ stringify x) :: members rest
                   end) props) ++ "}"
  end.

(** [JSON.parse] by recursive descent; [None] stands for the
    [SyntaxError].  Escapes of the form [\uXXXX] are not read, and a
    number is read by [decimalNumber], which admits a few spellings more
    than the JSON grammar; of a member written twice the last value is
    kept. *)
Definition isJsonSpace (c : ascii) : bool :=
  let n := nat_of_ascii c in
  ((n =? 9) || (n =? 10) || (n =? 13) || (n =? 32))%nat.

Fixpoint skipSpace (s : string) : string :=
  match s with
  | String c s' => if isJsonSpace c then skipSpace s' else s
  | EmptyString => s
  end.

Definition unescapeOf (c : ascii) : option ascii :=
  let n := nat_of_ascii c in
  if (n =? 34)%nat then Some quote
  else if (n =? 92)%nat then Some backslash
  else if (n =? 47)%nat then Some "/"%char
  else if (n =? 98)%nat then Some (ascii_of_nat 8)
  else if (n =? 116)%nat then Some (ascii_of_nat 9)
  else if (n =? 110)%nat then Some (ascii_of_nat 10)
  else if (n =? 102)%nat then Some (ascii_of_nat 12)
  else if (n =? 114)%nat then Some (ascii_of_nat 13)
  else None.

(** The characters of a string literal after its opening quote, and what
    follows the closing one. *)
Fixpoint stringBody (s : string) : option (string * string) :=
  match s with
  | EmptyString => None
  | String c s' =>
      if Ascii.eqb c quote then Some (EmptyString, s')
      else if Ascii.eqb c backslash then
        match s' with
        | String e s'' =>
            match unescapeOf e, stringBody s'' with
            | Some ch, Some (body, rest) => Some (String ch body, rest)
            | _, _ => None
            end
        | EmptyString => None
        end
      else if (nat_of_ascii c <? 32)%nat then None
      else
        match stringBody s' with
        | Some (body, rest) => Some (String c body, rest)
        | None => None
        end
  end.

Definition isNumberChar (c : ascii) : bool :=
  isDigit c || Ascii.eqb c "-"%char || Ascii.eqb c "+"%char
  || Ascii.eqb c "."%char || Ascii.eqb c "e"%char || Ascii.eqb c "E"%char.

Fixpoint numberToken (s : string) : string * string :=
  match s with
  | String c s' =>
      if isNumberChar c then let (token, rest) := numberToken s' in (String c token, rest)
      else (EmptyString, s)
  | EmptyString => (EmptyString, s)
  end.

Definition startsWithChar (c : ascii) (s : string) : bool :=
  match s with String c' _ => Ascii.eqb c c' | EmptyString => false end.

Fixpoint parseValue (fuel : nat) (s : string) : option (val * string) :=
  match fuel with
  | O => None
  | S fuel' =>
      let s := skipSpace s in
      if String.prefix "null" s then Some (VNull, slice 4 s)
      else if String.prefix "true" s then Some (VBool true, slice 4 s)
      else if String.prefix "false" s then Some (VBool false, slice 5 s)
      else
        match s with
        | EmptyString => None
        | String c rest =>
            if Ascii.eqb c quote then
              match stringBody rest with
              | Some (body, rest') => Some (VStr body, rest')
              | None => None
              end
            else if Ascii.eqb c "["%char then
              if startsWithChar "]"%char (skipSpace rest)
              then Some (VArr [], slice 1 (skipSpace rest))
              else
                (fix elements (n : nat) (s : string) : option (val * string) :=
                   match n with
                   | O => None
                   | S n' =>
                       match parseValue fuel' s with
                       | None => None
                       | Some (x, after) =>
                           let after := skipSpace after in
                           if startsWithChar "]"%char after
                           then Some (VArr [x], slice 1 after)
                           else if startsWithChar ","%char after then
                             match elements n' (slice 1 after) with
                             | Some (VArr more, rest') => Some (VArr (x :: more), rest')
                             | _ => None
                             end
                           else None
                       end
                   end) fuel' rest
            else if Ascii.eqb c "{"%char then
              if startsWithChar "}"%char (skipSpace rest)
              then Some (VObj [], slice 1 (skipSpace rest))
              else
                (fix members (n : nat) (s : string) : option (val * string) :=
                   match n with
                   | O => None
                   | S n' =>
                       match skipSpace s with
                       | String q afterQuote =>
                           if Ascii.eqb q quote then
                             match stringBody afterQuote with
                             | Some (k, afterKey) =>
                                 if startsWithChar ":"%char (skipSpace afterKey) then
                                   match parseValue fuel' (slice 1 (skipSpace afterKey)) with
                                   | None => None
                                   | Some (x, after) =>
                                       let after := skipSpace after in
                                       if startsWithChar "}"%char after
                                       then Some (VObj [(k, x)], slice 1 after)
                                       else if startsWithChar ","%char after then
                                         match members n' (slice 1 after) with
                                         | Some (VObj more, rest') =>
                                             Some (VObj (if has k more then more
                                                         else (k, x) :: more), rest')
                                         | _ => None
                                         end
                                       else None
                                   end
                                 else None
                             | None => None
                             end
                           else None
                       | EmptyString => None
                       end
                   end) fuel' rest
            else
              let (token, rest') := numberToken s in
              if isDigit c || Ascii.eqb c "-"%char then
                match decimalNumber token with
                | Fin q => Some (VNum (Fin q), rest')
                | _ => None
                end
              else None
        end
  end.

(** The whole text has to be one value. *)
Definition parseText (text : string) : option val :=
  match parseValue (S (String.length text)) text with
  | Some (v, rest) => if isEmpty (skipSpace rest) then Some v else None
  | None => None
  end.

(** The scenarios below hold ASCII text only, where the string methods
    are their ASCII versions. *)
Definition runtime : Runtime :=
  {| Number := decimalNumber;
     JSON_parse := parseText;
     JSON_stringify := stringify;
     trim := asciiTrim;
     trimStart := asciiTrimStart;
     toUpperCase := asciiUpperCase;
     trim_ascii := fun s _ => eq_refl;
     trimStart_ascii := fun s _ => eq_refl;
     toUpperCase_ascii := fun s _ => eq_refl |}.

(** A scenario: two users with one transaction each, a request of the
    first user to process an uploaded image, and a model API that never
    answers. *)
Definition row (id0 uid path : string) (at_ : Z) : Row :=
  {| id := id0; user_id := uid; created_at := at_;
     txn_date := VStr "2024-03-01"; merchant := VStr "Costco";
     total_cents := ofZ 4599; currency := VStr "CAD";
     category := VStr "Groceries"; source_type := VStr "receipt";
     image_path := VStr path; ai_json := VNull;
     confidence := VNum (Fin (92 # 100)) |}.

Definition world : World :=
  mkWorld
    (mkDb [row "txn-a" "alice" "alice/2024-03/a.jpg" 10;
           row "txn-b" "bob" "bob/2024-03/b.jpg" 20]
          ["alice/2024-03/a.jpg"; "bob/2024-03/b.jpg"])
    [].

Definition silentEnv : Env :=
  {| getUser := fun token => if String.eqb token "alice-token" then Some "alice" else None;
     createSignedUrl := fun path _ => mkSigned (Some ("https://storage.test/" ++ path)) None;
     OPENAI_API_KEY := Some "sk-test";
     openai := fun _ _ => Silent;
     insert_error := None;
     select_error := None;
     update_error := None;
     delete_error := None;
     remove_error := None;
     new_id := "txn-c";
     now := 30 |}.

(** The same environment with a model API that answers after 1.2 s with
    the record of the end-to-end scenario as its top-level text. *)
Definition costco : val :=
  VObj [("merchant", VStr "Costco"); ("txn_date", VStr "2024-03-01");
        ("total_cents", ofZ 4599); ("currency", VStr "cad");
        ("category", VStr "Groceries"); ("confidence", VNum (Fin (92 # 100)));
        ("notes", VNull)].

Definition answeringEnv : Env :=
  {| getUser := getUser silentEnv;
     createSignedUrl := createSignedUrl silentEnv;
     OPENAI_API_KEY := OPENAI_API_KEY silentEnv;
     openai := fun _ _ =>
       Answers 1200
         (mkHttp 200 None (Some (VObj [("output_text", VStr (stringify costco))])));
     insert_error := None;
     select_error := None;
     update_error := None;
     delete_error := None;
     remove_error := None;
     new_id := new_id silentEnv;
     now := now silentEnv |}.

(** The first user renames the merchant of their own transaction and sets
    its currency. *)
Definition renameRequest : Request :=
  mkRequest (Some "Bearer alice-token")
    (Some (VObj [("id", VStr "txn-a"); ("merchant", VStr " Costco Wholesale ");
                 ("currency", VStr "usd")]))
    None.

(** The first environment with a bucket that answers every removal with
    an error. *)
Definition brokenBucketEnv : Env :=
  {| getUser := getUser silentEnv;
     createSignedUrl := createSignedUrl silentEnv;
     OPENAI_API_KEY := OPENAI_API_KEY silentEnv;
     openai := openai silentEnv;
     insert_error := None;
     select_error := None;
     update_error := None;
     delete_error := None;
     remove_error := Some "Bucket is offline";
     new_id := new_id silentEnv;
     now := now silentEnv |}.

Definition unlistedSourceRequest : Request :=
  mkRequest (Some "Bearer alice-token")
    (Some (VObj [("imagePath", VStr "alice/2024-03/c.jpg");
                 ("sourceType", VStr "foo")]))
    None.

Definition processRequest : Request :=
  mkRequest (Some "Bearer alice-token")
    (Some (VObj [("imagePath", VStr "alice/2024-03/c.jpg");
                 ("sourceType", VStr "camera")]))
    None.

(** The first user asks to change, or to delete, the second user's
    transaction. *)
Definition foreignRequest : Request :=
  mkRequest (Some "Bearer alice-token")
    (Some (VObj [("id", VStr "txn-b"); ("merchant", VStr "Mine")]))
    None.

End Sample.

(* ================================================================== *)
(** ** The statements of the specification *)
(* ================================================================== *)

Module Spec.
Import Js Zod Http Store Handler Process Transactions.

(** Merchant as the spec has it: trimmed, and absent when nothing is left. *)
Definition merchant_trimmed {rt : Runtime} (v : val) : val :=
  match v with
  | VStr s => if isBlank s then VNull else VStr (trim s)
  | _ => VNull
  end.

(** The date as the spec has it: the input string when its trimmed form is
    a [YYYY-MM-DD] literal. *)
Definition txn_date_as_input {rt : Runtime} (v : val) : val :=
  match v with
  | VStr s => if isIsoDate (trim s) then VStr s else VNull
  | _ => VNull
  end.

(** The date as the code has it: the trimmed string. *)
Definition txn_date_trimmed {rt : Runtime} (v : val) : val :=
  match v with
  | VStr s => if isIsoDate (trim s) then VStr (trim s) else VNull
  | _ => VNull
  end.

(** The currency as the spec has it. *)
Definition currency_upper {rt : Runtime} (v : val) : string :=
  match v with
  | VStr s => if isBlank s then "CAD" else toUpperCase (trim s)
  | _ => "CAD"
  end.

(** The member of the record the normalizer returns, for a member schema
    that gives [result] on the member [v] of the input: [partial] wraps
    every member in [optional], and the [optional] of zod 3 returns
    [undefined] for a missing member without running the schema, so that
    the member is left out of the record; zod 4 runs the schema, default
    included. *)
Definition partialMember (ver : Major) (v result : val) : val :=
  match ver, v with
  | V3, VUndefined => VUndefined
  | _, _ => result
  end.

(** The source type as the code has it: the four listed values only. *)
Definition sourceType_listed (v : val) : list ZodIssue + val :=
  match v with
  | VStr s =>
      if String.eqb s "screenshot" then inr (VStr "screenshot")
      else if String.eqb s "receipt" || String.eqb s "camera" || String.eqb s "upload"
      then inr (VStr "receipt")
      else inl [[]]
  | _ => inl [[]]
  end.

(** The claims that fail on the code, as they are stated. *)
Definition sourceType_fallback (v : val) : Prop :=
  v <> VStr "receipt" -> v <> VStr "screenshot" ->
  parse SourceTypeInputSchema v = inr (VStr "receipt").

Definition merchant_is_trimmed {rt : Runtime} (ver : Major) (v : val) : Prop :=
  _parse (merchant_field ver) v = OK (merchant_trimmed v).

Definition txn_date_is_input {rt : Runtime} (ver : Major) (v : val) : Prop :=
  _parse (txn_date_field ver) v = OK (txn_date_as_input v).


(** *** The pipeline *)

(** The model API answers (or fails) before the given time. *)
Definition respondsWithin (ms : Z) (upstream : Upstream) : Prop :=
  match upstream with
  | Silent => False
  | Fails after_ms _ => after_ms < ms
  | Answers after_ms _ => after_ms < ms
  end.

(** A run of [POST] on [req] got as far as the signing step: the bearer
    token of the request resolves to [uid], the body of the request is
    JSON that [BodySchema] accepts, and [path] and [sourceType] are the
    image path and the source type of the parsed body. *)
Definition reachesSigning (env : Env) (req : Request)
    (token uid path sourceType : string) : Prop :=
  bearerToken req = Some token /\ isEmpty token = false
  /\ getUser env token = Some uid
  /\ exists raw body,
       json req = Some raw /\ zodParse BodySchema raw = inr body
       /\ path = str (get body "imagePath")
       /\ sourceType = str (get body "sourceType").

(** The signing step of the run on [path] fails: an error, or no URL. *)
Definition signingFailsFor (env : Env) (path : string) : Prop :=
  sign_error (createSignedUrl env path (60 * 10)) <> None
  \/ signedUrl (createSignedUrl env path (60 * 10)) = None
  \/ signedUrl (createSignedUrl env path (60 * 10)) = Some EmptyString.

(** The signing step of the run on [path] gives [url]. *)
Definition signsAs (env : Env) (path url : string) : Prop :=
  sign_error (createSignedUrl env path (60 * 10)) = None
  /\ signedUrl (createSignedUrl env path (60 * 10)) = Some url
  /\ isEmpty url = false.

(** The world in which a run from [w] makes its model call: the table and
    the bucket of [w], and the log of [w] with the two requests the run has
    sent by then. *)
Definition beforeModelCall (w : World) (token path : string) : World :=
  mkWorld (db w)
    ((calls w ++ [AuthGetUser token]) ++ [CreateSignedUrl path (60 * 10)])%list.

(** Nothing was persisted between two worlds: the same table and bucket,
    and no insert request sent. *)
Definition nothingPersisted (w w' : World) : Prop :=
  db w' = db w /\ insertAttempts w' = insertAttempts w.

(** Every step before persistence succeeds in the run of [POST] on [req]
    from [w]: the run reaches the signing step, the signing of its path
    gives a URL, the model call on that URL in the world the run has reached
    returns a text, that text is JSON, and the normalizer accepts it. *)
Definition stepsSucceededIn {rt : Runtime} (ver : Major) (env : Env)
    (req : Request) (w : World) : Prop :=
  exists token uid path sourceType url text w2 model parsed,
    reachesSigning env req token uid path sourceType
    /\ signsAs env path url
    /\ callOpenAiVision env url sourceType (beforeModelCall w token path)
       = (Next text, w2)
    /\ JSON_parse text = Some model
    /\ normalize ver model = inr parsed.

(** An error answer: an [error] body under a status other than 200. *)
Definition isError (r : Response) : Prop :=
  exists e, body r = ErrorBody e /\ status r <> 200.

(** *** The transactions API *)

(** The request carries a bearer token that the auth service resolves to
    the user [uid]. *)
Definition authenticated (env : Env) (req : Request) (uid : string) : Prop :=
  exists token,
    bearerToken req = Some token /\ isEmpty token = false
    /\ getUser env token = Some uid.

(** The id is the id of a stored transaction, and no transaction with
    that id belongs to [uid]. *)
Definition belongsToAnother (d : Db) (id0 uid : string) : Prop :=
  (exists r, In r (transactions d) /\ id r = id0)
  /\ (forall r, In r (transactions d) -> id r = id0 -> user_id r <> uid).

(** The rows of the table that are not [uid]'s. *)
Definition othersRows (uid : string) (d : Db) : list Row :=
  filter (fun r => negb (owned uid r)) (transactions d).

End Spec.

(* ================================================================== *)
(** ** [/api/transactions/image]: the signed URL of a receipt image *)
(* ================================================================== *)

Module Image.
Import Js Zod Http Store Handler Transactions.

Section Handlers.
Variable env : Env.

Local Open Scope handler_scope.

(** The body of [GET]; what is left as the value is the [signedUrl] of the
    200 answer. *)
Definition GET_body (req : Request) : M string :=
  auth <- getUserFromRequest env req ;;
  match auth with
  | inl authError => respond (errorResponse 401 authError)
  | inr uid =>
      match search_id req with
      | None => respond (errorResponse 400 "Missing id.")
      | Some id0 =>
          if isEmpty id0 then respond (errorResponse 400 "Missing id.")
          else
            request Select ;;;
            d <- getDb ;;
            match select_error env,
                  maybeSingle (filter (ownedWithId id0 uid) (transactions d)) with
            | Some message, _ => respond (errorResponse 500 message)
            | None, ManyRows => respond (errorResponse 500 multipleRows)
            | None, NoRow => respond (errorResponse 404 "Not found.")
            | None, OneRow txn =>
                if negb (truthy (image_path txn))
                then respond (errorResponse 404 "No image available.")
                else
                  request (CreateSignedUrl (str (image_path txn)) (60 * 10)) ;;;
                  let signed := createSignedUrl env (str (image_path txn)) (60 * 10) in
                  match sign_error signed, signedUrl signed with
                  | Some message, _ => respond (errorResponse 500 message)
                  | None, None =>
                      respond (errorResponse 500 "Failed to create signed URL.")
                  | None, Some url =>
                      if isEmpty url
                      then respond (errorResponse 500 "Failed to create signed URL.")
                      else ret url
                  end
            end
      end
  end.

(** The answer: an error response, or the signed URL (status 200). *)
Definition GET (req : Request) : World -> (Response + string) * World :=
  fun w =>
    match GET_body req w with
    | (Next url, w') => (inr url, w')
    | (Return r, w') => (inl r, w')
    | (Throw e, w') => (inl (unhandled e), w')
    end.

End Handlers.

End Image.

(* ================================================================== *)
(** ** The pages: file names, identifiers and the list of rows *)
(* ================================================================== *)

Module Client.
Import Js Store.

(** *** [AddPage]: the path of an upload *)

(** The characters the class [[a-zA-Z0-9._-]] holds. *)
Definition isSafeChar (c : ascii) : bool :=
  let n := nat_of_ascii c in
  (((97 <=? n) && (n <=? 122)) || ((65 <=? n) && (n <=? 90))
   || ((48 <=? n) && (n <=? 57))
   || (n =? 46) || (n =? 95) || (n =? 45))%nat.

(** [name.replace(/[^a-zA-Z0-9._-]+/g, "-")]: every maximal run of other
    characters becomes one dash; [inRun] says that the run has begun. *)
Fixpoint replaceUnsafe (inRun : bool) (name : string) : string :=
  match name with
  | EmptyString => EmptyString
  | String c rest =>
      if isSafeChar c then String c (replaceUnsafe false rest)
      else if inRun then replaceUnsafe true rest
      else String "-"%char (replaceUnsafe true rest)
  end.

Definition safeName (name : string) : string := replaceUnsafe false name.

(** *** [uuidLike], from sixteen random bytes *)

Definition hexDigit (n : Z) : ascii :=
  if n <? 10 then ascii_of_nat (48 + Z.to_nat n)
  else ascii_of_nat (87 + Z.to_nat n).

(** [b.toString(16)] for a byte. *)
Definition toString16 (b : Z) : string :=
  if b <? 16 then String (hexDigit b) EmptyString
  else String (hexDigit (b / 16)) (String (hexDigit (b mod 16)) EmptyString).

(** [s.padStart(2, "0")]. *)
Definition padStart2 (s : string) : string :=
  match String.length s with
  | O => "00"
  | S O => "0" ++ s
  | _ => s
  end.

Fixpoint setByte (i : nat) (b : Z) (bytes : list Z) : list Z :=
  match i, bytes with
  | _, [] => []
  | O, _ :: rest => b :: rest
  | S i', b0 :: rest => b0 :: setByte i' b rest
  end.

(** The third branch of [uuidLike]: version and variant bits, two
    hexadecimal digits a byte, and the five groups. *)
Definition uuidFromBytes (random : list Z) : string :=
  let bytes := setByte 6 (Z.lor (Z.land (nth 6 random 0) 15) 64) random in
  let bytes := setByte 8 (Z.lor (Z.land (nth 8 bytes 0) 63) 128) bytes in
  let hex := String.concat "" (map (fun b => padStart2 (toString16 b)) bytes) in
  substring 0 8 hex ++ "-" ++ substring 8 4 hex ++ "-"
  ++ substring 12 4 hex ++ "-" ++ substring 16 4 hex ++ "-"
  ++ slice 20 hex.

(** *** [TransactionsPage]: the row taken out while a delete is on its
    way, and put back when it fails *)

Fixpoint findIndex (id0 : string) (rows : list Row) : option nat :=
  match rows with
  | [] => None
  | r :: rest =>
      if String.eqb (id r) id0 then Some O
      else match findIndex id0 rest with
           | Some i => Some (S i)
           | None => None
           end
  end.

(** The first updater of [deleteTransaction]: the index and the row that
    were found ([None] for [-1] and [null]), and the rows that stay. *)
Definition takeOut (id0 : string) (prev : list Row)
  : option (nat * Row) * list Row :=
  (match findIndex id0 prev with
   | Some idx =>
       match nth_error prev idx with
       | Some removed => Some (idx, removed)
       | None => None
       end
   | None => None
   end,
   filter (fun r => negb (String.eqb (id r) id0)) prev).

(** The updater of its [catch]: nothing when a row with that id is there
    again, the row spliced in at its old index otherwise. *)
Definition putBack (removedIndex : nat) (removed : Row) (prev : list Row)
  : list Row :=
  if existsb (fun r => String.eqb (id r) (id removed)) prev then prev
  else
    let insertAt := Nat.min removedIndex (List.length prev) in
    (firstn insertAt prev ++ removed :: skipn insertAt prev)%list.

(** The updater after a save: the row with the id of [updated] replaced. *)
Definition replaceRow (updated : Row) (prev : list Row) : list Row :=
  map (fun r => if String.eqb (id r) (id updated) then updated else r) prev.

End Client.

(* ================================================================== *)
(** ** Further properties, as predicates *)
(* ================================================================== *)

Module Props.
Import Js Zod Http Store Handler Process Transactions.

(** *** What the normalizer accepts *)

Definition isOK (r : ParseReturn) : bool :=
  match r with OK _ => true | INVALID _ _ => false end.

(** A member that is missing, [null] or a string. *)
Definition plainOk (v : val) : bool :=
  match v with
  | VUndefined | VNull | VStr _ => true
  | _ => false
  end.

(** A member that [number_preprocess] turns into [null], or into a number
    that [z.number()] takes and that passes the checks. *)
Definition numberOk {rt : Runtime} (ver : Major) (checks : list (number -> bool))
  (v : val) : bool :=
  match number_preprocess v with
  | VNum n => isNumberType ver n && forallb (fun check => check n) checks
  | _ => true
  end.

Definition accepted {rt : Runtime} (ver : Major) (raw : val) : bool :=
  match raw with
  | VObj _ =>
      plainOk (get raw "merchant")
      && numberOk ver [int ver; nonnegative] (get raw "total_cents")
      && plainOk (get raw "category")
      && numberOk ver [min 0; max 1] (get raw "confidence")
      && plainOk (get raw "notes")
  | _ => false
  end.

(** *** What a stored value looks like *)

Definition absentOrString (v : val) : Prop :=
  v = VNull \/ exists s, v = VStr s.

Definition absentOrIsoDate (v : val) : Prop :=
  v = VNull \/ exists s, v = VStr s /\ isIsoDate s = true.

Definition absentOrCents (v : val) : Prop :=
  v = VNull
  \/ exists q, v = VNum (Fin q) /\ isInteger (Fin q) = true /\ (0 <= q)%Q.

Definition absentOrUnitInterval (v : val) : Prop :=
  v = VNull \/ exists q, v = VNum (Fin q) /\ (0 <= q)%Q /\ (q <= 1)%Q.

(** The default, or what [toUpperCase] gives of a trimmed string that is
    not empty. *)
Definition upperCaseCode {rt : Runtime} (v : val) : Prop :=
  v = VStr "CAD"
  \/ exists s, trim s <> EmptyString /\ v = VStr (toUpperCase (trim s)).

(** The columns of a row as the normalizer leaves them. *)
Definition normalizedRow {rt : Runtime} (r : Row) : Prop :=
  absentOrString (merchant r)
  /\ absentOrIsoDate (txn_date r)
  /\ absentOrCents (total_cents r)
  /\ upperCaseCode (currency r)
  /\ absentOrString (category r)
  /\ absentOrUnitInterval (confidence r).

(** *** Requests without a user *)

(** No bearer token, an empty one, or one the auth service does not
    resolve to a user. *)
Definition unauthenticated (env : Env) (req : Request) : Prop :=
  match bearerToken req with
  | None => True
  | Some token => isEmpty token = true \/ getUser env token = None
  end.

(** Between two worlds nothing was stored or removed, and nothing was
    asked of the back end but the user of a token. *)
Definition onlyAskedAuth (w w' : World) : Prop :=
  db w' = db w
  /\ exists asked,
       calls w' = (calls w ++ asked)%list
       /\ forall c, In c asked -> exists token, c = AuthGetUser token.

(** *** The table *)

Definition newestFirst (a b : Row) : Prop := created_at b <= created_at a.

(** The columns no request can change. *)
Definition fixedColumns (r : Row) : string * string * Z * val * val * val * val :=
  (id r, user_id r, created_at r, source_type r, image_path r, ai_json r,
   confidence r).

(** The bucket after a [DELETE] that found [txn]: the image is gone when
    the row names one and the bucket answered without an error. *)
Definition objectsAfterDelete (env : Env) (txn : Row) (d : Db) : list string :=
  match remove_error env with
  | None =>
      if truthy (image_path txn)
      then filter (fun path => negb (String.eqb path (str (image_path txn))))
             (objects d)
      else objects d
  | Some _ => objects d
  end.

(** The columns a patch can name, and the column of a row under such a
    name. *)
Definition patchKeys : list string :=
  ["merchant"; "txn_date"; "total_cents"; "currency"; "category"].

Definition patchable (k : string) (r : Row) : val :=
  if String.eqb k "merchant" then merchant r
  else if String.eqb k "txn_date" then txn_date r
  else if String.eqb k "total_cents" then total_cents r
  else if String.eqb k "currency" then currency r
  else if String.eqb k "category" then category r
  else VUndefined.





End Props.

(* ================================================================== *)
(** ** Results on the zod combinators *)
(* ================================================================== *)

Module ZodFacts.
Import Js Zod.

(** The object built by [parseShape] has no key outside the shape. *)
Lemma parseShape_lookup_outside :
  forall (shape : Shape) (data out : list (string * val)) (issues : list ZodIssue),
    parseShape shape data = (out, issues) ->
    forall k, ~ In k (map fst shape) -> lookup k out = None.
Proof.
  induction shape as [|[k0 s0] rest IH]; intros data out issues Hparse k Hk.
  - simpl in Hparse. inversion Hparse. reflexivity.
  - cbn [parseShape] in Hparse.
    destruct (parseShape rest data) as [out' issues'] eqn:Hrest.
    assert (Hne : String.eqb k k0 = false).
    { apply String.eqb_neq. intro; subst. apply Hk. now left. }
    assert (Hout' : lookup k out' = None).
    { apply (IH data out' issues' Hrest). intro Hc. apply Hk. now right. }
    destruct (_parse s0 (get (VObj data) k0)) as [v0|first more].
    + inversion Hparse; subst.
      destruct (isUndefined v0 && negb (has k0 data)); simpl;
        [assumption | rewrite Hne; assumption].
    + inversion Hparse; subst. assumption.
Qed.

(** A parse of an object without issues gives, for every key of the shape,
    the result of the member's parser on the property of that name. *)
Lemma parseShape_member :
  forall (shape : Shape) (data out : list (string * val)),
    NoDup (map fst shape) ->
    parseShape shape data = (out, []) ->
    forall k s, In (k, s) shape ->
      _parse s (get (VObj data) k) = OK (get (VObj out) k).
Proof.
  induction shape as [|[k0 s0] rest IH]; intros data out Hnd Hparse k s Hin.
  - destruct Hin.
  - cbn [parseShape] in Hparse.
    destruct (parseShape rest data) as [out' issues'] eqn:Hrest.
    inversion Hnd as [|? ? Hnotin Hnd']; subst.
    destruct (_parse s0 (get (VObj data) k0)) as [v0|first more] eqn:Hp0;
      [|discriminate].
    injection Hparse as Hout Hissues. subst issues'.
    destruct Hin as [Heq|Hin].
    + injection Heq as -> ->. rewrite Hp0. f_equal. subst out.
      destruct (isUndefined v0 && negb (has k data)) eqn:Hu.
      * apply andb_prop in Hu. destruct Hu as [Hu _].
        destruct v0; try discriminate. simpl.
        now rewrite (parseShape_lookup_outside _ _ _ _ Hrest k Hnotin).
      * simpl. now rewrite String.eqb_refl.
    + assert (Hne : String.eqb k k0 = false).
      { apply String.eqb_neq. intro; subst.
        apply Hnotin. apply (in_map fst) in Hin. exact Hin. }
      rewrite (IH data out' Hnd' Hrest k s Hin).
      f_equal. subst out.
      destruct (isUndefined v0 && negb (has k0 data)); simpl;
        [reflexivity | now rewrite Hne].
Qed.

(** What [z.object(shape)] accepts is an object, and what it returns is
    made of the members' results. *)
Lemma z_object_inversion :
  forall (mode : UnknownKeys) (shape : Shape) (raw parsed : val),
    NoDup (map fst shape) ->
    parse (z_object mode shape) raw = inr parsed ->
    exists data out,
      raw = VObj data /\ parsed = VObj out /\
      (forall k, ~ In k (map fst shape) -> get parsed k = VUndefined) /\
      (forall k s, In (k, s) shape -> _parse s (get raw k) = OK (get parsed k)).
Proof.
  intros mode shape raw parsed Hnd Hparse.
  unfold parse, z_object in Hparse. simpl in Hparse.
  destruct raw as [| | | | | |data]; try discriminate.
  destruct (parseShape shape data) as [out issues] eqn:Hshape.
  destruct issues as [|first more]; [|discriminate].
  simpl in Hparse.
  assert (parsed = VObj out) as ->.
  { destruct mode; [|destruct (unknownKeys shape data)];
      try discriminate; now injection Hparse as <-. }
  exists data, out. repeat split.
  - intros k Hk. simpl.
    now rewrite (parseShape_lookup_outside _ _ _ _ Hshape k Hk).
  - intros k s Hin. exact (parseShape_member shape data out Hnd Hshape k s Hin).
Qed.

End ZodFacts.

(* ================================================================== *)
(** ** Results on the schemas of [/api/process] *)
(* ================================================================== *)

Module ReceiptFacts.
Import Js Zod Http Store Handler Process Spec ZodFacts.

(** Under zod 3 [partial] leaves a missing key out of the record; under
    zod 4 the defaults fill it in. *)
Example normalize_empty_object :
  forall {rt : Runtime},
    normalize V3 (VObj []) = inr (VObj [])
    /\ normalize V4 (VObj [])
       = inr (VObj [("merchant", VNull); ("txn_date", VNull);
                    ("total_cents", VNull); ("currency", VStr "CAD");
                    ("category", VNull); ("confidence", VNull);
                    ("notes", VNull)]).
Proof. intros rt. split; reflexivity. Qed.

(** The decimal string of the spec and a negative one, read by the sample
    runtime, make the normalizer throw as well. *)
Example normalize_throws_on_decimal_string :
  forall ver,
    @normalize Sample.runtime ver (VObj [("total_cents", VStr "23.47")])
    = inl [["total_cents"]]
    /\ @normalize Sample.runtime ver (VObj [("total_cents", VStr "-5")])
       = inl [["total_cents"]]
    /\ @normalize Sample.runtime ver (VObj [("confidence", VStr "1.5")])
       = inl [["confidence"]].
Proof. intros []; repeat split; vm_compute; reflexivity. Qed.

(** *** Helper lemmas *)

Lemma isIsoDate_not_glitch :
  forall t, isIsoDate t = true ->
    String.eqb t "" = false /\ String.eqb t "//" = false
    /\ String.eqb (removeQuotes t) "" = false.
Proof.
  intros t H.
  destruct t as [|c t']; [discriminate|].
  assert (Hd : isDigit c = true).
  { unfold isIsoDate in H. cbn [list_ascii_of_string] in H.
    destruct (list_ascii_of_string t') as [|? [|? [|? [|? [|? [|? [|? [|? [|? [|? ?]]]]]]]]]];
      try discriminate.
    repeat (apply andb_prop in H; destruct H as [H ?]).
    unfold isDigit. apply andb_true_intro. split; assumption. }
  assert (Hq : Ascii.eqb c quote = false).
  { destruct (Ascii.eqb_spec c quote) as [->|]; [discriminate|reflexivity]. }
  assert (Hs : Ascii.eqb c "/"%char = false).
  { destruct (Ascii.eqb_spec c "/"%char) as [->|]; [discriminate|reflexivity]. }
  repeat split.
  - simpl. now rewrite Hs.
  - simpl. now rewrite Hq.
Qed.

Lemma receipt_keys_nodup :
  forall {rt : Runtime} ver, NoDup (map fst (partial ver (ReceiptShape ver))).
Proof.
  intros rt ver. simpl.
  repeat (constructor; [simpl; intuition discriminate|]).
  constructor.
Qed.

(** A record returned by the normalizer holds, under each of the seven
    keys, the result of that member (wrapped by [partial]) on the property
    of the input, and nothing under any other key. *)
Lemma normalize_member :
  forall {rt : Runtime} ver (raw parsed : val),
    normalize ver raw = inr parsed ->
    (forall k s, In (k, s) (ReceiptShape ver) ->
       _parse (optional ver s) (get raw k) = OK (get parsed k))
    /\ (forall k, ~ In k (map fst (ReceiptShape ver)) -> get parsed k = VUndefined).
Proof.
  intros rt ver raw parsed H.
  destruct (z_object_inversion strip _ raw parsed (receipt_keys_nodup ver) H)
    as (data & out & -> & -> & Hout & Hmem).
  split.
  - intros k s Hin. apply Hmem.
    apply (in_map (fun ks => (fst ks, optional ver (snd ks)))) in Hin. exact Hin.
  - intros k Hk. apply Hout.
    unfold partial. rewrite map_map. simpl. exact Hk.
Qed.

(** The three plain string members. *)
Lemma plain_string_field_spec :
  forall ver v,
    _parse (plain_string_field ver) v =
    match v with
    | VUndefined | VNull => OK VNull
    | VStr s => OK (VStr s)
    | _ => issue
    end.
Proof. intros [] []; reflexivity. Qed.

(** [trim] and [toUpperCase] on the ASCII strings met below. *)
Lemma trim_empty : forall {rt : Runtime}, trim "" = "".
Proof. intros rt. now rewrite trim_ascii. Qed.

Lemma isBlank_empty : forall {rt : Runtime}, isBlank "" = true.
Proof. intros rt. unfold isBlank. now rewrite trim_empty. Qed.

Lemma currency_preprocess_default :
  forall {rt : Runtime}, currency_preprocess (VStr "CAD") = VStr "CAD".
Proof.
  intros rt. unfold currency_preprocess.
  rewrite (trim_ascii "CAD") by reflexivity.
  now rewrite (toUpperCase_ascii (asciiTrim "CAD")).
Qed.

Lemma txn_date_field_spec :
  forall {rt : Runtime} ver v,
    _parse (txn_date_field ver) v = OK (txn_date_preprocess v).
Proof.
  intros rt ver v. destruct ver, v; simpl; try reflexivity;
    (destruct (_ || _); [reflexivity|];
     destruct (String.eqb _ _); [reflexivity|];
     destruct (isIsoDate _); reflexivity).
Qed.

Lemma txn_date_preprocess_trimmed :
  forall {rt : Runtime} v, txn_date_preprocess v = txn_date_trimmed v.
Proof.
  intros rt [| | | |s| |]; try reflexivity. simpl.
  destruct (isIsoDate (trim s)) eqn:Hiso.
  - destruct (isIsoDate_not_glitch _ Hiso) as (H1 & H2 & H3).
    now rewrite H1, H2, H3.
  - destruct (_ || _); [reflexivity|]. destruct (String.eqb _ _); reflexivity.
Qed.

Lemma currency_field_spec :
  forall {rt : Runtime} ver v,
    _parse (currency_field ver) v = OK (currency_preprocess v).
Proof.
  intros rt ver v.
  pose proof currency_preprocess_default as Hd.
  destruct ver, v; simpl in *; try reflexivity;
    try (rewrite Hd; reflexivity);
    destruct (0 <? String.length (trim s))%nat; reflexivity.
Qed.

Lemma currency_preprocess_upper :
  forall {rt : Runtime} v, currency_preprocess v = VStr (currency_upper v).
Proof.
  intros rt [| | | |s| |]; try reflexivity. simpl. unfold isBlank.
  destruct (0 <? String.length (trim s))%nat; reflexivity.
Qed.

Lemma optional_over_default :
  forall ver s v,
    optin s = true ->
    _parse (optional ver s) v =
    match ver, v with
    | V3, VUndefined => OK VUndefined
    | _, _ => _parse s v
    end.
Proof.
  intros ver s v H. unfold optional. simpl. rewrite H.
  destruct ver, v; reflexivity.
Qed.

Tactic Notation "member" hyp(H) constr(k) "as" ident(M) :=
  pose proof (proj1 (normalize_member _ _ _ H) k _ ltac:(simpl; tauto)) as M;
  rewrite optional_over_default in M by reflexivity.

(** *** The claims *)

(** C1 (code bug).  The normalizer is not total: [ReceiptSchema.parse]
    throws on [null], on an array, and on an object whose [merchant] is a
    number, although the comment above the schema says that invalid values
    become [null]. *)
Theorem normalize_throws_on_wrong_type :
  forall {rt : Runtime} ver,
    normalize ver VNull = inl [[]]
    /\ normalize ver (VArr []) = inl [[]]
    /\ normalize ver (VObj [("merchant", ofZ 42)]) = inl [["merchant"]].
Proof. intros rt []; repeat split; reflexivity. Qed.

(** C2 (code bug).  A negative [total_cents], and one that is not an
    integer, make the normalizer throw instead of giving the absent-marker;
    a non-negative integer is kept. *)
Theorem normalize_throws_on_negative_total :
  forall {rt : Runtime} ver,
    normalize ver (VObj [("total_cents", ofZ (-5))]) = inl [["total_cents"]]
    /\ normalize ver (VObj [("total_cents", VNum (Fin (2347 # 100)))])
       = inl [["total_cents"]]
    /\ _parse (total_cents_field ver) (ofZ 4599) = OK (ofZ 4599).
Proof. intros rt []; repeat split; reflexivity. Qed.

(** C3 (code bug).  A [confidence] above one, or below zero, makes the
    normalizer throw instead of giving the absent-marker; [0] is kept. *)
Theorem normalize_throws_on_confidence_out_of_range :
  forall {rt : Runtime} ver,
    normalize ver (VObj [("confidence", VNum (Fin (3 # 2)))]) = inl [["confidence"]]
    /\ normalize ver (VObj [("confidence", ofZ (-1))]) = inl [["confidence"]]
    /\ _parse (confidence_field ver) (ofZ 0) = OK (ofZ 0).
Proof. intros rt []; repeat split; reflexivity. Qed.

(** C4, as stated, fails: an unrecognized string is rejected, not mapped
    to [receipt]. *)
Lemma sourceType_unrecognized_rejected :
  ~ sourceType_fallback (VStr "foo").
Proof.
  intro H. assert (E := H ltac:(discriminate) ltac:(discriminate)).
  discriminate E.
Qed.

(** C4 (amended).  [SourceTypeInputSchema] maps [screenshot] to itself and
    [receipt], [camera] and [upload] to [receipt]; every other input,
    string or not, is rejected with a validation error. *)
Theorem sourceType_four_values :
  forall v, parse SourceTypeInputSchema v = sourceType_listed v.
Proof.
  intros [| | | |s| |]; try reflexivity.
  unfold parse, sourceType_listed. simpl.
  destruct (String.eqb_spec s "receipt") as [->|]; [reflexivity|].
  destruct (String.eqb_spec s "screenshot") as [->|]; [reflexivity|].
  destruct (String.eqb_spec s "camera") as [->|]; [reflexivity|].
  destruct (String.eqb_spec s "upload") as [->|]; reflexivity.
Qed.

(** Whatever the runtime, a merchant with spaces around it, or an empty
    one, is not what the spec says it is. *)
Lemma merchant_untrimmed :
  forall {rt : Runtime} ver,
    ~ merchant_is_trimmed ver (VStr " Costco ")
    /\ ~ merchant_is_trimmed ver (VStr "").
Proof.
  intros rt ver. unfold merchant_is_trimmed, merchant_trimmed, isBlank.
  rewrite (trim_ascii " Costco "), (trim_ascii "") by reflexivity.
  split; intro H; destruct ver; discriminate H.
Qed.

(** C5, as stated, fails: the merchant is not trimmed, under either major. *)
Lemma merchant_not_trimmed :
  ~ @merchant_is_trimmed Sample.runtime V3 (VStr " Costco ")
  /\ ~ @merchant_is_trimmed Sample.runtime V4 (VStr " Costco ")
  /\ ~ @merchant_is_trimmed Sample.runtime V3 (VStr "")
  /\ ~ @merchant_is_trimmed Sample.runtime V4 (VStr "").
Proof. repeat split; apply merchant_untrimmed. Qed.

(** C5 (amended).  A string-valued merchant is returned as it is, neither
    trimmed nor turned into the absent-marker when empty; a [null] or
    missing merchant gives the absent-marker; and in every record the
    normalizer returns, the merchant that is stored is the one of the
    input. *)
Theorem merchant_passed_through :
  forall {rt : Runtime} ver,
    (forall s, _parse (merchant_field ver) (VStr s) = OK (VStr s))
    /\ _parse (merchant_field ver) VNull = OK VNull
    /\ _parse (merchant_field ver) VUndefined = OK VNull
    /\ (forall raw parsed,
          normalize ver raw = inr parsed ->
          column (get parsed "merchant") = column (get raw "merchant")).
Proof.
  intros rt ver. repeat split; try (destruct ver; reflexivity).
  intros raw parsed H. member H "merchant" as M.
  unfold merchant_field in M. rewrite plain_string_field_spec in M.
  destruct ver, (get raw "merchant"); simpl in M; try discriminate;
    injection M as <-; reflexivity.
Qed.

Lemma merchant_passed_through_witness :
  @normalize Sample.runtime V4 (VObj [("merchant", VStr " Costco ")])
  = inr (VObj [("merchant", VStr " Costco "); ("txn_date", VNull);
               ("total_cents", VNull); ("currency", VStr "CAD");
               ("category", VNull); ("confidence", VNull); ("notes", VNull)])
  /\ column (get (VObj [("merchant", VStr " Costco "); ("txn_date", VNull);
                        ("total_cents", VNull); ("currency", VStr "CAD");
                        ("category", VNull); ("confidence", VNull);
                        ("notes", VNull)]) "merchant")
     = column (get (VObj [("merchant", VStr " Costco ")]) "merchant").
Proof.
  split; [reflexivity|].
  apply (proj2 (proj2 (proj2 (@merchant_passed_through Sample.runtime V4)))).
  reflexivity.
Defined.

(** Whatever the runtime, an ISO date with spaces around it is returned
    trimmed, not as the input string. *)
Lemma txn_date_spaces_trimmed :
  forall {rt : Runtime} ver,
    _parse (txn_date_field ver) (VStr " 2024-01-05 ") = OK (VStr "2024-01-05")
    /\ ~ txn_date_is_input ver (VStr " 2024-01-05 ").
Proof.
  intros rt ver.
  assert (E : _parse (txn_date_field ver) (VStr " 2024-01-05 ")
              = OK (VStr "2024-01-05")).
  { rewrite txn_date_field_spec. unfold txn_date_preprocess.
    now rewrite (trim_ascii " 2024-01-05 ") by reflexivity. }
  split; [exact E|].
  unfold txn_date_is_input, txn_date_as_input. rewrite E.
  rewrite (trim_ascii " 2024-01-05 ") by reflexivity.
  intro H. discriminate H.
Qed.

(** C6, as stated, fails: with white space around it, an ISO date is
    returned trimmed, not as the input string. *)
Lemma txn_date_not_input_string :
  ~ @txn_date_is_input Sample.runtime V3 (VStr " 2024-01-05 ")
  /\ ~ @txn_date_is_input Sample.runtime V4 (VStr " 2024-01-05 ").
Proof. split; apply txn_date_spaces_trimmed. Qed.

(** C6 (amended).  With [trim] the [String.prototype.trim] of the
    runtime, whatever it strips: the normalized [txn_date] is the trimmed
    input string exactly when that trimmed string is four digits, dash, two
    digits, dash, two digits, and the absent-marker for every other value;
    the member never fails; in every record the normalizer returns, the
    member is that value (left out by zod 3 when the key is missing); and
    that value is what is stored. *)
Theorem txn_date_trimmed_iso :
  forall {rt : Runtime} ver,
    (forall v, _parse (txn_date_field ver) v = OK (txn_date_trimmed v))
    /\ (forall raw parsed,
          normalize ver raw = inr parsed ->
          get parsed "txn_date"
          = partialMember ver (get raw "txn_date")
              (txn_date_trimmed (get raw "txn_date")))
    /\ (forall raw parsed,
          normalize ver raw = inr parsed ->
          column (get parsed "txn_date") = txn_date_trimmed (get raw "txn_date")).
Proof.
  intros rt ver. split; [|split].
  - intro v. now rewrite txn_date_field_spec, txn_date_preprocess_trimmed.
  - intros raw parsed H. member H "txn_date" as M.
    rewrite txn_date_field_spec, txn_date_preprocess_trimmed in M.
    destruct ver, (get raw "txn_date") as [| | | |s| |];
      injection M as <-; reflexivity.
  - intros raw parsed H. member H "txn_date" as M.
    rewrite txn_date_field_spec, txn_date_preprocess_trimmed in M.
    destruct ver, (get raw "txn_date") as [| | | |s| |];
      injection M as <-; try reflexivity;
      simpl; destruct (isIsoDate (trim s)); reflexivity.
Qed.

Lemma txn_date_trimmed_iso_witness :
  @normalize Sample.runtime V3 (VObj [("txn_date", VStr " 2024-01-05 ")])
  = inr (VObj [("txn_date", VStr "2024-01-05")])
  /\ column (get (VObj [("txn_date", VStr "2024-01-05")]) "txn_date")
     = @txn_date_trimmed Sample.runtime
         (get (VObj [("txn_date", VStr " 2024-01-05 ")]) "txn_date").
Proof.
  split; [reflexivity|].
  apply (proj2 (proj2 (@txn_date_trimmed_iso Sample.runtime V3))). reflexivity.
Defined.





(** C8 (code bug).  A text-typed part is returned also when its text is
    empty: the scan stops there, gives the empty string, and never reaches
    the JSON-typed part that follows or the error at the end. *)
Theorem responseText_returns_empty_text :
  forall {rt : Runtime} (json : val),
    responseText
      (VObj [("output_text", VStr "");
             ("output",
              VArr [VObj [("content",
                           VArr [VObj [("type", VStr "output_text");
                                       ("text", VStr "")];
                                 VObj [("type", VStr "output_json");
                                       ("json", json)]])]])])
    = inr ""
    /\ responseText
         (VObj [("output",
                 VArr [VObj [("content",
                              VArr [VObj [("type", VStr "output_text");
                                          ("text", VStr "")]])]])])
       = inr "".
Proof.
  intros rt json.
  split; unfold responseText; cbn -[isBlank]; rewrite ?isBlank_empty; reflexivity.
Qed.

(** The scenario of the spec does hold: with an empty top-level text and
    one item holding one JSON-typed part, the part is serialized. *)
Lemma responseText_json_part :
  forall {rt : Runtime} (json : val),
    isNullish json = false ->
    responseText
      (VObj [("output_text", VStr "");
             ("output",
              VArr [VObj [("content",
                           VArr [VObj [("type", VStr "output_json");
                                       ("json", json)]])]])])
    = inr (JSON_stringify json).
Proof.
  intros rt json H. unfold responseText. cbn -[isBlank].
  rewrite isBlank_empty. cbn -[isBlank].
  unfold partText. cbn -[isBlank]. now rewrite H.
Qed.

End ReceiptFacts.

(* ================================================================== *)
(** ** Results on the pipeline *)
(* ================================================================== *)

Module PipelineFacts.
Import Js Zod Http Store Handler Process Spec.

Lemma insertAttempts_request :
  forall d log c,
    isInsert c = false ->
    insertAttempts (mkWorld d (log ++ [c])) = insertAttempts (mkWorld d log).
Proof.
  intros d log c H. unfold insertAttempts. simpl.
  rewrite filter_app. simpl. rewrite H. now rewrite app_nil_r.
Qed.

(** The model call persists nothing and never returns a response itself. *)
Lemma callOpenAiVision_quiet :
  forall {rt : Runtime} env url sourceType w,
    nothingPersisted w (snd (callOpenAiVision env url sourceType w))
    /\ (forall r, fst (callOpenAiVision env url sourceType w) <> Return r).
Proof.
  intros rt env url sourceType [d log].
  unfold callOpenAiVision, nothingPersisted.
  destruct (OPENAI_API_KEY env) as [key|]; [|simpl; repeat split; discriminate].
  destruct (isEmpty key); [simpl; repeat split; discriminate|].
  unfold bind, request, lift. simpl.
  destruct (fetch (openai env url sourceType)) as [e|res]; simpl.
  - rewrite insertAttempts_request by reflexivity. repeat split; discriminate.
  - destruct (ok res); simpl.
    + destruct (http_json res); simpl.
      * destruct (responseText v); simpl;
          rewrite insertAttempts_request by reflexivity; repeat split; discriminate.
      * rewrite insertAttempts_request by reflexivity. repeat split; discriminate.
    + destruct (http_text res) as [text|]; [destruct (isEmpty text)|]; simpl;
        rewrite insertAttempts_request by reflexivity; repeat split; discriminate.
Qed.

(** A model API that does not answer before the timer fires makes the
    call throw the abort error, once the key is there and the request has
    been sent. *)
Lemma callOpenAiVision_timeout :
  forall {rt : Runtime} env url sourceType w key,
    OPENAI_API_KEY env = Some key -> isEmpty key = false ->
    ~ respondsWithin 60000 (openai env url sourceType) ->
    callOpenAiVision env url sourceType w
    = (Throw AbortError,
       mkWorld (db w) (calls w ++ [OpenAiResponses url sourceType])).
Proof.
  intros rt env url sourceType w key Hkey Hne Hto.
  unfold callOpenAiVision. rewrite Hkey, Hne.
  unfold bind, request, lift. simpl.
  unfold fetch, timeout_ms.
  destruct (openai env url sourceType) as [|after msg|after res]; simpl in *.
  - reflexivity.
  - destruct (Z.leb_spec 60000 after); [reflexivity|contradiction].
  - destruct (Z.leb_spec 60000 after); [reflexivity|contradiction].
Qed.

(** Case analysis along a handler: the innermost scrutinee first. *)
Ltac walk H :=
  repeat match type of H with
         | context [match ?x with _ => _ end] =>
             lazymatch x with
             | context [match _ with _ => _ end] => fail
             | _ => destruct x eqn:?; simpl in H
             end
         end.

Ltac call_facts :=
  match goal with
  | Hc : callOpenAiVision ?env ?u ?st ?w0 = (_, _) |- _ =>
      let Q := fresh "Q" in
      let R := fresh "R" in
      destruct (callOpenAiVision_quiet env u st w0) as [Q R];
      rewrite Hc in Q, R; simpl in Q, R;
      destruct Q as [? Q]; simpl in *;
      rewrite ?insertAttempts_request in Q by reflexivity
  end.

Ltac error_answer :=
  eexists; split; [reflexivity | discriminate].

Ltac quiet :=
  unfold nothingPersisted; simpl;
  rewrite ?insertAttempts_request by reflexivity;
  split; congruence.

(** A run that persists anything, or that does not answer with an error,
    is a run in which every step before persistence succeeded. *)
Lemma POST_fails_or_steps_succeeded :
  forall {rt : Runtime} ver env req w res w',
    POST ver env req w = (res, w') ->
    (nothingPersisted w w' /\ isError res) \/ stepsSucceededIn ver env req w.
Proof.
  intros rt ver env req [d log] res w' Heq.
  unfold POST, tryCatch, POST_try in Heq.
  unfold bind, request, lift, respond, throw, ret, getDb, putDb in Heq.
  simpl in Heq.
  walk Heq.
  all: injection Heq as <- <-.
  all: try solve [left; split; [quiet | error_answer]].
  all: try solve [left; call_facts; split; [quiet | error_answer]].
  all: try solve [call_facts; exfalso; eapply R; reflexivity].
  all: right;
    unfold stepsSucceededIn, reachesSigning, signsAs, beforeModelCall, normalize;
    match goal with
    | Hz : zodParse (ReceiptSchema ?v) ?model = inr ?parsed |- _ =>
        unfold zodParse in Hz;
        destruct (parse (ReceiptSchema v) model) eqn:Hn;
        [discriminate Hz | injection Hz as ->]
    end;
    match goal with
    | Hb : zodParse BodySchema ?raw = inr ?body |- _ =>
        eexists _, _, (str (get body "imagePath")), (str (get body "sourceType")),
          _, _, _, _, _;
        repeat split; try eassumption;
        exists raw, body; repeat split; assumption
    end.
Qed.

(** The run of [POST] up to the signing step. *)
Ltac to_signing Hrun :=
  destruct Hrun as (Htok & Hne & Huser & raw & body & Hjson & Hbody & -> & ->);
  unfold POST, tryCatch, POST_try;
  unfold bind, request, lift, respond, throw, ret, getDb, putDb;
  rewrite Htok, Hne; cbn [fst snd db calls];
  rewrite Huser, Hjson, Hbody.

(** When the signing step of the run fails, the run answers 500 and has
    sent two requests, neither of them an insert. *)
Lemma POST_signing_fails :
  forall {rt : Runtime} ver env req w token uid path sourceType,
    reachesSigning env req token uid path sourceType ->
    signingFailsFor env path ->
    nothingPersisted w (snd (POST ver env req w))
    /\ exists message, fst (POST ver env req w) = errorResponse 500 message.
Proof.
  intros rt ver env req [d log] token uid path sourceType Hrun Hfail.
  to_signing Hrun. unfold signingFailsFor in Hfail.
  destruct (sign_error (createSignedUrl env _ _)) as [message|].
  - split; [quiet | eexists; reflexivity].
  - destruct Hfail as [H | [H | H]]; [now contradiction H | |]; rewrite H;
      (split; [quiet | eexists; reflexivity]).
Qed.

(** When the model call of the run throws, the run answers 400 with the
    message of what was thrown. *)
Lemma POST_model_call_throws :
  forall {rt : Runtime} ver env req w token uid path sourceType url e w2,
    reachesSigning env req token uid path sourceType ->
    signsAs env path url ->
    callOpenAiVision env url sourceType (beforeModelCall w token path)
    = (Throw e, w2) ->
    nothingPersisted w (snd (POST ver env req w))
    /\ fst (POST ver env req w) = mkResponse 400 (ErrorBody (MessageOf e)).
Proof.
  intros rt ver env req [d log] token uid path sourceType url e w2
    Hrun (Hs & Hu & Hn) Hcall.
  destruct (callOpenAiVision_quiet env url sourceType
              (beforeModelCall (mkWorld d log) token path)) as [Q _].
  rewrite Hcall in Q. unfold beforeModelCall in *.
  to_signing Hrun. rewrite Hs, Hu, Hn. cbn [db calls] in *. rewrite Hcall.
  split; [|reflexivity].
  destruct Q as [Q1 Q2]. simpl in *.
  rewrite !insertAttempts_request in Q2 by reflexivity.
  split; assumption.
Qed.

(** When the text the model call of the run returns is not JSON, the run
    answers 400 with the message of the syntax error. *)
Lemma POST_text_not_json :
  forall {rt : Runtime} ver env req w token uid path sourceType url text w2,
    reachesSigning env req token uid path sourceType ->
    signsAs env path url ->
    callOpenAiVision env url sourceType (beforeModelCall w token path)
    = (Next text, w2) ->
    JSON_parse text = None ->
    nothingPersisted w (snd (POST ver env req w))
    /\ fst (POST ver env req w) = mkResponse 400 (ErrorBody (MessageOf SyntaxError)).
Proof.
  intros rt ver env req [d log] token uid path sourceType url text w2
    Hrun (Hs & Hu & Hn) Hcall Hjson'.
  destruct (callOpenAiVision_quiet env url sourceType
              (beforeModelCall (mkWorld d log) token path)) as [Q _].
  rewrite Hcall in Q. unfold beforeModelCall in *.
  to_signing Hrun. rewrite Hs, Hu, Hn. cbn [db calls] in *. rewrite Hcall.
  rewrite Hjson'.
  split; [|reflexivity].
  destruct Q as [Q1 Q2]. simpl in *.
  rewrite !insertAttempts_request in Q2 by reflexivity.
  split; assumption.
Qed.

(** C9.  In every run of the pipeline in which a step before persistence
    fails, no insert request is sent, the table and the bucket stay as
    they were, and the answer is an error.  For the steps the spec names,
    in a run that has reached the signing step for the image path of its
    request: when the signing of that path gives an error or no URL, the
    answer is 500; when the model call on the URL signed in that run
    throws, the answer is 400 with the message of what was thrown; when the
    model API, asked for that URL, has not answered after 60 000 ms, that
    is the abort error of the timer; and when the text returned for that
    URL is not JSON, it is the syntax error; nothing is persisted in any of
    these runs. *)
Theorem failed_step_no_persistence :
  forall {rt : Runtime} ver env req w,
    (~ stepsSucceededIn ver env req w ->
     nothingPersisted w (snd (POST ver env req w))
     /\ isError (fst (POST ver env req w)))
    /\ (forall token uid path sourceType,
          reachesSigning env req token uid path sourceType ->
          (signingFailsFor env path ->
           nothingPersisted w (snd (POST ver env req w))
           /\ exists message,
                fst (POST ver env req w) = errorResponse 500 message)
          /\ (forall url,
                signsAs env path url ->
                (forall e w2,
                   callOpenAiVision env url sourceType (beforeModelCall w token path)
                   = (Throw e, w2) ->
                   nothingPersisted w (snd (POST ver env req w))
                   /\ fst (POST ver env req w)
                      = mkResponse 400 (ErrorBody (MessageOf e)))
                /\ (forall key,
                      OPENAI_API_KEY env = Some key -> isEmpty key = false ->
                      ~ respondsWithin 60000 (openai env url sourceType) ->
                      nothingPersisted w (snd (POST ver env req w))
                      /\ fst (POST ver env req w)
                         = mkResponse 400 (ErrorBody (MessageOf AbortError)))
                /\ (forall text w2,
                      callOpenAiVision env url sourceType (beforeModelCall w token path)
                      = (Next text, w2) ->
                      JSON_parse text = None ->
                      nothingPersisted w (snd (POST ver env req w))
                      /\ fst (POST ver env req w)
                         = mkResponse 400 (ErrorBody (MessageOf SyntaxError))))).
Proof.
  intros rt ver env req w. split.
  - intros Hfail.
    destruct (POST ver env req w) as [res w'] eqn:Heq. simpl.
    destruct (POST_fails_or_steps_succeeded ver env req w res w' Heq) as [H|H];
      [exact H | contradiction].
  - intros token uid path sourceType Hrun. split.
    + exact (POST_signing_fails ver env req w token uid path sourceType Hrun).
    + intros url Hsigned. split; [|split].
      * intros e w2.
        exact (POST_model_call_throws ver env req w token uid path sourceType
                 url e w2 Hrun Hsigned).
      * intros key Hkey Hne Hto.
        exact (POST_model_call_throws ver env req w token uid path sourceType
                 url AbortError _ Hrun Hsigned
                 (callOpenAiVision_timeout env url sourceType _ key Hkey Hne Hto)).
      * intros text w2.
        exact (POST_text_not_json ver env req w token uid path sourceType
                 url text w2 Hrun Hsigned).
Qed.

Lemma failed_step_no_persistence_witness :
  reachesSigning Sample.silentEnv Sample.processRequest
    "alice-token" "alice" "alice/2024-03/c.jpg" "receipt"
  /\ signsAs Sample.silentEnv "alice/2024-03/c.jpg"
       "https://storage.test/alice/2024-03/c.jpg"
  /\ ~ respondsWithin 60000
         (openai Sample.silentEnv "https://storage.test/alice/2024-03/c.jpg"
            "receipt")
  /\ nothingPersisted Sample.world
       (snd (@POST Sample.runtime V4 Sample.silentEnv Sample.processRequest Sample.world))
  /\ fst (@POST Sample.runtime V4 Sample.silentEnv Sample.processRequest Sample.world)
     = mkResponse 400 (ErrorBody (MessageOf AbortError)).
Proof.
  assert (Hrun : reachesSigning Sample.silentEnv Sample.processRequest
                   "alice-token" "alice" "alice/2024-03/c.jpg" "receipt").
  { repeat split. eexists _, _. repeat split; reflexivity. }
  assert (Hsigned : signsAs Sample.silentEnv "alice/2024-03/c.jpg"
                      "https://storage.test/alice/2024-03/c.jpg").
  { repeat split. }
  assert (Hto : ~ respondsWithin 60000
                    (openai Sample.silentEnv
                       "https://storage.test/alice/2024-03/c.jpg" "receipt")).
  { simpl. tauto. }
  split; [exact Hrun|]. split; [exact Hsigned|]. split; [exact Hto|].
  destruct (@failed_step_no_persistence Sample.runtime V4 Sample.silentEnv
              Sample.processRequest Sample.world) as (_ & Hsteps).
  destruct (Hsteps _ _ _ _ Hrun) as (_ & Hcall).
  destruct (Hcall _ Hsigned) as (_ & Htimeout & _).
  exact (Htimeout "sk-test" eq_refl eq_refl Hto).
Defined.

(** A request whose [sourceType] is outside the four listed values is
    answered 400 with the validation error, before any storage or model
    request. *)
Example POST_rejects_unlisted_sourceType :
  forall ver,
    @POST Sample.runtime ver Sample.answeringEnv Sample.unlistedSourceRequest
      Sample.world
    = (mkResponse 400 (ErrorBody (MessageOf (ZodError [["sourceType"]]))),
       mkWorld (db Sample.world) [AuthGetUser "alice-token"]).
Proof. intros []; reflexivity. Qed.

(** The end-to-end scenario of the spec: the record is stored with the
    currency in upper case and the other members as the model gave them,
    and it is returned to the caller. *)
Example end_to_end :
  forall ver,
    @POST Sample.runtime ver Sample.answeringEnv Sample.processRequest Sample.world
    = (mkResponse 200
         (TransactionBody
            (@newRow Sample.answeringEnv "alice" "alice/2024-03/c.jpg" "receipt"
               (VObj [("merchant", VStr "Costco"); ("txn_date", VStr "2024-03-01");
                      ("total_cents", ofZ 4599); ("currency", VStr "CAD");
                      ("category", VStr "Groceries");
                      ("confidence", VNum (Fin (23 # 25)));
                      ("notes", VNull)]))),
       mkWorld
         (mkDb (transactions (db Sample.world) ++
                [@newRow Sample.answeringEnv "alice" "alice/2024-03/c.jpg" "receipt"
                   (VObj [("merchant", VStr "Costco"); ("txn_date", VStr "2024-03-01");
                          ("total_cents", ofZ 4599); ("currency", VStr "CAD");
                          ("category", VStr "Groceries");
                          ("confidence", VNum (Fin (23 # 25)));
                          ("notes", VNull)])])
               (objects (db Sample.world)))
         [AuthGetUser "alice-token";
          CreateSignedUrl "alice/2024-03/c.jpg" 600;
          OpenAiResponses "https://storage.test/alice/2024-03/c.jpg" "receipt";
          Insert
            (@newRow Sample.answeringEnv "alice" "alice/2024-03/c.jpg" "receipt"
               (VObj [("merchant", VStr "Costco"); ("txn_date", VStr "2024-03-01");
                      ("total_cents", ofZ 4599); ("currency", VStr "CAD");
                      ("category", VStr "Groceries");
                      ("confidence", VNum (Fin (23 # 25)));
                      ("notes", VNull)]))]).
Proof. intros []; vm_compute; reflexivity. Qed.

End PipelineFacts.

(* ================================================================== *)
(** ** Results on the transactions API *)
(* ================================================================== *)

Module TransactionFacts.
Import Js Zod Http Store Handler Process Transactions Spec ZodFacts PipelineFacts.

Lemma In_insertDesc :
  forall r x sorted, In x (insertDesc r sorted) <-> x = r \/ In x sorted.
Proof.
  intros r x sorted. induction sorted as [|r' rest IH]; simpl.
  - intuition.
  - destruct (created_at r' <? created_at r); simpl; rewrite ?IH; intuition.
Qed.

Lemma In_orderDesc :
  forall x rows, In x (orderDesc rows) <-> In x rows.
Proof.
  intros x rows. induction rows as [|r rest IH]; simpl.
  - tauto.
  - rewrite In_insertDesc, IH. intuition.
Qed.

(** No row with an id that belongs to somebody else passes the two
    filters of [DELETE] and [PATCH]. *)
Lemma foreign_id_selects_nothing :
  forall d id0 uid,
    belongsToAnother d id0 uid ->
    filter (ownedWithId id0 uid) (transactions d) = [].
Proof.
  intros d id0 uid [_ H].
  induction (transactions d) as [|r rest IH]; [reflexivity|].
  simpl. unfold ownedWithId at 1.
  destruct (String.eqb_spec (id r) id0) as [Hid|]; simpl.
  - destruct (String.eqb_spec (user_id r) uid) as [Hu|].
    + exfalso. apply (H r (or_introl eq_refl) Hid Hu).
    + apply IH. intros r' Hin. apply H. now right.
  - apply IH. intros r' Hin. apply H. now right.
Qed.

Lemma ownedWithId_owned :
  forall id0 uid r, ownedWithId id0 uid r = true -> owned uid r = true.
Proof.
  intros id0 uid r H. unfold ownedWithId in H.
  apply andb_prop in H. exact (proj2 H).
Qed.

Lemma others_after_delete :
  forall id0 uid rows,
    filter (fun r => negb (owned uid r))
      (filter (fun r => negb (ownedWithId id0 uid r)) rows)
    = filter (fun r => negb (owned uid r)) rows.
Proof.
  intros id0 uid rows. induction rows as [|r rest IH]; [reflexivity|].
  simpl. destruct (ownedWithId id0 uid r) eqn:Ho; simpl.
  - now rewrite (ownedWithId_owned _ _ _ Ho).
  - now rewrite IH.
Qed.

Lemma others_after_update :
  forall id0 uid update rows,
    filter (fun r => negb (owned uid r))
      (map (fun r => if ownedWithId id0 uid r then applyUpdate update r else r) rows)
    = filter (fun r => negb (owned uid r)) rows.
Proof.
  intros id0 uid update rows. induction rows as [|r rest IH]; [reflexivity|].
  simpl. destruct (ownedWithId id0 uid r) eqn:Ho.
  - pose proof (ownedWithId_owned _ _ _ Ho) as Hu.
    unfold owned in *. simpl. now rewrite Hu.
  - now rewrite IH.
Qed.

Lemma patch_keys_nodup :
  forall {rt : Runtime} ver,
    NoDup (map fst [("id", z_string_min 1);
                    ("merchant", transform trimmedOrNull (optional ver stringOrNull));
                    ("txn_date", transform patch_txn_date (optional ver stringOrNull));
                    ("total_cents",
                     transform patch_total_cents
                       (optional ver (z_union [z_number ver []; z_string; z_null])));
                    ("currency", transform patch_currency (optional ver stringOrNull));
                    ("category", transform trimmedOrNull (optional ver stringOrNull))]).
Proof.
  intros rt ver. simpl.
  repeat (constructor; [simpl; intuition discriminate|]).
  constructor.
Qed.

(** The [id] of a parsed patch is the [id] of the body. *)
Lemma patch_parsed_id :
  forall {rt : Runtime} ver body parsed id0,
    zodParse (PatchBodySchema ver) body = inr parsed ->
    get body "id" = VStr id0 ->
    get parsed "id" = VStr id0.
Proof.
  intros rt ver body parsed id0 H Hid.
  unfold zodParse in H.
  destruct (parse (PatchBodySchema ver) body) as [|p] eqn:Hp; [discriminate|].
  injection H as ->.
  destruct (z_object_inversion strict _ body parsed (patch_keys_nodup ver) Hp)
    as (data & out & -> & -> & _ & Hmem).
  specialize (Hmem "id" (z_string_min 1) (or_introl eq_refl)).
  rewrite Hid in Hmem. simpl in Hmem.
  destruct (String.length id0); simpl in Hmem; [discriminate|].
  injection Hmem as Hm. symmetry. exact Hm.
Qed.

Ltac as_user Hauth Heq :=
  let token := fresh "token" in
  let Hb := fresh "Hb" in
  let He := fresh "He" in
  let Hg := fresh "Hg" in
  destruct Hauth as (token & Hb & He & Hg);
  unfold getUserFromRequest in Heq;
  rewrite Hb, He in Heq;
  unfold bind, request, lift, respond, throw, ret, getDb, putDb in Heq;
  simpl in Heq; rewrite Hg in Heq; simpl in Heq.

(** Listing changes nothing and gives rows of the table that are the
    caller's. *)
Lemma GET_scoped :
  forall env req w uid res w',
    authenticated env req uid ->
    GET env req w = (res, w') ->
    db w' = db w
    /\ forall rows,
         res = mkResponse 200 (TransactionsBody rows) ->
         forall r, In r rows -> In r (transactions (db w)) /\ user_id r = uid.
Proof.
  intros env req [d log] uid res w' Hauth Heq.
  unfold GET, tryCatch, GET_body in Heq.
  as_user Hauth Heq.
  walk Heq; injection Heq as <- <-; (split; [reflexivity|]);
    intros rows Hrows; try discriminate Hrows.
  injection Hrows as <-. intros r Hin.
  rewrite In_orderDesc, filter_In in Hin.
  destruct Hin as [Hin Ho]. split; [exact Hin|].
  unfold owned in Ho. now apply String.eqb_eq in Ho.
Qed.

(** Whatever the request, [DELETE] and [PATCH] leave the rows of the
    other users as they were. *)
Lemma DELETE_others :
  forall {rt : Runtime} env req w uid res w',
    authenticated env req uid ->
    DELETE env req w = (res, w') ->
    othersRows uid (db w') = othersRows uid (db w).
Proof.
  intros rt env req [d log] uid res w' Hauth Heq.
  unfold DELETE, tryCatch, DELETE_body in Heq.
  as_user Hauth Heq.
  walk Heq. all: injection Heq as <- <-. all: try reflexivity.
  all: apply others_after_delete.
Qed.

Lemma PATCH_others :
  forall {rt : Runtime} ver env req w uid res w',
    authenticated env req uid ->
    PATCH ver env req w = (res, w') ->
    othersRows uid (db w') = othersRows uid (db w).
Proof.
  intros rt ver env req [d log] uid res w' Hauth Heq.
  unfold PATCH, tryCatch, PATCH_body in Heq.
  as_user Hauth Heq.
  destruct (zodParse (PatchBodySchema ver) (bodyOrNull req)) as [e|parsed];
    simpl in Heq.
  - now injection Heq as <- <-.
  - walk Heq. all: injection Heq as <- <-. all: try reflexivity.
    all: apply others_after_update.
Qed.

(** With the id of somebody else's transaction, [DELETE] changes nothing
    and, when the table answers, says that there is no such row. *)
Lemma DELETE_foreign :
  forall {rt : Runtime} env req w uid res w' id0,
    authenticated env req uid ->
    DELETE env req w = (res, w') ->
    get (bodyOrNull req) "id" = VStr id0 ->
    belongsToAnother (db w) id0 uid ->
    db w' = db w
    /\ (isEmpty id0 = false -> select_error env = None ->
        res = errorResponse 404 "Not found.").
Proof.
  intros rt env req [d log] uid res w' id0 Hauth Heq Hid Hforeign.
  unfold DELETE, tryCatch, DELETE_body in Heq.
  as_user Hauth Heq.
  rewrite Hid in Heq. simpl in Heq, Hforeign.
  destruct (isEmpty id0) eqn:Hempty; simpl in Heq.
  - injection Heq as <- <-. split; [reflexivity|]. intros; discriminate.
  - rewrite (foreign_id_selects_nothing _ _ _ Hforeign) in Heq. simpl in Heq.
    walk Heq. all: injection Heq as <- <-.
    all: split; [reflexivity|]; intros Hne Hsel; congruence.
Qed.

Lemma PATCH_foreign :
  forall {rt : Runtime} ver env req w uid res w' id0,
    authenticated env req uid ->
    PATCH ver env req w = (res, w') ->
    get (bodyOrNull req) "id" = VStr id0 ->
    belongsToAnother (db w) id0 uid ->
    db w' = db w
    /\ (forall parsed,
          zodParse (PatchBodySchema ver) (bodyOrNull req) = inr parsed ->
          updateOf parsed <> [] -> update_error env = None ->
          res = errorResponse 404 "Not found.").
Proof.
  intros rt ver env req [d log] uid res w' id0 Hauth Heq Hid Hforeign.
  unfold PATCH, tryCatch, PATCH_body in Heq.
  as_user Hauth Heq.
  destruct (zodParse (PatchBodySchema ver) (bodyOrNull req)) as [e|parsed] eqn:Hp;
    simpl in Heq.
  - injection Heq as <- <-. split; [reflexivity|]. intros; discriminate.
  - rewrite (patch_parsed_id ver _ _ _ Hp Hid) in Heq. simpl in Heq, Hforeign.
    destruct (updateOf parsed) as [|kv more] eqn:Hu; simpl in Heq.
    + injection Heq as <- <-. split; [reflexivity|].
      intros parsed' Hp' Hne. injection Hp' as <-. now rewrite Hu in Hne.
    + rewrite (foreign_id_selects_nothing _ _ _ Hforeign) in Heq. simpl in Heq.
      destruct (update_error env) as [message|] eqn:Herr; simpl in Heq;
        injection Heq as <- <-; (split; [reflexivity|]);
        intros parsed' Hp' Hne Hnone; [discriminate|reflexivity].
Qed.

(** C10.  For a caller authenticated as [uid]: listing changes nothing and
    returns only stored rows whose [user_id] is [uid]; no [DELETE] and no
    [PATCH] changes a row of another user; and with the id of a
    transaction that belongs to another user, [DELETE] and [PATCH] leave
    the table and the bucket as they were and answer Not found (once the
    body of the patch is valid and the table answers). *)
Theorem transactions_user_scoped :
  forall {rt : Runtime} ver env req w uid,
    authenticated env req uid ->
    (db (snd (GET env req w)) = db w
     /\ forall rows,
          fst (GET env req w) = mkResponse 200 (TransactionsBody rows) ->
          forall r, In r rows -> In r (transactions (db w)) /\ user_id r = uid)
    /\ othersRows uid (db (snd (DELETE env req w))) = othersRows uid (db w)
    /\ othersRows uid (db (snd (PATCH ver env req w))) = othersRows uid (db w)
    /\ (forall id0,
          get (bodyOrNull req) "id" = VStr id0 ->
          belongsToAnother (db w) id0 uid ->
          db (snd (DELETE env req w)) = db w
          /\ db (snd (PATCH ver env req w)) = db w
          /\ (isEmpty id0 = false -> select_error env = None ->
              fst (DELETE env req w) = errorResponse 404 "Not found.")
          /\ (forall parsed,
                zodParse (PatchBodySchema ver) (bodyOrNull req) = inr parsed ->
                updateOf parsed <> [] -> update_error env = None ->
                fst (PATCH ver env req w) = errorResponse 404 "Not found.")).
Proof.
  intros rt ver env req w uid Hauth.
  destruct (GET env req w) as [rg wg] eqn:Hget.
  destruct (DELETE env req w) as [rd wd] eqn:Hdel.
  destruct (PATCH ver env req w) as [rp wp] eqn:Hpatch.
  simpl. repeat split.
  - exact (proj1 (GET_scoped env req w uid rg wg Hauth Hget)).
  - exact (proj1 (proj2 (GET_scoped env req w uid rg wg Hauth Hget) rows H r H0)).
  - exact (proj2 (proj2 (GET_scoped env req w uid rg wg Hauth Hget) rows H r H0)).
  - exact (DELETE_others env req w uid rd wd Hauth Hdel).
  - exact (PATCH_others ver env req w uid rp wp Hauth Hpatch).
  - exact (proj1 (DELETE_foreign env req w uid rd wd id0 Hauth Hdel H H0)).
  - exact (proj1 (PATCH_foreign ver env req w uid rp wp id0 Hauth Hpatch H H0)).
  - exact (proj2 (DELETE_foreign env req w uid rd wd id0 Hauth Hdel H H0)).
  - exact (proj2 (PATCH_foreign ver env req w uid rp wp id0 Hauth Hpatch H H0)).
Qed.

Lemma transactions_user_scoped_witness :
  authenticated Sample.silentEnv Sample.foreignRequest "alice"
  /\ belongsToAnother (db Sample.world) "txn-b" "alice"
  /\ db (snd (@DELETE Sample.runtime Sample.silentEnv Sample.foreignRequest
                Sample.world))
     = db Sample.world
  /\ fst (@DELETE Sample.runtime Sample.silentEnv Sample.foreignRequest
            Sample.world)
     = errorResponse 404 "Not found."
  /\ db (snd (@PATCH Sample.runtime V4 Sample.silentEnv Sample.foreignRequest
                Sample.world))
     = db Sample.world
  /\ fst (@PATCH Sample.runtime V4 Sample.silentEnv Sample.foreignRequest
            Sample.world)
     = errorResponse 404 "Not found.".
Proof.
  assert (Hauth : authenticated Sample.silentEnv Sample.foreignRequest "alice").
  { exists "alice-token". repeat split; reflexivity. }
  assert (Hforeign : belongsToAnother (db Sample.world) "txn-b" "alice").
  { split.
    - exists (Sample.row "txn-b" "bob" "bob/2024-03/b.jpg" 20).
      split; [right; left; reflexivity | reflexivity].
    - intros r [<-|[<-|[]]] Hid; simpl in *; discriminate. }
  destruct (@transactions_user_scoped Sample.runtime V4 Sample.silentEnv
              Sample.foreignRequest Sample.world "alice" Hauth)
    as (_ & _ & _ & H).
  destruct (H "txn-b" eq_refl Hforeign) as (Hd & Hp & Hd404 & Hp404).
  split; [exact Hauth|]. split; [exact Hforeign|].
  split; [exact Hd|]. split; [apply Hd404; reflexivity|].
  split; [exact Hp|].
  eapply Hp404; [reflexivity | intro E; vm_compute in E; discriminate E | reflexivity].
Defined.

End TransactionFacts.

(* ================================================================== *)
(** ** Further results on the normalizer *)
(* ================================================================== *)

Module NormalizerFacts.
Import Js Zod Http Store Handler Process Spec Props ZodFacts ReceiptFacts.

Lemma parseShape_issues :
  forall (shape : Shape) (data : list (string * val)),
    snd (parseShape shape data) = []
    <-> forallb (fun ks => isOK (_parse (snd ks) (get (VObj data) (fst ks)))) shape
        = true.
Proof.
  induction shape as [|[k s] rest IH]; intros data.
  - simpl. tauto.
  - cbn [parseShape forallb fst snd].
    destruct (parseShape rest data) as [out issues] eqn:Hrest.
    specialize (IH data). rewrite Hrest in IH. simpl in IH.
    destruct (_parse s (get (VObj data) k)) as [v|first more]; simpl.
    + exact IH.
    + split; discriminate.
Qed.

Lemma z_object_strip_accepts :
  forall (shape : Shape) (raw : val),
    (exists parsed, parse (z_object strip shape) raw = inr parsed)
    <-> exists data,
          raw = VObj data
          /\ forallb (fun ks => isOK (_parse (snd ks) (get raw (fst ks)))) shape
             = true.
Proof.
  intros shape raw. unfold parse. simpl.
  destruct raw as [| | | | | |data];
    try (split; [intros [? H]; discriminate H | intros (? & H & _); discriminate H]).
  pose proof (parseShape_issues shape data) as Hiff.
  destruct (parseShape shape data) as [out issues]. simpl in Hiff.
  rewrite app_nil_r. split.
  - intros [parsed H]. exists data. split; [reflexivity|].
    apply Hiff. destruct issues; [reflexivity|discriminate H].
  - intros (data' & _ & H). apply Hiff in H. subst issues. eauto.
Qed.

Lemma filter_failed_checks :
  forall (checks : list (number -> bool)) n,
    filter (fun check => negb (check n)) checks = []
    <-> forallb (fun check => check n) checks = true.
Proof.
  intros checks n. induction checks as [|c rest IH]; simpl.
  - tauto.
  - destruct (c n); simpl; [exact IH | split; discriminate].
Qed.

Lemma z_number_isOK :
  forall ver checks n,
    isOK (_parse (z_number ver checks) (VNum n))
    = isNumberType ver n && forallb (fun check => check n) checks.
Proof.
  intros ver checks n. simpl.
  destruct (isNumberType ver n); [|reflexivity]. simpl.
  destruct (filter (fun check => negb (check n)) checks) eqn:Hf.
  - symmetry. now apply filter_failed_checks.
  - simpl. symmetry. apply not_true_is_false. intro H.
    apply filter_failed_checks in H. rewrite H in Hf. discriminate.
Qed.

Lemma plain_member_isOK :
  forall ver v,
    isOK (_parse (optional ver (plain_string_field ver)) v) = plainOk v.
Proof. intros [] []; reflexivity. Qed.

Lemma number_preprocess_cases :
  forall {rt : Runtime} v,
    number_preprocess v = VNull \/ exists n, number_preprocess v = VNum n.
Proof.
  intros rt [| | |n|s| |]; simpl; eauto.
  destruct (isFinite (Number s)); eauto.
Qed.

(** A member of the form [preprocess(f, inner).optional().default(null)]
    under [partial] fails exactly when [inner] fails on what [f] gives. *)
Lemma defaulted_preprocess_isOK :
  forall ver f inner v,
    f VUndefined = VNull -> f VNull = VNull ->
    _parse inner VNull = OK VNull ->
    isOK (_parse (optional ver
                    (default ver VNull (optional ver (preprocess f inner)))) v)
    = isOK (_parse inner (f v)).
Proof.
  intros ver f inner v Hu Hn Hnull.
  destruct ver, v; simpl; rewrite ?Hu, ?Hn, ?Hnull; try reflexivity;
    match goal with
    | |- context [_parse inner ?x] => destruct (_parse inner x) as [[]|]; reflexivity
    end.
Qed.

Lemma number_member_isOK :
  forall {rt : Runtime} ver checks v,
    isOK (_parse
            (optional ver
               (default ver VNull
                  (optional ver
                     (preprocess number_preprocess
                        (nullable (z_number ver checks)))))) v)
    = numberOk ver checks v.
Proof.
  intros rt ver checks v.
  rewrite defaulted_preprocess_isOK by reflexivity.
  unfold numberOk.
  destruct (number_preprocess_cases v) as [E|[n E]]; rewrite E.
  - reflexivity.
  - change (_parse (nullable (z_number ver checks)) (VNum n))
      with (_parse (z_number ver checks) (VNum n)).
    apply z_number_isOK.
Qed.

Lemma always_member_isOK :
  forall ver f v,
    f VUndefined = VNull -> f VNull = VNull ->
    (forall w, f w = VNull \/ exists s, f w = VStr s) ->
    isOK (_parse (optional ver
                    (default ver VNull
                       (optional ver (preprocess f (nullable z_string))))) v)
    = true.
Proof.
  intros ver f v Hu Hn Hf.
  rewrite defaulted_preprocess_isOK by (assumption || reflexivity).
  destruct (Hf v) as [E|[s E]]; rewrite E; reflexivity.
Qed.

(** The normalizer returns a record exactly for the objects whose
    [merchant], [category] and [notes] are missing, [null] or strings and
    whose [total_cents] and [confidence], once preprocessed, are [null] or
    pass their checks; [txn_date], [currency] and the keys outside the
    schema never make it throw. *)
Theorem normalize_accepts_exactly :
  forall {rt : Runtime} ver raw,
    (exists parsed, normalize ver raw = inr parsed) <-> accepted ver raw = true.
Proof.
  intros rt ver raw. unfold normalize, ReceiptSchema.
  rewrite z_object_strip_accepts.
  cbn [partial ReceiptShape map forallb fst snd].
  unfold merchant_field, category_field, notes_field.
  rewrite !plain_member_isOK.
  unfold total_cents_field, confidence_field.
  rewrite !number_member_isOK.
  assert (Hd : isOK (_parse (optional ver (txn_date_field ver)) (get raw "txn_date"))
               = true).
  { apply always_member_isOK; try reflexivity.
    intros w. rewrite txn_date_preprocess_trimmed.
    destruct w; simpl; eauto. destruct (isIsoDate (trim s)); eauto. }
  assert (Hc : isOK (_parse (optional ver (currency_field ver)) (get raw "currency"))
               = true).
  { rewrite optional_over_default by reflexivity.
    destruct ver, (get raw "currency"); try reflexivity;
      now rewrite currency_field_spec. }
  rewrite Hd, Hc. unfold accepted.
  destruct raw as [| | | | | |data];
    try (split; [intros (? & H & _); discriminate H | discriminate]).
  split.
  - intros (data' & _ & H). rewrite !andb_true_iff in *. tauto.
  - intros H. exists data. split; [reflexivity|].
    rewrite !andb_true_iff in *. tauto.
Qed.

Lemma normalize_accepts_exactly_witness :
  accepted (rt := Sample.runtime) V4 Sample.costco = true
  /\ exists parsed, @normalize Sample.runtime V4 Sample.costco = inr parsed.
Proof.
  split; [reflexivity|].
  apply (proj2 (@normalize_accepts_exactly Sample.runtime V4 Sample.costco)).
  reflexivity.
Defined.

(** What a member of the form
    [preprocess(f, inner).optional().default(null)] under [partial] gives. *)
Lemma defaulted_preprocess_result :
  forall ver f inner v r,
    f VUndefined = VNull -> f VNull = VNull ->
    _parse inner VNull = OK VNull ->
    _parse (optional ver
              (default ver VNull (optional ver (preprocess f inner)))) v = OK r ->
    r = VUndefined \/ r = VNull \/ _parse inner (f v) = OK r.
Proof.
  intros ver f inner v r Hu Hn Hnull H.
  destruct ver, v; simpl in H; rewrite ?Hu, ?Hn, ?Hnull in H;
    try (injection H as <-; tauto); try tauto;
    match type of H with
    | context [_parse inner ?x] =>
        destruct (_parse inner x) as [[]|]; try discriminate H;
        injection H as <-; tauto
    end.
Qed.

Lemma number_member_result :
  forall {rt : Runtime} ver checks v r,
    _parse
      (optional ver
         (default ver VNull
            (optional ver
               (preprocess number_preprocess (nullable (z_number ver checks))))))
      v = OK r ->
    column r = VNull
    \/ exists n, column r = VNum n /\ isNumberType ver n = true
                 /\ forallb (fun check => check n) checks = true.
Proof.
  intros rt ver checks v r H.
  apply defaulted_preprocess_result in H; try reflexivity.
  destruct H as [->|[->|H]]; [now left | now left |].
  destruct (number_preprocess_cases v) as [E|[n E]]; rewrite E in H.
  - injection H as <-. now left.
  - change (_parse (nullable (z_number ver checks)) (VNum n))
      with (_parse (z_number ver checks) (VNum n)) in H.
    pose proof (z_number_isOK ver checks n) as Hok. rewrite H in Hok.
    simpl in Hok. symmetry in Hok. apply andb_prop in Hok.
    assert (r = VNum n) as ->.
    { simpl in H. destruct (isNumberType ver n); [|discriminate H].
      destruct (filter _ checks); [|discriminate H]. now injection H. }
    right. exists n. simpl. tauto.
Qed.

Lemma int_isInteger :
  forall ver n, int ver n = true -> isInteger n = true.
Proof.
  intros [] n H; [exact H|].
  destruct n as [| |q]; try discriminate H. simpl in *.
  apply andb_prop in H. destruct H as [H _].
  apply andb_prop in H. tauto.
Qed.

Lemma currency_upper_code :
  forall {rt : Runtime} v, upperCaseCode (VStr (currency_upper v)).
Proof.
  intros rt v. unfold upperCaseCode.
  destruct v as [| | | |s| |]; try (now left).
  simpl. unfold isBlank. destruct (trim s) as [|c t] eqn:E; simpl; [now left|].
  right. exists s. rewrite E. split; [discriminate | reflexivity].
Qed.

Lemma normalized_columns :
  forall {rt : Runtime} ver raw parsed,
    normalize ver raw = inr parsed ->
    absentOrString (column (get parsed "merchant"))
    /\ absentOrIsoDate (column (get parsed "txn_date"))
    /\ absentOrCents (column (get parsed "total_cents"))
    /\ upperCaseCode (nullish (get parsed "currency") (VStr "CAD"))
    /\ absentOrString (column (get parsed "category"))
    /\ absentOrUnitInterval (column (get parsed "confidence")).
Proof.
  intros rt ver raw parsed H.
  assert (Hplain : forall k,
             In (k, plain_string_field ver) (ReceiptShape ver) ->
             absentOrString (column (get parsed k))).
  { intros k Hin.
    pose proof (proj1 (normalize_member _ _ _ H) k _ Hin) as M.
    rewrite optional_over_default in M by reflexivity.
    rewrite plain_string_field_spec in M. unfold absentOrString.
    destruct ver, (get raw k); simpl in M; try discriminate M;
      injection M as <-; simpl; eauto. }
  repeat split.
  - apply Hplain. simpl. tauto.
  - member H "txn_date" as M.
    rewrite txn_date_field_spec, txn_date_preprocess_trimmed in M.
    unfold absentOrIsoDate.
    destruct ver, (get raw "txn_date") as [| | | |s| |];
      injection M as <-; simpl; eauto;
      destruct (isIsoDate (trim s)) eqn:E; simpl; eauto.
  - pose proof (proj1 (normalize_member _ _ _ H) "total_cents" _
                  ltac:(simpl; tauto)) as M.
    apply number_member_result in M. unfold absentOrCents.
    destruct M as [->|(n & -> & Ht & Hc)]; [now left|]. right.
    simpl in Hc. rewrite !andb_true_iff in Hc. destruct Hc as (Hi & Hn & _).
    apply int_isInteger in Hi.
    destruct n as [| |q]; try discriminate Hi.
    exists q. repeat split; [exact Hi|].
    unfold nonnegative, min in Hn. simpl in Hn.
    rewrite negb_involutive in Hn. now apply Qle_bool_iff in Hn.
  - member H "currency" as M.
    rewrite currency_field_spec, currency_preprocess_upper in M.
    pose proof (currency_upper_code (get raw "currency")) as Hcode.
    destruct ver, (get raw "currency") as [| | | |s| |];
      injection M as <-; cbn [nullish]; try exact Hcode; now left.
  - apply Hplain. simpl. tauto.
  - pose proof (proj1 (normalize_member _ _ _ H) "confidence" _
                  ltac:(simpl; tauto)) as M.
    apply number_member_result in M. unfold absentOrUnitInterval.
    destruct M as [->|(n & -> & Ht & Hc)]; [now left|]. right.
    simpl in Hc. rewrite !andb_true_iff in Hc. destruct Hc as (Hlo & Hhi & _).
    destruct n as [|[]|q]; try discriminate.
    exists q. unfold min, max, gt in *. simpl in *.
    rewrite negb_involutive in Hlo, Hhi.
    apply Qle_bool_iff in Hlo, Hhi. tauto.
Qed.

(** Every record the normalizer returns is in range, member by member, as
    the pipeline reads it: strings or nothing for [merchant] and
    [category], an ISO date or nothing, a non-negative integer or nothing
    for [total_cents], a currency that is the default or a non-empty
    trimmed string put in upper case, and a confidence between 0 and 1 or
    nothing. *)
Theorem normalize_in_range :
  forall {rt : Runtime} ver raw parsed,
    normalize ver raw = inr parsed ->
    absentOrString (column (get parsed "merchant"))
    /\ absentOrIsoDate (column (get parsed "txn_date"))
    /\ absentOrCents (column (get parsed "total_cents"))
    /\ upperCaseCode (nullish (get parsed "currency") (VStr "CAD"))
    /\ absentOrString (column (get parsed "category"))
    /\ absentOrUnitInterval (column (get parsed "confidence")).
Proof. intros rt ver raw parsed H. exact (normalized_columns ver raw parsed H). Qed.

Lemma normalize_in_range_witness :
  @normalize Sample.runtime V3 Sample.costco
  = inr (VObj [("merchant", VStr "Costco"); ("txn_date", VStr "2024-03-01");
               ("total_cents", ofZ 4599); ("currency", VStr "CAD");
               ("category", VStr "Groceries");
               ("confidence", VNum (Fin (92 # 100))); ("notes", VNull)])
  /\ absentOrCents (ofZ 4599)
  /\ absentOrUnitInterval (VNum (Fin (92 # 100))).
Proof.
  split; [reflexivity|].
  destruct (@normalize_in_range Sample.runtime V3 Sample.costco _ eq_refl)
    as (_ & _ & Hcents & _ & _ & Hconf).
  split; [exact Hcents | exact Hconf].
Defined.

End NormalizerFacts.

(* ================================================================== *)
(** ** Further results on the model call *)
(* ================================================================== *)

Module ExtractionFacts.
Import Js Zod Http Store Handler Process Spec Props.






Lemma callOpenAiVision_next :
  forall {rt : Runtime} env url sourceType w text w',
    callOpenAiVision env url sourceType w = (Next text, w') ->
    exists after_ms res payload,
      openai env url sourceType = Answers after_ms res
      /\ after_ms < timeout_ms
      /\ ok res = true
      /\ http_json res = Some payload
      /\ responseText payload = inr text
      /\ w' = mkWorld (db w) (calls w ++ [OpenAiResponses url sourceType]).
Proof.
  intros rt env url sourceType w text w' H.
  unfold callOpenAiVision in H.
  destruct (OPENAI_API_KEY env) as [key|]; [|discriminate H].
  destruct (isEmpty key); [discriminate H|].
  unfold bind, request, lift, throw, ret, fetch in H. simpl in H.
  destruct (openai env url sourceType) as [|after msg|after res]; simpl in H;
    try discriminate H.
  - destruct (timeout_ms <=? after); discriminate H.
  - destruct (Z.leb_spec timeout_ms after); simpl in H; [discriminate H|].
    destruct (ok res) eqn:Hok; simpl in H.
    + destruct (http_json res) as [payload|] eqn:Hj; simpl in H; [|discriminate H].
      destruct (responseText payload) as [e|t] eqn:Ht; simpl in H; [discriminate H|].
      injection H as <- <-. exists after, res, payload. tauto.
    + destruct (http_text res) as [t|]; [destruct (isEmpty t)|]; discriminate H.
Qed.

(** The model call returns a text only from an answer that came before
    the timer fired, with a 2xx status and a JSON body, and the text is the
    one read out of that body; the request has been sent once. *)
Theorem callOpenAiVision_returns_timely_answer :
  forall {rt : Runtime} env url sourceType w text w',
    callOpenAiVision env url sourceType w = (Next text, w') ->
    exists after_ms res payload,
      openai env url sourceType = Answers after_ms res
      /\ after_ms < timeout_ms
      /\ ok res = true
      /\ http_json res = Some payload
      /\ responseText payload = inr text
      /\ w' = mkWorld (db w) (calls w ++ [OpenAiResponses url sourceType]).
Proof.
  intros rt env url sourceType w text w' H.
  exact (callOpenAiVision_next env url sourceType w text w' H).
Qed.

Lemma callOpenAiVision_returns_timely_answer_witness :
  @callOpenAiVision Sample.runtime Sample.answeringEnv "https://storage.test/c.jpg"
    "receipt" Sample.world
  = (Next (Sample.stringify Sample.costco),
     mkWorld (db Sample.world)
       [OpenAiResponses "https://storage.test/c.jpg" "receipt"])
  /\ exists after_ms res payload,
       openai Sample.answeringEnv "https://storage.test/c.jpg" "receipt"
       = Answers after_ms res
       /\ after_ms < timeout_ms
       /\ ok res = true
       /\ http_json res = Some payload
       /\ @responseText Sample.runtime payload = inr (Sample.stringify Sample.costco)
       /\ mkWorld (db Sample.world)
            [OpenAiResponses "https://storage.test/c.jpg" "receipt"]
          = mkWorld (db Sample.world)
              (calls Sample.world
               ++ [OpenAiResponses "https://storage.test/c.jpg" "receipt"]).
Proof.
  split; [reflexivity|].
  apply (@callOpenAiVision_returns_timely_answer Sample.runtime Sample.answeringEnv).
  reflexivity.
Defined.


End ExtractionFacts.

(* ================================================================== *)
(** ** Further results on the pipeline *)
(* ================================================================== *)

Module PostFacts.
Import Js Zod Http Store Handler Process Spec Props ZodFacts ReceiptFacts
  PipelineFacts NormalizerFacts ExtractionFacts.

Lemma BodySchema_parsed :
  forall raw body,
    zodParse BodySchema raw = inr body ->
    exists path sourceType,
      get raw "imagePath" = VStr path /\ path <> EmptyString
      /\ get body "imagePath" = VStr path
      /\ get body "sourceType" = VStr sourceType
      /\ (sourceType = "receipt" \/ sourceType = "screenshot").
Proof.
  intros raw body H. unfold zodParse in H.
  destruct (parse BodySchema raw) as [|b] eqn:Hp; [discriminate|].
  injection H as ->.
  assert (Hnd : NoDup (map fst [("imagePath", z_string_min 1);
                                ("sourceType", SourceTypeInputSchema)])).
  { simpl. repeat (constructor; [simpl; intuition discriminate|]). constructor. }
  destruct (z_object_inversion strip _ raw body Hnd Hp)
    as (data & out & -> & -> & _ & Hmem).
  pose proof (Hmem "imagePath" _ (or_introl eq_refl)) as Hi.
  pose proof (Hmem "sourceType" _ (or_intror (or_introl eq_refl))) as Hs.
  destruct (get (VObj data) "imagePath") as [| | | |path| |];
    try discriminate Hi.
  destruct (get (VObj data) "sourceType") as [| | | |st| |];
    try discriminate Hs.
  simpl in Hi, Hs.
  destruct path as [|c path]; [discriminate Hi|]. simpl in Hi.
  injection Hi as Hi.
  match type of Hs with
  | context [if ?b then _ else _] => destruct b; [|discriminate Hs]
  end.
  exists (String c path).
  destruct (String.eqb st "screenshot"); injection Hs as Hs;
    [exists "screenshot" | exists "receipt"]; repeat split;
    try discriminate; try (symmetry; assumption); tauto.
Qed.

Lemma zodParse_inr :
  forall schema v parsed,
    zodParse schema v = inr parsed -> parse schema v = inr parsed.
Proof.
  intros schema v parsed H. unfold zodParse in H.
  destruct (parse schema v); [discriminate H | now injection H as ->].
Qed.

Lemma newRow_normalized :
  forall {rt : Runtime} ver env uid path sourceType model parsed,
    zodParse (ReceiptSchema ver) model = inr parsed ->
    normalizedRow (newRow env uid path sourceType parsed).
Proof.
  intros rt ver env uid path sourceType model parsed H.
  apply zodParse_inr in H.
  exact (normalized_columns ver model parsed H).
Qed.

Lemma POST_outcome :
  forall {rt : Runtime} ver env req w res w',
    POST ver env req w = (res, w') ->
    (db w' = db w /\ isError res)
    \/ exists token uid raw path sourceType url row,
         bearerToken req = Some token /\ getUser env token = Some uid
         /\ json req = Some raw /\ get raw "imagePath" = VStr path
         /\ (sourceType = "receipt" \/ sourceType = "screenshot")
         /\ signedUrl (createSignedUrl env path (60 * 10)) = Some url
         /\ user_id row = uid /\ image_path row = VStr path
         /\ source_type row = VStr sourceType
         /\ normalizedRow row
         /\ res = mkResponse 200 (TransactionBody row)
         /\ db w' = mkDb (transactions (db w) ++ [row]) (objects (db w))
         /\ calls w'
            = (calls w ++ [AuthGetUser token; CreateSignedUrl path (60 * 10);
                           OpenAiResponses url sourceType; Insert row])%list.
Proof.
  intros rt ver env req [d log] res w' Heq.
  unfold POST, tryCatch, POST_try in Heq.
  unfold bind, request, lift, respond, throw, ret, getDb, putDb in Heq.
  simpl in Heq.
  walk Heq.
  all: injection Heq as <- <-.
  all: try solve [left; split; [reflexivity | error_answer]].
  all: try solve [left; call_facts; split; [simpl; congruence | error_answer]].
  all: try solve [call_facts; exfalso; eapply R; reflexivity].
  right.
  match goal with
  | Hb : zodParse BodySchema ?raw = inr ?body |- _ =>
      destruct (BodySchema_parsed raw body Hb)
        as (path & sourceType & Hraw & Hne & Hpath & Hst & Hlisted)
  end.
  match goal with
  | Hn : zodParse (ReceiptSchema _) _ = inr _ |- _ =>
      pose proof (fun uid => newRow_normalized _ env uid path sourceType _ _ Hn)
        as Hrow
  end.
  match goal with
  | Hc : callOpenAiVision _ _ _ _ = (Next _, _) |- _ =>
      apply callOpenAiVision_next in Hc;
      destruct Hc as (after & r & payload & _ & _ & _ & _ & _ & ->)
  end.
  rewrite Hpath, Hst in *. simpl in *.
  eexists _, _, _, path, sourceType, _, _.
  repeat split; try eassumption; try reflexivity;
    try apply (Hrow s0).
  rewrite <- !app_assoc. reflexivity.
Qed.

(** A run of the pipeline changes the table in one way only: on the 200
    answer, by appending the row it returns.  That row belongs to the user
    of the token, names the image of the request, has [receipt] or
    [screenshot] as its source type and normalized columns; and the run has
    then asked, in this order, for the user, for a 600-second URL of that
    image, for the model's reading of that URL, and for the insert.  Every
    other run leaves the table and the bucket as they were and answers
    with an error. *)
Theorem POST_appends_the_normalized_row :
  forall {rt : Runtime} ver env req w res w',
    POST ver env req w = (res, w') ->
    (db w' = db w /\ isError res)
    \/ exists token uid raw path sourceType url row,
         bearerToken req = Some token /\ getUser env token = Some uid
         /\ json req = Some raw /\ get raw "imagePath" = VStr path
         /\ (sourceType = "receipt" \/ sourceType = "screenshot")
         /\ signedUrl (createSignedUrl env path (60 * 10)) = Some url
         /\ user_id row = uid /\ image_path row = VStr path
         /\ source_type row = VStr sourceType
         /\ normalizedRow row
         /\ res = mkResponse 200 (TransactionBody row)
         /\ db w' = mkDb (transactions (db w) ++ [row]) (objects (db w))
         /\ calls w'
            = (calls w ++ [AuthGetUser token; CreateSignedUrl path (60 * 10);
                           OpenAiResponses url sourceType; Insert row])%list.
Proof.
  intros rt ver env req w res w' H. exact (POST_outcome ver env req w res w' H).
Qed.

Lemma POST_appends_the_normalized_row_witness :
  @POST Sample.runtime V4 Sample.answeringEnv Sample.processRequest Sample.world
  = (fst (@POST Sample.runtime V4 Sample.answeringEnv Sample.processRequest
            Sample.world),
     snd (@POST Sample.runtime V4 Sample.answeringEnv Sample.processRequest
            Sample.world))
  /\ status (fst (@POST Sample.runtime V4 Sample.answeringEnv
                    Sample.processRequest Sample.world)) = 200
  /\ ((db (snd (@POST Sample.runtime V4 Sample.answeringEnv
                  Sample.processRequest Sample.world)) = db Sample.world
       /\ isError (fst (@POST Sample.runtime V4 Sample.answeringEnv
                          Sample.processRequest Sample.world)))
      \/ exists token uid raw path sourceType url row,
           bearerToken Sample.processRequest = Some token
           /\ getUser Sample.answeringEnv token = Some uid
           /\ json Sample.processRequest = Some raw
           /\ get raw "imagePath" = VStr path
           /\ (sourceType = "receipt" \/ sourceType = "screenshot")
           /\ signedUrl (createSignedUrl Sample.answeringEnv path (60 * 10))
              = Some url
           /\ user_id row = uid /\ image_path row = VStr path
           /\ source_type row = VStr sourceType
           /\ @normalizedRow Sample.runtime row
           /\ fst (@POST Sample.runtime V4 Sample.answeringEnv
                     Sample.processRequest Sample.world)
              = mkResponse 200 (TransactionBody row)
           /\ db (snd (@POST Sample.runtime V4 Sample.answeringEnv
                         Sample.processRequest Sample.world))
              = mkDb (transactions (db Sample.world) ++ [row])
                  (objects (db Sample.world))
           /\ calls (snd (@POST Sample.runtime V4 Sample.answeringEnv
                            Sample.processRequest Sample.world))
              = (calls Sample.world
                 ++ [AuthGetUser token; CreateSignedUrl path (60 * 10);
                     OpenAiResponses url sourceType; Insert row])%list).
Proof.
  split; [reflexivity|]. split; [reflexivity|].
  apply (@POST_appends_the_normalized_row Sample.runtime V4 Sample.answeringEnv
           Sample.processRequest Sample.world).
  reflexivity.
Defined.

Lemma BodySchema_sourceType_listed :
  forall raw body,
    zodParse BodySchema raw = inr body ->
    exists s,
      get raw "sourceType" = VStr s
      /\ In s ["receipt"; "screenshot"; "camera"; "upload"].
Proof.
  intros raw body H. unfold zodParse in H.
  destruct (parse BodySchema raw) as [|b] eqn:Hp; [discriminate|].
  injection H as ->.
  assert (Hnd : NoDup (map fst [("imagePath", z_string_min 1);
                                ("sourceType", SourceTypeInputSchema)])).
  { simpl. repeat (constructor; [simpl; intuition discriminate|]). constructor. }
  destruct (z_object_inversion strip _ raw body Hnd Hp)
    as (data & out & -> & -> & _ & Hmem).
  pose proof (Hmem "sourceType" _ (or_intror (or_introl eq_refl))) as Hs.
  destruct (get (VObj data) "sourceType") as [| | | |st| |];
    try discriminate Hs.
  exists st. split; [reflexivity|]. simpl in Hs.
  destruct (String.eqb st "receipt") eqn:E1;
    [apply String.eqb_eq in E1; subst st; simpl; auto 6|].
  destruct (String.eqb st "screenshot") eqn:E2;
    [apply String.eqb_eq in E2; subst st; simpl; auto 6|].
  destruct (String.eqb st "camera") eqn:E3;
    [apply String.eqb_eq in E3; subst st; simpl; auto 6|].
  destruct (String.eqb st "upload") eqn:E4;
    [apply String.eqb_eq in E4; subst st; simpl; auto 6|].
  discriminate Hs.
Qed.

(** A request of a known user whose [sourceType] is none of the four
    listed strings is answered 400 with the validation error, after the
    request for the user and before any other: nothing is signed, the model
    is not called and nothing is stored. *)
Theorem POST_rejects_unlisted_source_type :
  forall {rt : Runtime} ver env req w token uid raw,
    bearerToken req = Some token -> isEmpty token = false ->
    getUser env token = Some uid ->
    json req = Some raw ->
    (forall s, In s ["receipt"; "screenshot"; "camera"; "upload"] ->
               get raw "sourceType" <> VStr s) ->
    exists issues,
      POST ver env req w
      = (mkResponse 400 (ErrorBody (MessageOf (ZodError issues))),
         mkWorld (db w) (calls w ++ [AuthGetUser token])).
Proof.
  intros rt ver env req [d log] token uid raw Htok Hne Huser Hjson Hunlisted.
  unfold POST, tryCatch, POST_try.
  unfold bind, request, lift, respond, throw, ret, getDb, putDb.
  rewrite Htok, Hne. cbn [fst snd db calls]. rewrite Huser, Hjson.
  destruct (zodParse BodySchema raw) as [e|body] eqn:Hbody.
  - unfold zodParse in Hbody.
    destruct (parse BodySchema raw) as [issues|]; [|discriminate Hbody].
    injection Hbody as <-. exists issues. reflexivity.
  - destruct (BodySchema_sourceType_listed raw body Hbody) as (s & Hs & Hin).
    exfalso. exact (Hunlisted s Hin Hs).
Qed.

Lemma POST_rejects_unlisted_source_type_witness :
  exists issues,
    @POST Sample.runtime V3 Sample.answeringEnv Sample.unlistedSourceRequest
      Sample.world
    = (mkResponse 400 (ErrorBody (MessageOf (ZodError issues))),
       mkWorld (db Sample.world) (calls Sample.world ++ [AuthGetUser "alice-token"])).
Proof.
  apply (@POST_rejects_unlisted_source_type Sample.runtime V3 Sample.answeringEnv
           Sample.unlistedSourceRequest Sample.world "alice-token" "alice"
           (VObj [("imagePath", VStr "alice/2024-03/c.jpg");
                  ("sourceType", VStr "foo")])
           eq_refl eq_refl eq_refl eq_refl).
  intros s [<-|[<-|[<-|[<-|[]]]]]; discriminate.
Defined.

End PostFacts.

(* ================================================================== *)
(** ** Further results on the transactions API *)
(* ================================================================== *)

Module AccessFacts.
Import Js Zod Http Store Handler Process Transactions Spec Props ZodFacts
  PipelineFacts TransactionFacts.

Lemma onlyAskedAuth_refl : forall w, onlyAskedAuth w w.
Proof.
  intros w. split; [reflexivity|]. exists []. split.
  - now rewrite app_nil_r.
  - intros c [].
Qed.

Lemma onlyAskedAuth_one :
  forall d log token,
    onlyAskedAuth (mkWorld d log) (mkWorld d (log ++ [AuthGetUser token])).
Proof.
  intros d log token. split; [reflexivity|]. exists [AuthGetUser token].
  split; [reflexivity|]. intros c [<-|[]]. eauto.
Qed.

Lemma getUserFromRequest_unauthenticated :
  forall env req w,
    unauthenticated env req ->
    exists message w',
      getUserFromRequest env req w = (Next (inl message), w')
      /\ onlyAskedAuth w w'.
Proof.
  intros env req [d log] H. unfold unauthenticated in H.
  unfold getUserFromRequest.
  destruct (bearerToken req) as [token|].
  - destruct (isEmpty token) eqn:He.
    + eexists _, _. split; [reflexivity | apply onlyAskedAuth_refl].
    + destruct H as [H|H]; [discriminate H|].
      unfold bind, request. simpl. rewrite H.
      eexists _, _. split; [reflexivity | apply onlyAskedAuth_one].
  - eexists _, _. split; [reflexivity | apply onlyAskedAuth_refl].
Qed.

(** Without a user -- no bearer token, an empty one, or one the auth
    service does not know -- each of the five handlers answers 401, stores
    and removes nothing, and asks the back end for nothing but the user of
    the token. *)
Theorem unauthenticated_gets_401 :
  forall {rt : Runtime} ver env req w,
    unauthenticated env req ->
    (status (fst (Transactions.GET env req w)) = 401
     /\ onlyAskedAuth w (snd (Transactions.GET env req w)))
    /\ (status (fst (DELETE env req w)) = 401
        /\ onlyAskedAuth w (snd (DELETE env req w)))
    /\ (status (fst (PATCH ver env req w)) = 401
        /\ onlyAskedAuth w (snd (PATCH ver env req w)))
    /\ (status (fst (POST ver env req w)) = 401
        /\ onlyAskedAuth w (snd (POST ver env req w)))
    /\ ((exists r, fst (Image.GET env req w) = inl r /\ status r = 401)
        /\ onlyAskedAuth w (snd (Image.GET env req w))).
Proof.
  intros rt ver env req w H.
  destruct (getUserFromRequest_unauthenticated env req w H)
    as (message & w' & Hauth & Hq).
  split; [|split; [|split; [|split]]].
  - unfold Transactions.GET, tryCatch, GET_body, bind. rewrite Hauth. simpl.
    split; [reflexivity | exact Hq].
  - unfold DELETE, tryCatch, DELETE_body, bind. rewrite Hauth. simpl.
    split; [reflexivity | exact Hq].
  - unfold PATCH, tryCatch, PATCH_body, bind. rewrite Hauth. simpl.
    split; [reflexivity | exact Hq].
  - destruct w as [d log]. unfold unauthenticated in H.
    unfold POST, tryCatch, POST_try.
    destruct (bearerToken req) as [token|].
    + destruct (isEmpty token) eqn:He.
      * simpl. split; [reflexivity | apply onlyAskedAuth_refl].
      * destruct H as [H|H]; [discriminate H|].
        unfold bind, request. simpl. rewrite H. simpl.
        split; [reflexivity | apply onlyAskedAuth_one].
    + simpl. split; [reflexivity | apply onlyAskedAuth_refl].
  - unfold Image.GET, Image.GET_body, bind. rewrite Hauth. simpl.
    split; [eexists; split; reflexivity | exact Hq].
Qed.

Lemma unauthenticated_gets_401_witness :
  unauthenticated Sample.silentEnv
    (mkRequest (Some "Bearer stolen") (Some (VObj [("id", VStr "txn-b")])) None)
  /\ status (fst (@DELETE Sample.runtime Sample.silentEnv
                    (mkRequest (Some "Bearer stolen")
                       (Some (VObj [("id", VStr "txn-b")])) None)
                    Sample.world)) = 401
  /\ onlyAskedAuth Sample.world
       (snd (@DELETE Sample.runtime Sample.silentEnv
               (mkRequest (Some "Bearer stolen")
                  (Some (VObj [("id", VStr "txn-b")])) None)
               Sample.world)).
Proof.
  assert (H : unauthenticated Sample.silentEnv
                (mkRequest (Some "Bearer stolen")
                   (Some (VObj [("id", VStr "txn-b")])) None)).
  { right. reflexivity. }
  split; [exact H|].
  exact (proj1 (proj2 (@unauthenticated_gets_401 Sample.runtime V4
                         Sample.silentEnv _ Sample.world H))).
Defined.

(** *** Listing *)

Lemma insertDesc_perm :
  forall r sorted, Permutation (insertDesc r sorted) (r :: sorted).
Proof.
  intros r sorted. induction sorted as [|r' rest IH]; simpl.
  - apply Permutation_refl.
  - destruct (created_at r' <? created_at r).
    + apply Permutation_refl.
    + apply perm_trans with (r' :: r :: rest).
      * now apply perm_skip.
      * apply perm_swap.
Qed.

Lemma orderDesc_perm : forall rows, Permutation (orderDesc rows) rows.
Proof.
  induction rows as [|r rest IH]; simpl.
  - apply perm_nil.
  - apply perm_trans with (r :: orderDesc rest).
    + apply insertDesc_perm.
    + now apply perm_skip.
Qed.

Lemma insertDesc_sorted :
  forall r sorted,
    StronglySorted newestFirst sorted ->
    StronglySorted newestFirst (insertDesc r sorted).
Proof.
  intros r sorted H. induction H as [|r' rest Hrest IH Hall]; simpl.
  - repeat constructor.
  - destruct (Z.ltb_spec (created_at r') (created_at r)) as [Hlt|Hge].
    + constructor; [now constructor|].
      constructor; [unfold newestFirst; lia|].
      rewrite Forall_forall in *. intros x Hx.
      specialize (Hall x Hx). unfold newestFirst in *. lia.
    + constructor; [exact IH|].
      rewrite Forall_forall in *. intros x Hx.
      apply In_insertDesc in Hx. destruct Hx as [->|Hx].
      * unfold newestFirst. lia.
      * now apply Hall.
Qed.

Lemma orderDesc_sorted :
  forall rows, StronglySorted newestFirst (orderDesc rows).
Proof.
  induction rows as [|r rest IH]; simpl.
  - constructor.
  - now apply insertDesc_sorted.
Qed.

Lemma GET_listing :
  forall env req w uid,
    authenticated env req uid ->
    select_error env = None ->
    fst (Transactions.GET env req w)
    = mkResponse 200
        (TransactionsBody (orderDesc (filter (owned uid) (transactions (db w))))).
Proof.
  intros env req [d log] uid Hauth Hsel.
  destruct (Transactions.GET env req (mkWorld d log)) as [res w'] eqn:Heq.
  unfold Transactions.GET, tryCatch, GET_body in Heq.
  as_user Hauth Heq. rewrite Hsel in Heq. simpl in Heq.
  injection Heq as <- <-. reflexivity.
Qed.

(** When the table answers, the listing is the 200 answer with all of the
    caller's rows, each once, the newest first. *)
Theorem GET_lists_all_newest_first :
  forall env req w uid,
    authenticated env req uid ->
    select_error env = None ->
    exists rows,
      fst (Transactions.GET env req w) = mkResponse 200 (TransactionsBody rows)
      /\ Permutation rows (filter (owned uid) (transactions (db w)))
      /\ StronglySorted newestFirst rows.
Proof.
  intros env req w uid Hauth Hsel.
  eexists. split; [exact (GET_listing env req w uid Hauth Hsel)|]. split.
  - apply orderDesc_perm.
  - apply orderDesc_sorted.
Qed.

Lemma GET_lists_all_newest_first_witness :
  authenticated Sample.silentEnv Sample.foreignRequest "alice"
  /\ select_error Sample.silentEnv = None
  /\ exists rows,
       fst (Transactions.GET Sample.silentEnv Sample.foreignRequest Sample.world)
       = mkResponse 200 (TransactionsBody rows)
       /\ Permutation rows
            (filter (owned "alice") (transactions (db Sample.world)))
       /\ StronglySorted newestFirst rows.
Proof.
  assert (Hauth : authenticated Sample.silentEnv Sample.foreignRequest "alice").
  { exists "alice-token". repeat split; reflexivity. }
  split; [exact Hauth|]. split; [reflexivity|].
  exact (GET_lists_all_newest_first Sample.silentEnv Sample.foreignRequest
           Sample.world "alice" Hauth eq_refl).
Defined.

(** *** Deleting *)

Lemma DELETE_found :
  forall {rt : Runtime} env req w uid id0 txn res w',
    authenticated env req uid ->
    DELETE env req w = (res, w') ->
    get (bodyOrNull req) "id" = VStr id0 -> isEmpty id0 = false ->
    filter (ownedWithId id0 uid) (transactions (db w)) = [txn] ->
    select_error env = None -> delete_error env = None ->
    (forall message, remove_error env = Some message ->
                     matchesNotFound message = true) ->
    res = mkResponse 200 OkBody
    /\ transactions (db w')
       = filter (fun r => negb (ownedWithId id0 uid r)) (transactions (db w))
    /\ objects (db w') = objectsAfterDelete env txn (db w).
Proof.
  intros rt env req [d log] uid id0 txn res w' Hauth Heq Hid Hempty Hone Hsel Hdel Hrem.
  unfold DELETE, tryCatch, DELETE_body in Heq.
  as_user Hauth Heq.
  rewrite Hid in Heq. simpl in Heq, Hone. rewrite Hempty in Heq. simpl in Heq.
  rewrite Hsel, Hone in Heq. simpl in Heq.
  unfold objectsAfterDelete.
  destruct (truthy (image_path txn)); simpl in Heq.
  - destruct (remove_error env) as [message|] eqn:Hr.
    + rewrite (Hrem message eq_refl) in Heq. simpl in Heq.
      rewrite Hdel in Heq. simpl in Heq. rewrite Hone in Heq. simpl in Heq.
      injection Heq as <- <-. repeat split.
    + simpl in Heq. rewrite Hdel in Heq. simpl in Heq.
      rewrite Hone in Heq. simpl in Heq.
      injection Heq as <- <-. repeat split.
  - rewrite Hdel in Heq. simpl in Heq. rewrite Hone in Heq. simpl in Heq.
    injection Heq as <- <-. repeat split. simpl.
    destruct (remove_error env); reflexivity.
Qed.

Lemma DELETE_absent :
  forall {rt : Runtime} env req w uid id0 res w',
    authenticated env req uid ->
    DELETE env req w = (res, w') ->
    get (bodyOrNull req) "id" = VStr id0 -> isEmpty id0 = false ->
    filter (ownedWithId id0 uid) (transactions (db w)) = [] ->
    select_error env = None ->
    res = errorResponse 404 "Not found." /\ db w' = db w.
Proof.
  intros rt env req [d log] uid id0 res w' Hauth Heq Hid Hempty Hnone Hsel.
  unfold DELETE, tryCatch, DELETE_body in Heq.
  as_user Hauth Heq.
  rewrite Hid in Heq. simpl in Heq, Hnone. rewrite Hempty in Heq. simpl in Heq.
  rewrite Hsel, Hnone in Heq. simpl in Heq.
  injection Heq as <- <-. split; reflexivity.
Qed.

Lemma nothing_left_after_delete :
  forall id0 uid rows,
    filter (ownedWithId id0 uid)
      (filter (fun r => negb (ownedWithId id0 uid r)) rows) = [].
Proof.
  intros id0 uid rows. induction rows as [|r rest IH]; [reflexivity|].
  simpl. destruct (ownedWithId id0 uid r) eqn:E; simpl.
  - exact IH.
  - now rewrite E.
Qed.

(** A delete of a transaction of the caller, when the table answers and
    the bucket answers or only says that the image is not found, gets the
    200 answer, removes from the table exactly the caller's row with that
    id, and removes the image from the bucket when the row names one and
    the bucket gave no error. *)
Theorem DELETE_removes_row_and_image :
  forall {rt : Runtime} env req w uid id0 txn,
    authenticated env req uid ->
    get (bodyOrNull req) "id" = VStr id0 -> isEmpty id0 = false ->
    filter (ownedWithId id0 uid) (transactions (db w)) = [txn] ->
    select_error env = None -> delete_error env = None ->
    (forall message, remove_error env = Some message ->
                     matchesNotFound message = true) ->
    fst (DELETE env req w) = mkResponse 200 OkBody
    /\ transactions (db (snd (DELETE env req w)))
       = filter (fun r => negb (ownedWithId id0 uid r)) (transactions (db w))
    /\ objects (db (snd (DELETE env req w))) = objectsAfterDelete env txn (db w).
Proof.
  intros rt env req w uid id0 txn Hauth Hid Hempty Hone Hsel Hdel Hrem.
  destruct (DELETE env req w) as [res w'] eqn:Heq.
  exact (DELETE_found env req w uid id0 txn res w' Hauth Heq Hid Hempty Hone
           Hsel Hdel Hrem).
Qed.

Lemma DELETE_removes_row_and_image_witness :
  authenticated Sample.silentEnv
    (mkRequest (Some "Bearer alice-token") (Some (VObj [("id", VStr "txn-a")])) None)
    "alice"
  /\ fst (@DELETE Sample.runtime Sample.silentEnv
            (mkRequest (Some "Bearer alice-token")
               (Some (VObj [("id", VStr "txn-a")])) None)
            Sample.world)
     = mkResponse 200 OkBody
  /\ transactions
       (db (snd (@DELETE Sample.runtime Sample.silentEnv
                   (mkRequest (Some "Bearer alice-token")
                      (Some (VObj [("id", VStr "txn-a")])) None)
                   Sample.world)))
     = [Sample.row "txn-b" "bob" "bob/2024-03/b.jpg" 20]
  /\ objects
       (db (snd (@DELETE Sample.runtime Sample.silentEnv
                   (mkRequest (Some "Bearer alice-token")
                      (Some (VObj [("id", VStr "txn-a")])) None)
                   Sample.world)))
     = ["bob/2024-03/b.jpg"].
Proof.
  assert (Hauth : authenticated Sample.silentEnv
                    (mkRequest (Some "Bearer alice-token")
                       (Some (VObj [("id", VStr "txn-a")])) None) "alice").
  { exists "alice-token". repeat split; reflexivity. }
  split; [exact Hauth|].
  apply (@DELETE_removes_row_and_image Sample.runtime Sample.silentEnv _ Sample.world "alice"
           "txn-a" (Sample.row "txn-a" "alice" "alice/2024-03/a.jpg" 10) Hauth);
    try reflexivity.
  intros message H. discriminate H.
Defined.

(** After such a delete the same request answers Not found and changes
    nothing. *)
Theorem DELETE_again_is_not_found :
  forall {rt : Runtime} env req w uid id0 txn,
    authenticated env req uid ->
    get (bodyOrNull req) "id" = VStr id0 -> isEmpty id0 = false ->
    filter (ownedWithId id0 uid) (transactions (db w)) = [txn] ->
    select_error env = None -> delete_error env = None ->
    (forall message, remove_error env = Some message ->
                     matchesNotFound message = true) ->
    fst (DELETE env req (snd (DELETE env req w))) = errorResponse 404 "Not found."
    /\ db (snd (DELETE env req (snd (DELETE env req w))))
       = db (snd (DELETE env req w)).
Proof.
  intros rt env req w uid id0 txn Hauth Hid Hempty Hone Hsel Hdel Hrem.
  destruct (DELETE env req w) as [res w'] eqn:Heq.
  destruct (DELETE_found env req w uid id0 txn res w' Hauth Heq Hid Hempty Hone
              Hsel Hdel Hrem) as (_ & Hrows & _).
  simpl. destruct (DELETE env req w') as [res2 w2] eqn:Heq2. simpl.
  apply (DELETE_absent env req w' uid id0 res2 w2 Hauth Heq2 Hid Hempty);
    [|exact Hsel].
  rewrite Hrows. apply nothing_left_after_delete.
Qed.

Lemma DELETE_again_is_not_found_witness :
  authenticated Sample.silentEnv
    (mkRequest (Some "Bearer alice-token") (Some (VObj [("id", VStr "txn-a")])) None)
    "alice"
  /\ fst (@DELETE Sample.runtime Sample.silentEnv
            (mkRequest (Some "Bearer alice-token")
               (Some (VObj [("id", VStr "txn-a")])) None)
            (snd (@DELETE Sample.runtime Sample.silentEnv
                    (mkRequest (Some "Bearer alice-token")
                       (Some (VObj [("id", VStr "txn-a")])) None)
                    Sample.world)))
     = errorResponse 404 "Not found.".
Proof.
  assert (Hauth : authenticated Sample.silentEnv
                    (mkRequest (Some "Bearer alice-token")
                       (Some (VObj [("id", VStr "txn-a")])) None) "alice").
  { exists "alice-token". repeat split; reflexivity. }
  split; [exact Hauth|].
  apply (@DELETE_again_is_not_found Sample.runtime Sample.silentEnv _ Sample.world "alice"
           "txn-a" (Sample.row "txn-a" "alice" "alice/2024-03/a.jpg" 10) Hauth);
    try reflexivity.
  intros message H. discriminate H.
Defined.

(** When the bucket answers the removal of the image with an error that
    does not say "not found", the delete stops there: the answer is 500
    with that message, the row stays, and no delete is asked of the table. *)
Theorem DELETE_keeps_row_when_storage_fails :
  forall {rt : Runtime} env req w uid id0 txn message,
    authenticated env req uid ->
    get (bodyOrNull req) "id" = VStr id0 -> isEmpty id0 = false ->
    filter (ownedWithId id0 uid) (transactions (db w)) = [txn] ->
    select_error env = None ->
    truthy (image_path txn) = true ->
    remove_error env = Some message -> matchesNotFound message = false ->
    fst (DELETE env req w) = errorResponse 500 message
    /\ db (snd (DELETE env req w)) = db w
    /\ exists token,
         calls (snd (DELETE env req w))
         = (calls w ++ [AuthGetUser token; Select;
                        StorageRemove (str (image_path txn))])%list.
Proof.
  intros rt env req [d log] uid id0 txn message Hauth Hid Hempty Hone Hsel Himg
    Hrem Hnf.
  destruct (DELETE env req (mkWorld d log)) as [res w'] eqn:Heq.
  unfold DELETE, tryCatch, DELETE_body in Heq.
  as_user Hauth Heq.
  rewrite Hid in Heq. simpl in Heq, Hone. rewrite Hempty in Heq. simpl in Heq.
  rewrite Hsel, Hone in Heq. simpl in Heq.
  rewrite Himg in Heq. simpl in Heq. rewrite Hrem, Hnf in Heq. simpl in Heq.
  injection Heq as <- <-. simpl.
  repeat split. exists token. now rewrite <- !app_assoc.
Qed.

Lemma DELETE_keeps_row_when_storage_fails_witness :
  authenticated Sample.brokenBucketEnv
    (mkRequest (Some "Bearer alice-token") (Some (VObj [("id", VStr "txn-a")])) None)
    "alice"
  /\ @matchesNotFound Sample.runtime "Bucket is offline" = false
  /\ fst (@DELETE Sample.runtime Sample.brokenBucketEnv
            (mkRequest (Some "Bearer alice-token")
               (Some (VObj [("id", VStr "txn-a")])) None)
            Sample.world)
     = errorResponse 500 "Bucket is offline"
  /\ db (snd (@DELETE Sample.runtime Sample.brokenBucketEnv
                (mkRequest (Some "Bearer alice-token")
                   (Some (VObj [("id", VStr "txn-a")])) None)
                Sample.world))
     = db Sample.world.
Proof.
  assert (Hauth : authenticated Sample.brokenBucketEnv
                    (mkRequest (Some "Bearer alice-token")
                       (Some (VObj [("id", VStr "txn-a")])) None) "alice").
  { exists "alice-token". repeat split; reflexivity. }
  split; [exact Hauth|]. split; [reflexivity|].
  destruct (@DELETE_keeps_row_when_storage_fails Sample.runtime
              Sample.brokenBucketEnv _ Sample.world "alice" "txn-a"
              (Sample.row "txn-a" "alice" "alice/2024-03/a.jpg" 10)
              "Bucket is offline" Hauth eq_refl eq_refl eq_refl eq_refl eq_refl
              eq_refl eq_refl) as (Hres & Hdb & _).
  split; [exact Hres | exact Hdb].
Defined.

End AccessFacts.

(* ================================================================== *)
(** ** Further results on [PATCH] *)
(* ================================================================== *)

Module PatchFacts.
Import Js Zod Http Store Handler Process Transactions Spec Props ZodFacts
  PipelineFacts TransactionFacts.

Lemma fixedColumns_applyUpdate :
  forall update r, fixedColumns (applyUpdate update r) = fixedColumns r.
Proof. reflexivity. Qed.

Lemma fixedColumns_map :
  forall update (select : Row -> bool) rows,
    map fixedColumns
      (map (fun r => if select r then applyUpdate update r else r) rows)
    = map fixedColumns rows.
Proof.
  intros update select rows. rewrite map_map. apply map_ext.
  intros r. destruct (select r); reflexivity.
Qed.

(** Whatever the request, [PATCH] adds no row and removes none, leaves
    the bucket alone, and leaves in every row the columns that no patch
    names: [id], [user_id], [created_at], [source_type], [image_path],
    [ai_json] and [confidence]. *)
Theorem PATCH_keeps_fixed_columns :
  forall {rt : Runtime} ver env req w,
    map fixedColumns (transactions (db (snd (PATCH ver env req w))))
    = map fixedColumns (transactions (db w))
    /\ objects (db (snd (PATCH ver env req w))) = objects (db w).
Proof.
  intros rt ver env req [d log].
  destruct (PATCH ver env req (mkWorld d log)) as [res w'] eqn:Heq.
  unfold PATCH, tryCatch, PATCH_body, getUserFromRequest in Heq.
  unfold bind, request, lift, respond, throw, ret, getDb, putDb in Heq.
  simpl in Heq.
  walk Heq. all: injection Heq as <- <-. all: simpl.
  all: try (split; reflexivity).
  all: split; [apply fixedColumns_map | reflexivity].
Qed.

Lemma PATCH_found :
  forall {rt : Runtime} ver env req w uid parsed txn,
    authenticated env req uid ->
    zodParse (PatchBodySchema ver) (bodyOrNull req) = inr parsed ->
    updateOf parsed <> [] ->
    update_error env = None ->
    filter (ownedWithId (str (get parsed "id")) uid) (transactions (db w)) = [txn] ->
    PATCH ver env req w
    = (mkResponse 200 (TransactionBody (applyUpdate (updateOf parsed) txn)),
       mkWorld
         (mkDb (map (fun r => if ownedWithId (str (get parsed "id")) uid r
                              then applyUpdate (updateOf parsed) r else r)
                  (transactions (db w)))
            (objects (db w)))
         (calls (snd (PATCH ver env req w)))).
Proof.
  intros rt ver env req [d log] uid parsed txn Hauth Hp Hne Herr Hone.
  destruct (PATCH ver env req (mkWorld d log)) as [res w'] eqn:Heq.
  unfold PATCH, tryCatch, PATCH_body in Heq.
  as_user Hauth Heq. rewrite Hp in Heq. simpl in Heq, Hone.
  destruct (updateOf parsed) as [|kv more] eqn:Hu; [now contradiction Hne|].
  simpl in Heq. rewrite Herr, Hone in Heq. simpl in Heq.
  injection Heq as <- <-. reflexivity.
Qed.

Lemma patchable_applyUpdate :
  forall parsed r k,
    In k patchKeys ->
    patchable k (applyUpdate (updateOf parsed) r)
    = if isUndefined (get parsed k) then patchable k r else get parsed k.
Proof.
  intros parsed r k Hin. unfold updateOf, applyUpdate, updated. simpl.
  destruct (isUndefined (get parsed "merchant")) eqn:E1,
           (isUndefined (get parsed "txn_date")) eqn:E2,
           (isUndefined (get parsed "total_cents")) eqn:E3,
           (isUndefined (get parsed "currency")) eqn:E4,
           (isUndefined (get parsed "category")) eqn:E5;
    simpl in Hin;
    destruct Hin as [<-|[<-|[<-|[<-|[<-|[]]]]]];
    simpl; rewrite ?E1, ?E2, ?E3, ?E4, ?E5; reflexivity.
Qed.

(** A patch of a transaction of the caller, with a valid body that names
    at least one column, when the table answers: the answer is 200 with
    the patched row; in the table exactly the caller's row with that id is
    patched; and in the patched row each of the five columns has the value
    the parsed body gives it, or its old value when the body does not name
    it. *)
Theorem PATCH_updates_own_row :
  forall {rt : Runtime} ver env req w uid parsed txn,
    authenticated env req uid ->
    zodParse (PatchBodySchema ver) (bodyOrNull req) = inr parsed ->
    updateOf parsed <> [] ->
    update_error env = None ->
    filter (ownedWithId (str (get parsed "id")) uid) (transactions (db w)) = [txn] ->
    fst (PATCH ver env req w)
    = mkResponse 200 (TransactionBody (applyUpdate (updateOf parsed) txn))
    /\ transactions (db (snd (PATCH ver env req w)))
       = map (fun r => if ownedWithId (str (get parsed "id")) uid r
                       then applyUpdate (updateOf parsed) r else r)
           (transactions (db w))
    /\ (forall k, In k patchKeys ->
          patchable k (applyUpdate (updateOf parsed) txn)
          = if isUndefined (get parsed k) then patchable k txn else get parsed k).
Proof.
  intros rt ver env req w uid parsed txn Hauth Hp Hne Herr Hone.
  rewrite (PATCH_found ver env req w uid parsed txn Hauth Hp Hne Herr Hone).
  simpl. repeat split. intros k Hin. now apply patchable_applyUpdate.
Qed.

Lemma PATCH_updates_own_row_witness :
  authenticated Sample.silentEnv Sample.renameRequest "alice"
  /\ fst (@PATCH Sample.runtime V4 Sample.silentEnv Sample.renameRequest Sample.world)
     = mkResponse 200
         (TransactionBody
            (applyUpdate [("merchant", VStr "Costco Wholesale"); ("currency", VStr "USD")]
               (Sample.row "txn-a" "alice" "alice/2024-03/a.jpg" 10)))
  /\ transactions
       (db (snd (@PATCH Sample.runtime V4 Sample.silentEnv Sample.renameRequest
                   Sample.world)))
     = [applyUpdate [("merchant", VStr "Costco Wholesale"); ("currency", VStr "USD")]
          (Sample.row "txn-a" "alice" "alice/2024-03/a.jpg" 10);
        Sample.row "txn-b" "bob" "bob/2024-03/b.jpg" 20].
Proof.
  assert (Hauth : authenticated Sample.silentEnv Sample.renameRequest "alice").
  { exists "alice-token". repeat split; reflexivity. }
  split; [exact Hauth|].
  destruct (@PATCH_updates_own_row Sample.runtime V4 Sample.silentEnv
              Sample.renameRequest Sample.world "alice"
              (VObj [("id", VStr "txn-a"); ("merchant", VStr "Costco Wholesale");
                     ("currency", VStr "USD")])
              (Sample.row "txn-a" "alice" "alice/2024-03/a.jpg" 10)
              Hauth eq_refl ltac:(discriminate) eq_refl eq_refl)
    as (Hres & Hrows & _).
  split; [exact Hres | exact Hrows].
Defined.

(** After such a patch, the listing of the same caller holds the patched
    row. *)
Theorem PATCH_then_GET_lists_patched_row :
  forall {rt : Runtime} ver env req w uid parsed txn,
    authenticated env req uid ->
    zodParse (PatchBodySchema ver) (bodyOrNull req) = inr parsed ->
    updateOf parsed <> [] ->
    update_error env = None -> select_error env = None ->
    filter (ownedWithId (str (get parsed "id")) uid) (transactions (db w)) = [txn] ->
    exists rows,
      fst (Transactions.GET env req (snd (PATCH ver env req w)))
      = mkResponse 200 (TransactionsBody rows)
      /\ In (applyUpdate (updateOf parsed) txn) rows.
Proof.
  intros rt ver env req w uid parsed txn Hauth Hp Hne Herr Hsel Hone.
  rewrite (PATCH_found ver env req w uid parsed txn Hauth Hp Hne Herr Hone).
  cbn [snd].
  rewrite (AccessFacts.GET_listing env req _ uid Hauth Hsel). cbn [db transactions].
  eexists. split; [reflexivity|].
  assert (Hin : In txn (filter (ownedWithId (str (get parsed "id")) uid)
                          (transactions (db w)))).
  { rewrite Hone. now left. }
  apply filter_In in Hin. destruct Hin as [Hin Hown].
  apply In_orderDesc. apply filter_In. split.
  - apply in_map_iff. exists txn. split; [now rewrite Hown | exact Hin].
  - unfold ownedWithId in Hown. apply andb_prop in Hown. exact (proj2 Hown).
Qed.

Lemma PATCH_then_GET_lists_patched_row_witness :
  authenticated Sample.silentEnv Sample.renameRequest "alice"
  /\ exists rows,
       fst (Transactions.GET Sample.silentEnv Sample.renameRequest
              (snd (@PATCH Sample.runtime V4 Sample.silentEnv Sample.renameRequest
                      Sample.world)))
       = mkResponse 200 (TransactionsBody rows)
       /\ In (applyUpdate
                (updateOf (VObj [("id", VStr "txn-a");
                                 ("merchant", VStr "Costco Wholesale");
                                 ("currency", VStr "USD")]))
                (Sample.row "txn-a" "alice" "alice/2024-03/a.jpg" 10)) rows.
Proof.
  assert (Hauth : authenticated Sample.silentEnv Sample.renameRequest "alice").
  { exists "alice-token". repeat split; reflexivity. }
  split; [exact Hauth|].
  exact (@PATCH_then_GET_lists_patched_row Sample.runtime V4 Sample.silentEnv
           Sample.renameRequest Sample.world "alice" _
           (Sample.row "txn-a" "alice" "alice/2024-03/a.jpg" 10)
           Hauth eq_refl ltac:(discriminate) eq_refl eq_refl eq_refl).
Defined.











Lemma has_outside :
  forall {A : Type} k (kvs : list (string * A)),
    ~ In k (map fst kvs) -> has k kvs = false.
Proof.
  intros A k kvs. unfold has. induction kvs as [|[k' v] rest IH]; simpl.
  - reflexivity.
  - intros H. destruct (String.eqb_spec k k') as [->|Hne].
    + exfalso. apply H. now left.
    + apply IH. intros Hin. apply H. now right.
Qed.

Lemma strict_rejects_unknown_key :
  forall shape data k,
    In k (map fst data) -> ~ In k (map fst shape) ->
    exists first more, _parse (z_object strict shape) (VObj data) = INVALID first more.
Proof.
  intros shape data k Hin Hout. simpl.
  destruct (parseShape shape data) as [out issues].
  assert (Hunknown : In k (unknownKeys shape data)).
  { unfold unknownKeys. apply filter_In. split; [exact Hin|].
    now rewrite (has_outside k shape Hout). }
  destruct (unknownKeys shape data) as [|k0 rest]; [contradiction|].
  destruct issues as [|first more]; simpl; eauto.
Qed.

(** A body with a key other than [id] and the five columns is answered
    400 with the validation error, and a valid body that names none of the
    five columns is answered 400 "No fields to update."; in both cases the
    only request sent is the one for the user of the token, and nothing is
    changed. *)
Theorem PATCH_rejects_before_update :
  forall {rt : Runtime} ver env req w uid,
    authenticated env req uid ->
    (forall data k,
       bodyOrNull req = VObj data ->
       In k (map fst data) -> ~ In k ("id" :: patchKeys) ->
       exists issues token,
         PATCH ver env req w
         = (mkResponse 400 (ErrorBody (MessageOf (ZodError issues))),
            mkWorld (db w) (calls w ++ [AuthGetUser token])))
    /\ (forall parsed,
          zodParse (PatchBodySchema ver) (bodyOrNull req) = inr parsed ->
          updateOf parsed = [] ->
          exists token,
            PATCH ver env req w
            = (errorResponse 400 "No fields to update.",
               mkWorld (db w) (calls w ++ [AuthGetUser token]))).
Proof.
  intros rt ver env req [d log] uid Hauth.
  destruct (PATCH ver env req (mkWorld d log)) as [res w'] eqn:Heq.
  unfold PATCH, tryCatch, PATCH_body in Heq.
  as_user Hauth Heq. split.
  - intros data k Hbody Hin Hout.
    destruct (strict_rejects_unknown_key
                [("id", z_string_min 1);
                 ("merchant", transform trimmedOrNull (optional ver stringOrNull));
                 ("txn_date", transform patch_txn_date (optional ver stringOrNull));
                 ("total_cents",
                  transform patch_total_cents
                    (optional ver (z_union [z_number ver []; z_string; z_null])));
                 ("currency", transform patch_currency (optional ver stringOrNull));
                 ("category", transform trimmedOrNull (optional ver stringOrNull))]
                data k Hin Hout) as (first & more & Hparse).
    unfold zodParse, parse, PatchBodySchema in Heq.
    rewrite Hbody, Hparse in Heq. simpl in Heq.
    injection Heq as <- <-. eauto.
  - intros parsed Hp Hu. rewrite Hp in Heq. simpl in Heq.
    rewrite Hu in Heq. simpl in Heq.
    injection Heq as <- <-. eauto.
Qed.

Lemma PATCH_rejects_before_update_witness :
  authenticated Sample.silentEnv
    (mkRequest (Some "Bearer alice-token")
       (Some (VObj [("id", VStr "txn-a"); ("user_id", VStr "bob")])) None)
    "alice"
  /\ exists issues token,
       @PATCH Sample.runtime V4 Sample.silentEnv
         (mkRequest (Some "Bearer alice-token")
            (Some (VObj [("id", VStr "txn-a"); ("user_id", VStr "bob")])) None)
         Sample.world
       = (mkResponse 400 (ErrorBody (MessageOf (ZodError issues))),
          mkWorld (db Sample.world) (calls Sample.world ++ [AuthGetUser token])).
Proof.
  assert (Hauth : authenticated Sample.silentEnv
                    (mkRequest (Some "Bearer alice-token")
                       (Some (VObj [("id", VStr "txn-a"); ("user_id", VStr "bob")]))
                       None) "alice").
  { exists "alice-token". repeat split; reflexivity. }
  split; [exact Hauth|].
  apply (proj1 (@PATCH_rejects_before_update Sample.runtime V4 Sample.silentEnv
                  _ Sample.world "alice" Hauth)
           [("id", VStr "txn-a"); ("user_id", VStr "bob")] "user_id" eq_refl).
  - simpl. tauto.
  - simpl. intuition discriminate.
Defined.

End PatchFacts.

(* ================================================================== *)
(** ** Results on the image route *)
(* ================================================================== *)

Module ImageFacts.
Import Js Zod Http Store Handler Process Transactions Spec Props
  PipelineFacts TransactionFacts.

Lemma maybeSingle_one :
  forall rows r, maybeSingle rows = OneRow r -> rows = [r].
Proof.
  intros [|r0 [|r1 rest]] r H; try discriminate H. now injection H as ->.
Qed.

(** For a caller authenticated as [uid], the image route changes nothing;
    it gives a URL only for a stored transaction of [uid] with the id of
    the query that names an image, and the URL is the one the bucket signs
    for that image for 600 seconds; with the id of a transaction that
    belongs to another user it answers Not found. *)
Theorem image_GET_scoped :
  forall env req w uid,
    authenticated env req uid ->
    db (snd (Image.GET env req w)) = db w
    /\ (forall url,
          fst (Image.GET env req w) = inr url ->
          exists id0 txn,
            search_id req = Some id0
            /\ In txn (transactions (db w))
            /\ id txn = id0 /\ user_id txn = uid
            /\ truthy (image_path txn) = true
            /\ signedUrl (createSignedUrl env (str (image_path txn)) (60 * 10))
               = Some url
            /\ isEmpty url = false)
    /\ (forall id0,
          search_id req = Some id0 -> isEmpty id0 = false ->
          belongsToAnother (db w) id0 uid -> select_error env = None ->
          fst (Image.GET env req w) = inl (errorResponse 404 "Not found.")).
Proof.
  intros env req [d log] uid Hauth.
  destruct (Image.GET env req (mkWorld d log)) as [res w'] eqn:Heq.
  unfold Image.GET, Image.GET_body in Heq.
  unfold bind at 1 in Heq.
  as_user Hauth Heq.
  split; [|split].
  - walk Heq. all: injection Heq as <- <-. all: reflexivity.
  - intros url Hurl. simpl in Hurl. subst res.
    walk Heq. all: try discriminate Heq.
    injection Heq as <- <-.
    match goal with
    | Hm : maybeSingle (filter (ownedWithId ?i uid) d.(transactions)) = OneRow ?t |- _ =>
        apply maybeSingle_one in Hm;
        assert (Hin : In t (filter (ownedWithId i uid) (transactions d)))
          by (rewrite Hm; now left);
        apply filter_In in Hin; destruct Hin as [Hin Hown];
        unfold ownedWithId in Hown; apply andb_prop in Hown;
        destruct Hown as [Hid Huid];
        apply String.eqb_eq in Hid; apply String.eqb_eq in Huid;
        exists i, t
    end.
    match goal with
    | Ht : negb (truthy _) = false |- _ => apply negb_false_iff in Ht
    end.
    repeat split; assumption.
  - intros id0 Hid Hne Hforeign Hsel. simpl in Hforeign.
    rewrite Hid, Hne in Heq. simpl in Heq.
    rewrite Hsel, (foreign_id_selects_nothing _ _ _ Hforeign) in Heq.
    simpl in Heq. injection Heq as <- <-. reflexivity.
Qed.

Lemma image_GET_scoped_witness :
  authenticated Sample.silentEnv
    (mkRequest (Some "Bearer alice-token") None (Some "txn-b")) "alice"
  /\ belongsToAnother (db Sample.world) "txn-b" "alice"
  /\ fst (Image.GET Sample.silentEnv
            (mkRequest (Some "Bearer alice-token") None (Some "txn-b"))
            Sample.world)
     = inl (errorResponse 404 "Not found.")
  /\ fst (Image.GET Sample.silentEnv
            (mkRequest (Some "Bearer alice-token") None (Some "txn-a"))
            Sample.world)
     = inr "https://storage.test/alice/2024-03/a.jpg".
Proof.
  assert (Hauth : authenticated Sample.silentEnv
                    (mkRequest (Some "Bearer alice-token") None (Some "txn-b"))
                    "alice").
  { exists "alice-token". repeat split; reflexivity. }
  assert (Hforeign : belongsToAnother (db Sample.world) "txn-b" "alice").
  { split.
    - exists (Sample.row "txn-b" "bob" "bob/2024-03/b.jpg" 20).
      split; [right; left; reflexivity | reflexivity].
    - intros r [<-|[<-|[]]] Hid; simpl in *; discriminate. }
  split; [exact Hauth|]. split; [exact Hforeign|]. split; [|reflexivity].
  destruct (image_GET_scoped Sample.silentEnv _ Sample.world "alice" Hauth)
    as (_ & _ & H).
  exact (H "txn-b" eq_refl eq_refl Hforeign eq_refl).
Defined.

End ImageFacts.

(* ================================================================== *)
(** ** Results on the pages *)
(* ================================================================== *)

Module ClientFacts.
Import Js Store Transactions Client.

(** *** The name of an upload *)

Lemma replaceUnsafe_safe :
  forall name inRun,
    forallb isSafeChar (list_ascii_of_string (replaceUnsafe inRun name)) = true.
Proof.
  induction name as [|c rest IH]; intros inRun; simpl; [reflexivity|].
  destruct (isSafeChar c) eqn:E; simpl.
  - now rewrite E, IH.
  - destruct inRun; simpl; apply IH.
Qed.

Lemma replaceUnsafe_fixed :
  forall name inRun,
    forallb isSafeChar (list_ascii_of_string name) = true ->
    replaceUnsafe inRun name = name.
Proof.
  induction name as [|c rest IH]; intros inRun H; simpl in *; [reflexivity|].
  apply andb_prop in H. destruct H as [Hc Hrest].
  now rewrite Hc, IH.
Qed.

(** The file name put in the path of an upload holds only letters,
    digits, dots, underscores and dashes; a name that holds nothing else
    is kept as it is; and cleaning a name twice changes nothing more. *)
Theorem safeName_safe_and_idempotent :
  forall name,
    forallb isSafeChar (list_ascii_of_string (safeName name)) = true
    /\ (forallb isSafeChar (list_ascii_of_string name) = true ->
        safeName name = name)
    /\ safeName (safeName name) = safeName name.
Proof.
  intros name. unfold safeName. split; [|split].
  - apply replaceUnsafe_safe.
  - apply replaceUnsafe_fixed.
  - apply replaceUnsafe_fixed. apply replaceUnsafe_safe.
Qed.

Lemma safeName_safe_and_idempotent_witness :
  safeName "my receipt (1).jpg" = "my-receipt-1-.jpg"
  /\ safeName "my-receipt-1-.jpg" = "my-receipt-1-.jpg".
Proof.
  split; [reflexivity|].
  apply (proj1 (proj2 (safeName_safe_and_idempotent "my-receipt-1-.jpg"))).
  reflexivity.
Defined.

(** *** The row taken out of the list and put back *)

Lemma filter_other_ids :
  forall id0 rows,
    ~ In id0 (map id rows) ->
    filter (fun r => negb (String.eqb (id r) id0)) rows = rows.
Proof.
  intros id0 rows. induction rows as [|r rest IH]; simpl; [reflexivity|].
  intros H. destruct (String.eqb_spec (id r) id0) as [E|E]; simpl.
  - exfalso. apply H. now left.
  - f_equal. apply IH. intros Hin. apply H. now right.
Qed.

Lemma existsb_other_ids :
  forall id0 rows,
    existsb (fun r => String.eqb (id r) id0)
      (filter (fun r => negb (String.eqb (id r) id0)) rows) = false.
Proof.
  intros id0 rows. induction rows as [|r rest IH]; simpl; [reflexivity|].
  destruct (String.eqb (id r) id0) eqn:E; simpl; [exact IH|].
  now rewrite E.
Qed.

Lemma findIndex_found :
  forall id0 rows idx,
    findIndex id0 rows = Some idx ->
    exists r, nth_error rows idx = Some r /\ id r = id0.
Proof.
  intros id0 rows. induction rows as [|r rest IH]; intros idx H; simpl in H.
  - discriminate H.
  - destruct (String.eqb_spec (id r) id0) as [E|E].
    + injection H as <-. exists r. split; [reflexivity | exact E].
    + destruct (findIndex id0 rest) as [i|]; [|discriminate H].
      injection H as <-. simpl. now apply IH.
Qed.

Lemma putBack_after_takeOut :
  forall id0 prev idx removed,
    NoDup (map id prev) ->
    findIndex id0 prev = Some idx ->
    nth_error prev idx = Some removed ->
    let rest := filter (fun r => negb (String.eqb (id r) id0)) prev in
    (firstn (Nat.min idx (List.length rest)) rest
     ++ removed :: skipn (Nat.min idx (List.length rest)) rest)%list = prev.
Proof.
  intros id0 prev. induction prev as [|r tl IH]; intros idx removed Hnd Hfind Hnth.
  - discriminate Hfind.
  - simpl in Hfind. inversion Hnd as [|? ? Hnotin Hnd']; subst.
    destruct (String.eqb_spec (id r) id0) as [E|E].
    + injection Hfind as <-. simpl in Hnth. injection Hnth as <-.
      cbn zeta. simpl. rewrite (proj2 (String.eqb_eq _ _) E). simpl.
      rewrite filter_other_ids by (rewrite <- E; exact Hnotin).
      reflexivity.
    + destruct (findIndex id0 tl) as [i|] eqn:Hi; [|discriminate Hfind].
      injection Hfind as <-. simpl in Hnth.
      cbn zeta. simpl. rewrite (proj2 (String.eqb_neq _ _) E). simpl.
      f_equal. exact (IH i removed Hnd' eq_refl Hnth).
Qed.

(** The optimistic delete of the list page can be undone: when no two
    rows of the list share an id, putting the removed row back into what
    was left of the list gives the list as it was, in the same order. *)
Theorem putBack_restores_the_list :
  forall id0 prev idx removed rest,
    NoDup (map id prev) ->
    takeOut id0 prev = (Some (idx, removed), rest) ->
    putBack idx removed rest = prev.
Proof.
  intros id0 prev idx removed rest Hnd H. unfold takeOut in H.
  destruct (findIndex id0 prev) as [i|] eqn:Hfind; [|discriminate H].
  destruct (nth_error prev i) as [r|] eqn:Hnth; [|discriminate H].
  injection H as <- <- <-.
  destruct (findIndex_found id0 prev i Hfind) as (r' & Hnth' & Hid).
  rewrite Hnth in Hnth'. injection Hnth' as <-.
  unfold putBack. rewrite Hid, existsb_other_ids.
  exact (putBack_after_takeOut id0 prev i r Hnd Hfind Hnth).
Qed.

Lemma putBack_restores_the_list_witness :
  takeOut "txn-a" (transactions (db Sample.world))
  = (Some (O, Sample.row "txn-a" "alice" "alice/2024-03/a.jpg" 10),
     [Sample.row "txn-b" "bob" "bob/2024-03/b.jpg" 20])
  /\ putBack O (Sample.row "txn-a" "alice" "alice/2024-03/a.jpg" 10)
       [Sample.row "txn-b" "bob" "bob/2024-03/b.jpg" 20]
     = transactions (db Sample.world).
Proof.
  split; [reflexivity|].
  apply (putBack_restores_the_list "txn-a" (transactions (db Sample.world))).
  - simpl. repeat (constructor; [simpl; intuition discriminate|]). constructor.
  - reflexivity.
Defined.

(** *** The row replaced after a save *)

(** After a save the list page puts the row that [PATCH] returned in the
    place of the row with its id: the ids of the list and their order stay
    as they were, and for a list of rows of the caller in which the patched
    transaction is the only row with its id, the list changes as the table
    did. *)
Theorem replaceRow_follows_the_table :
  forall update id0 uid txn prev,
    id txn = id0 ->
    (forall r, In r prev -> user_id r = uid) ->
    (forall r, In r prev -> id r = id0 -> r = txn) ->
    map id (replaceRow (applyUpdate update txn) prev) = map id prev
    /\ replaceRow (applyUpdate update txn) prev
       = map (fun r => if ownedWithId id0 uid r then applyUpdate update r else r)
           prev.
Proof.
  intros update id0 uid txn prev Hid Hown Hone. unfold replaceRow. split.
  - rewrite map_map. apply map_ext. intros r. simpl.
    destruct (String.eqb_spec (id r) (id txn)) as [E|E]; [now rewrite E | reflexivity].
  - apply map_ext_in. intros r Hin. simpl. unfold ownedWithId.
    rewrite (proj2 (String.eqb_eq _ _) (Hown r Hin)), andb_true_r, Hid.
    destruct (String.eqb_spec (id r) id0) as [E|E]; [|reflexivity].
    now rewrite (Hone r Hin E).
Qed.

Lemma replaceRow_follows_the_table_witness :
  replaceRow
    (applyUpdate [("merchant", VStr "Costco Wholesale")]
       (Sample.row "txn-a" "alice" "alice/2024-03/a.jpg" 10))
    [Sample.row "txn-a" "alice" "alice/2024-03/a.jpg" 10]
  = map (fun r => if ownedWithId "txn-a" "alice" r
                  then applyUpdate [("merchant", VStr "Costco Wholesale")] r
                  else r)
      [Sample.row "txn-a" "alice" "alice/2024-03/a.jpg" 10].
Proof.
  apply (replaceRow_follows_the_table [("merchant", VStr "Costco Wholesale")]
           "txn-a" "alice" (Sample.row "txn-a" "alice" "alice/2024-03/a.jpg" 10)
           [Sample.row "txn-a" "alice" "alice/2024-03/a.jpg" 10] eq_refl).
  - intros r [<-|[]]. reflexivity.
  - intros r [<-|[]] _. reflexivity.
Defined.

(** *** The identifier of an upload *)

Lemma hex_of_byte :
  forall b,
    0 <= b < 256 ->
    padStart2 (toString16 b)
    = String (hexDigit (b / 16)) (String (hexDigit (b mod 16)) EmptyString).
Proof.
  intros b Hb. unfold toString16.
  destruct (Z.ltb_spec b 16) as [Hlt|Hge].
  - rewrite Z.div_small, Z.mod_small by lia. reflexivity.
  - reflexivity.
Qed.

Lemma lor_above :
  forall n x, 0 <= n -> 0 <= x < 2 ^ n -> Z.lor x (2 ^ n) = x + 2 ^ n.
Proof.
  intros n x Hn Hx.
  assert (Hland : Z.land x (2 ^ n) = 0).
  { apply Z.bits_inj'. intros k Hk.
    rewrite Z.land_spec, Z.bits_0, Z.pow2_bits_eqb by lia.
    destruct (Z.eqb_spec n k) as [<-|Hne]; [|apply andb_false_r].
    rewrite <- (Z.mod_small x (2 ^ n)) by lia.
    rewrite Z.mod_pow2_bits_high by lia. reflexivity. }
  rewrite <- Z.lxor_lor by exact Hland.
  symmetry. apply Z.add_nocarry_lxor. exact Hland.
Qed.

Lemma land_ones_bound :
  forall b n, 0 <= n -> 0 <= Z.land b (Z.ones n) < 2 ^ n.
Proof.
  intros b n Hn. rewrite Z.land_ones by exact Hn.
  apply Z.mod_pos_bound. now apply Z.pow_pos_nonneg.
Qed.

Lemma version_byte :
  forall b, 64 <= Z.lor (Z.land b 15) 64 < 80.
Proof.
  intros b.
  pose proof (land_ones_bound b 4 ltac:(lia)) as Hx.
  change (Z.ones 4) with 15 in Hx. change (2 ^ 4) with 16 in Hx.
  pose proof (lor_above 6 (Z.land b 15) ltac:(lia)) as E.
  change (2 ^ 6) with 64 in E. rewrite E by lia. lia.
Qed.

Lemma variant_byte :
  forall b, 128 <= Z.lor (Z.land b 63) 128 < 192.
Proof.
  intros b.
  pose proof (land_ones_bound b 6 ltac:(lia)) as Hx.
  change (Z.ones 6) with 63 in Hx. change (2 ^ 6) with 64 in Hx.
  pose proof (lor_above 7 (Z.land b 63) ltac:(lia)) as E.
  change (2 ^ 7) with 128 in E. rewrite E by lia. lia.
Qed.

(** From sixteen bytes the fallback of [uuidLike] makes a string of 36
    characters, with dashes after the 8th, 12th, 16th and 20th of its 32
    hexadecimal digits, the version digit [4] in front of the third
    group and one of [8], [9], [a], [b] in front of the fourth. *)
Theorem uuidFromBytes_format :
  forall random,
    List.length random = 16%nat ->
    Forall (fun b => 0 <= b < 256) random ->
    String.length (uuidFromBytes random) = 36%nat
    /\ String.get 8 (uuidFromBytes random) = Some "-"%char
    /\ String.get 13 (uuidFromBytes random) = Some "-"%char
    /\ String.get 18 (uuidFromBytes random) = Some "-"%char
    /\ String.get 23 (uuidFromBytes random) = Some "-"%char
    /\ String.get 14 (uuidFromBytes random) = Some "4"%char
    /\ exists c,
         String.get 19 (uuidFromBytes random) = Some c
         /\ In c ["8"; "9"; "a"; "b"]%char.
Proof.
  intros random Hlen Hall.
  destruct random as [|b0 [|b1 [|b2 [|b3 [|b4 [|b5 [|b6 [|b7 [|b8 [|b9 [|b10
    [|b11 [|b12 [|b13 [|b14 [|b15 [|]]]]]]]]]]]]]]]]]; try discriminate Hlen.
  clear Hlen.
  repeat match goal with
         | H : Forall _ (_ :: _) |- _ => inversion H; clear H; subst
         end.
  unfold uuidFromBytes. cbn [setByte nth map].
  pose proof (version_byte b6) as Hv.
  pose proof (variant_byte b8) as Hr.
  rewrite !hex_of_byte by lia.
  cbn [String.concat append substring slice String.length String.get].
  assert (Hv4 : Z.lor (Z.land b6 15) 64 / 16 = 4).
  { pose proof (Z.div_le_lower_bound (Z.lor (Z.land b6 15) 64) 16 4).
    pose proof (Z.div_lt_upper_bound (Z.lor (Z.land b6 15) 64) 16 5). lia. }
  rewrite Hv4.
  repeat split.
  assert (Hq : 8 <= Z.lor (Z.land b8 63) 128 / 16 < 12).
  { pose proof (Z.div_le_lower_bound (Z.lor (Z.land b8 63) 128) 16 8).
    pose proof (Z.div_lt_upper_bound (Z.lor (Z.land b8 63) 128) 16 12). lia. }
  eexists. split; [reflexivity|].
  assert (Hcases : Z.lor (Z.land b8 63) 128 / 16 = 8
                   \/ Z.lor (Z.land b8 63) 128 / 16 = 9
                   \/ Z.lor (Z.land b8 63) 128 / 16 = 10
                   \/ Z.lor (Z.land b8 63) 128 / 16 = 11) by lia.
  destruct Hcases as [E|[E|[E|E]]]; rewrite E; simpl; tauto.
Qed.

Lemma uuidFromBytes_format_witness :
  uuidFromBytes [0; 17; 34; 51; 68; 85; 102; 119; 136; 153; 170; 187; 204; 221; 238; 255]
  = "00112233-4455-4677-8899-aabbccddeeff"
  /\ String.length
       (uuidFromBytes
          [0; 17; 34; 51; 68; 85; 102; 119; 136; 153; 170; 187; 204; 221; 238; 255])
     = 36%nat.
Proof.
  split; [reflexivity|].
  apply (uuidFromBytes_format
           [0; 17; 34; 51; 68; 85; 102; 119; 136; 153; 170; 187; 204; 221; 238; 255]
           eq_refl).
  repeat (constructor; [lia|]). constructor.
Defined.

End ClientFacts.
